(** * auto-routine-nanopore-qc: run discovery and analysis dispatch

    A shallow embedding of [auto_routine_nanopore_qc/core.py] and the
    properties of its two components: [find_run_dirs] (run discovery) and
    [analyze_run] (analysis dispatcher).

    Conventions of the embedding:
    - Python [str] values are [string]s of 8-bit characters, so names are
      ASCII: on them [\d] is [0-9] and [\w] is [A-Za-z0-9_].
    - A Python [dict] with string keys whose order is irrelevant is a
      [gmap string _]; a dict that is iterated ([pipeline_parameters],
      [conditions_checked]) is an association list in insertion order.
    - Exceptions are an explicit result type, and the mutable objects the
      code touches (the run descriptor, the file system, the log, the
      clock, the launched processes) are an explicit state.
    - The configuration is a record of the keys the code reads, with the
      types section 6 of the specification gives them; the optional keys
      are [option]s.
    - The file system is a tree without symbolic links, in which [..] is
      resolved as [os.path.normpath] does.  What the operating system and
      the external engine decide (the clock, the working and home
      directories, what a command does to the disk and how it exits, which
      entries refuse to be removed) is a parameter of every definition
      that depends on it.
    - A string with the null character in it cannot be handed to the
      operating system: [os.scandir] and [subprocess.run] raise
      [ValueError] for it before anything is listed or started. *)

From stdpp Require Import gmap strings list pretty.
From Stdlib Require Import ZArith Ascii String Lia.

Open Scope string_scope.

(** ** Python strings *)

Module PyStr.

Definition chr (n : nat) : ascii := ascii_of_nat n.

Definition nul : ascii := chr 0.
Definition newline : ascii := chr 10.
Definition dquote : ascii := chr 34.

Definition ord (c : ascii) : N := N_of_ascii c.

(** [sep.join(parts)] *)
Fixpoint join (sep : string) (parts : list string) : string :=
  match parts with
  | [] => ""
  | [x] => x
  | x :: rest => x +:+ sep +:+ join sep rest
  end.

(** [s.split(sep)] for a one-character separator: empty pieces are
    kept, so the result has one more element than [s] has separators. *)
Fixpoint split (sep : ascii) (s : string) : list string :=
  match s with
  | EmptyString => [""]
  | String c s' =>
      if Ascii.eqb c sep then "" :: split sep s'
      else match split sep s' with
           | [] => [String c ""]
           | w :: ws => String c w :: ws
           end
  end.

(** [s.replace(old, new)] for one-character [old] and [new]. *)
Fixpoint replace (old new : ascii) (s : string) : string :=
  match s with
  | EmptyString => ""
  | String c s' =>
      String (if Ascii.eqb c old then new else c) (replace old new s')
  end.

(** [sep in s] for a one-character [sep]. *)
Fixpoint contains (sep : ascii) (s : string) : bool :=
  match s with
  | EmptyString => false
  | String c s' => Ascii.eqb c sep || contains sep s'
  end.

Definition startswith (c : ascii) (s : string) : bool :=
  match s with
  | String c' _ => Ascii.eqb c' c
  | EmptyString => false
  end.

Fixpoint endswith (c : ascii) (s : string) : bool :=
  match s with
  | EmptyString => false
  | String c' EmptyString => Ascii.eqb c' c
  | String _ s' => endswith c s'
  end.

(** Zero padding on the left to [width] characters, as [%02d]. *)
Definition zfill (width : nat) (s : string) : string :=
  String.concat "" (List.repeat "0" (width - String.length s)) +:+ s.

End PyStr.

(** ** Python values that configuration can hold as a parameter value *)

Inductive pyval :=
| VNone
| VBool (b : bool)
| VInt (z : Z)
| VStr (s : string).

#[global] Instance pyval_eq_dec : EqDecision pyval.
Proof. solve_decision. Defined.

(** [str(v)] *)
Definition py_str (v : pyval) : string :=
  match v with
  | VNone => "None"
  | VBool true => "True"
  | VBool false => "False"
  | VInt z => pretty z
  | VStr s => s
  end.

Definition is_str (v : pyval) : Prop :=
  match v with VStr _ => True | _ => False end.

Definition is_strb (v : pyval) : bool :=
  match v with VStr _ => true | _ => false end.

(** ** Exceptions and the state monad of the embedding *)

Inductive exn :=
| IndexError
| KeyError (key : string)
| TypeError
| ValueError
| CalledProcessError (returncode : Z)
| OSError.

#[global] Instance exn_eq_dec : EqDecision exn.
Proof. solve_decision. Defined.

Inductive res (A : Type) :=
| Ok (a : A)
| Raise (e : exn).
Arguments Ok {A} a.
Arguments Raise {A} e.

Definition M (S A : Type) : Type := S -> res A * S.

Definition ret {S A} (a : A) : M S A := fun s => (Ok a, s).
Definition raise {S A} (e : exn) : M S A := fun s => (Raise e, s).
Definition bind {S A B} (m : M S A) (k : A -> M S B) : M S B :=
  fun s => match m s with
           | (Ok a, s') => k a s'
           | (Raise e, s') => (Raise e, s')
           end.
Definition get {S} : M S S := fun s => (Ok s, s).
Definition modify {S} (f : S -> S) : M S unit := fun s => (Ok tt, f s).

(** [try: body except ...: handler]; [handler e = None] means that no
    [except] clause matches [e], which then propagates. *)
Definition try_except {S A} (body : M S A) (handler : exn -> option (M S A))
  : M S A :=
  fun s => match body s with
           | (Ok a, s') => (Ok a, s')
           | (Raise e, s') =>
               match handler e with
               | Some h => h s'
               | None => (Raise e, s')
               end
           end.

Notation "'let*' x ':=' m 'in' k" := (bind m (fun x => k))
  (at level 10, x name, m at level 100, k at level 200).
Notation "m '>>' k" := (bind m (fun _ => k))
  (at level 100, k at level 200, right associativity).

(** [for x in xs: body(x)] *)
Fixpoint for_each {S A} (xs : list A) (body : A -> M S unit) : M S unit :=
  match xs with
  | [] => ret tt
  | x :: rest => body x >> for_each rest body
  end.

(** The values a generator yields, one per element, when it is drained. *)
Fixpoint yield_each {S A B} (xs : list A) (body : A -> M S B) : M S (list B) :=
  match xs with
  | [] => ret []
  | x :: rest =>
      let* y := body x in
      let* ys := yield_each rest body in
      ret (y :: ys)
  end.

(** [l[i]] *)
Definition index {S A} (l : list A) (i : nat) : M S A :=
  match l !! i with
  | Some x => ret x
  | None => raise IndexError
  end.

(** ** [os.path] on POSIX *)

Module PosixPath.
Import PyStr.

Definition sep : ascii := chr 47.
Definition sep_str : string := String sep "".

Definition isabs (path : string) : bool := startswith sep path.

(** One step of the loop of [posixpath.join]. *)
Definition join2 (path b : string) : string :=
  if startswith sep b then b
  else if (String.eqb path "" || endswith sep path)%bool then path +:+ b
  else path +:+ sep_str +:+ b.

(** [os.path.join(a, *p)] *)
Definition join (a : string) (p : list string) : string :=
  fold_left join2 p a.

(** The component loop of [posixpath.normpath]; [new_comps] is kept
    reversed, so its head is the last component appended. *)
Fixpoint norm_comps (initial_slashes : nat) (comps new_comps : list string)
  : list string :=
  match comps with
  | [] => rev new_comps
  | comp :: rest =>
      if (String.eqb comp "" || String.eqb comp ".")%bool
      then norm_comps initial_slashes rest new_comps
      else if (negb (String.eqb comp "..")
               || (Nat.eqb initial_slashes 0
                   && match new_comps with [] => true | _ => false end)
               || match new_comps with
                  | last :: _ => String.eqb last ".."
                  | [] => false
                  end)%bool
      then norm_comps initial_slashes rest (comp :: new_comps)
      else norm_comps initial_slashes rest (tail new_comps)
  end.

(** [os.path.normpath(path)] *)
Definition normpath (path : string) : string :=
  if String.eqb path "" then "."
  else
    let initial_slashes :=
      if startswith sep path then
        match path with
        | String _ (String c2 rest) =>
            if (Ascii.eqb c2 sep && negb (startswith sep rest))%bool
            then 2 else 1
        | _ => 1
        end
      else 0 in
    let comps := norm_comps initial_slashes (split sep path) [] in
    let path :=
      String.concat "" (List.repeat sep_str initial_slashes)
      +:+ PyStr.join sep_str comps in
    if String.eqb path "" then "." else path.

(** [os.path.abspath(path)] in a process whose working directory is
    [cwd]. *)
Definition abspath (cwd path : string) : string :=
  normpath (if isabs path then path else join cwd [path]).

End PosixPath.

(** ** The two run-id patterns

    [re.match] anchors at the start of the name only; the pattern's own
    [$] accepts the end of the name or a single newline that ends it. *)

Module Re.
Import PyStr.

Definition in_range (lo hi : nat) (c : ascii) : bool :=
  (N.of_nat lo <=? ord c)%N && (ord c <=? N.of_nat hi)%N.

(** [\d] *)
Definition digit : ascii -> bool := in_range 48 57.
Definition upper : ascii -> bool := in_range 65 90.
Definition lower : ascii -> bool := in_range 97 122.
(** [[A-Z0-9]] *)
Definition upper_digit (c : ascii) : bool := upper c || digit c.
(** [[a-z0-9]] *)
Definition lower_digit (c : ascii) : bool := lower c || digit c.
(** [\w] *)
Definition word (c : ascii) : bool :=
  lower c || upper c || digit c || Ascii.eqb c (chr 95).
Definition lit (l : ascii) (c : ascii) : bool := Ascii.eqb c l.

Inductive atom :=
| One (p : ascii -> bool)      (** one character of a class *)
| Plus (p : ascii -> bool)     (** [p+] *)
| Dollar.                      (** [$] *)

Definition regex := list atom.

(** [p{n}] *)
Definition times (n : nat) (p : ascii -> bool) : regex := repeat (One p) n.

Definition at_end (s : string) : bool :=
  match s with
  | EmptyString => true
  | String c EmptyString => Ascii.eqb c newline
  | _ => false
  end.

(** [re.match(r, s) is not None], by backtracking: [p+] takes one
    character and then either goes on taking or hands over to the rest
    of the pattern. *)
Fixpoint matches (r : regex) (s : string) {struct r} : bool :=
  match r with
  | [] => true
  | One p :: r' =>
      match s with
      | String c s' => p c && matches r' s'
      | EmptyString => false
      end
  | Plus p :: r' =>
      (fix more (s : string) : bool :=
         match s with
         | String c s' => p c && (more s' || matches r' s')
         | EmptyString => false
         end) s
  | Dollar :: r' => at_end s && matches r' s
  end.

Definition underscore : regex := [One (lit (chr 95))].

(** [\d{8}_\d{4}_X\d_[A-Z0-9]{8}_[a-z0-9]{8}$] *)
Definition gridion_run_id_regex : regex :=
  (times 8 digit ++ underscore ++ times 4 digit ++ underscore
   ++ [One (lit (chr 88)); One digit] ++ underscore
   ++ times 8 upper_digit ++ underscore ++ times 8 lower_digit
   ++ [Dollar])%list.

(** [\d{8}_\d{4}_P2S_\d+-\w_[A-Z0-9]{8}_[a-z0-9]{8}$] *)
Definition promethion_run_id_regex : regex :=
  (times 8 digit ++ underscore ++ times 4 digit ++ underscore
   ++ [One (lit (chr 80)); One (lit (chr 50)); One (lit (chr 83))]
   ++ underscore
   ++ [Plus digit; One (lit (chr 45)); One word] ++ underscore
   ++ times 8 upper_digit ++ underscore ++ times 8 lower_digit
   ++ [Dollar])%list.

End Re.

(** ** The file system

    A tree without symbolic links, keyed by the components of the
    normalised absolute path.  [pinned] holds the entries the operating
    system refuses to remove (permissions, a busy mount point). *)

Inductive node :=
| File (content : string)
| Dir.

Record filesystem := {
  nodes : gmap (list string) node;
  pinned : gset (list string);
}.

Module Fs.

Definition resolve (cwd path : string) : list string :=
  List.filter (fun comp => negb (String.eqb comp ""))
    (PyStr.split PosixPath.sep (PosixPath.abspath cwd path)).

Definition node_at (fs : filesystem) (k : list string) : option node :=
  match k with
  | [] => Some Dir
  | _ => nodes fs !! k
  end.

Definition is_dir_node (n : option node) : bool :=
  match n with Some Dir => true | _ => false end.

(** [os.path.exists(path)] *)
Definition exists_ (cwd : string) (fs : filesystem) (path : string) : bool :=
  bool_decide (is_Some (node_at fs (resolve cwd path))).

(** [os.path.isdir(path)] *)
Definition isdir (cwd : string) (fs : filesystem) (path : string) : bool :=
  is_dir_node (node_at fs (resolve cwd path)).

Definition read (cwd : string) (fs : filesystem) (path : string)
  : option string :=
  match node_at fs (resolve cwd path) with
  | Some (File content) => Some content
  | _ => None
  end.

(** [k] is [root] or lies below it. *)
Definition under (root k : list string) : bool :=
  bool_decide (root `prefix_of` k).

(** [with open(path, 'w') as f: f.write(content)]; [None] is an
    [OSError]: the parent is not an existing directory, or [path] is
    a directory. *)
Definition write (cwd : string) (fs : filesystem) (path content : string)
  : option filesystem :=
  let k := resolve cwd path in
  match k with
  | [] => None
  | _ =>
      if is_dir_node (node_at fs (removelast k))
         && negb (is_dir_node (node_at fs k))
      then Some {| nodes := <[k := File content]> (nodes fs);
                   pinned := pinned fs |}
      else None
  end.

(** An entry survives a recursive delete when it, or something below
    it, cannot be removed; the root never can. *)
Definition resists (fs : filesystem) (k : list string) : bool :=
  match k with
  | [] => true
  | _ => existsb (fun q => under k q && bool_decide (is_Some (nodes fs !! q)))
                 (elements (pinned fs))
  end.

(** [shutil.rmtree(path, ignore_errors=True)]: nothing is raised; when
    [path] is a directory everything below it that can be removed is
    removed, and the directory itself when it ends up empty. *)
Definition rmtree_ignore_errors (cwd : string) (fs : filesystem)
  (path : string) : filesystem :=
  let root := resolve cwd path in
  if is_dir_node (node_at fs root)
  then {| nodes := filter (fun kn => under root kn.1 = true ->
                                     resists fs kn.1 = true) (nodes fs);
          pinned := pinned fs |}
  else fs.

End Fs.

(** ** [os.scandir] *)

Module DirEntry.
Record t := {
  name : string;
  path : string;
  is_dir : bool;
}.
End DirEntry.

Module Scandir.

Definition entry_of (dir : string) (root : list string)
  (kn : list string * node) : option DirEntry.t :=
  match kn with
  | (k, n) =>
      if bool_decide (removelast k = root) then
        match last k with
        | Some nm => Some {| DirEntry.name := nm;
                             DirEntry.path := PosixPath.join dir [nm];
                             DirEntry.is_dir := Fs.is_dir_node (Some n) |}
        | None => None
        end
      else None
  end.

(** [os.scandir(dir)]: the entries directly below [dir].  A path with
    the null character in it is refused with [ValueError] before the
    file system is asked; the empty path names nothing and a path that
    is not a directory cannot be listed, both an [OSError]
    ([FileNotFoundError], [NotADirectoryError]). *)
Definition scandir (cwd : string) (fs : filesystem) (dir : string)
  : res (list DirEntry.t) :=
  if PyStr.contains PyStr.nul dir then Raise ValueError
  else if String.eqb dir "" then Raise OSError
  else
    let root := Fs.resolve cwd dir in
    if Fs.is_dir_node (Fs.node_at fs root)
    then Ok (omap (entry_of dir root) (map_to_list (nodes fs)))
    else Raise OSError.

End Scandir.

(** ** [datetime] *)

Module Datetime.

Record datetime := {
  year : nat; month : nat; day : nat;
  hour : nat; minute : nat; second : nat; microsecond : nat;
}.

Definition dd (width n : nat) : string := PyStr.zfill width (pretty n).

(** [strftime('%Y%m%d%H%M%S')] *)
Definition strftime_compact (t : datetime) : string :=
  dd 4 (year t) +:+ dd 2 (month t) +:+ dd 2 (day t)
  +:+ dd 2 (hour t) +:+ dd 2 (minute t) +:+ dd 2 (second t).

(** [isoformat()] *)
Definition isoformat (t : datetime) : string :=
  dd 4 (year t) +:+ "-" +:+ dd 2 (month t) +:+ "-" +:+ dd 2 (day t)
  +:+ "T" +:+ dd 2 (hour t) +:+ ":" +:+ dd 2 (minute t)
  +:+ ":" +:+ dd 2 (second t)
  +:+ (if Nat.eqb (microsecond t) 0 then ""
       else "." +:+ dd 6 (microsecond t)).

End Datetime.

(** ** [json.dump(obj, f, indent=2)] for a dict of plain strings *)

Module Json.

Definition quoted (s : string) : string :=
  String PyStr.dquote s +:+ String PyStr.dquote "".

Definition member (kv : string * string) : string :=
  "  " +:+ quoted kv.1 +:+ ": " +:+ quoted kv.2.

Definition dump_indent2 (obj : list (string * string)) : string :=
  match obj with
  | [] => "{}"
  | _ =>
      "{" +:+ String PyStr.newline ""
      +:+ PyStr.join ("," +:+ String PyStr.newline "") (map member obj)
      +:+ String PyStr.newline "" +:+ "}"
  end.

End Json.

(** ** Environment, world and log *)

Inductive level := DEBUG | INFO | ERROR.

(** The JSON objects handed to [logging], by [event_type]. *)
Inductive event :=
| scan_start
| run_directory_found (sequencing_run_id run_directory_path : string)
| directory_skipped (run_directory_path : string)
    (conditions_checked : list (string * bool))
| analysis_started (sequencing_run_id pipeline_command : string)
| analysis_completed (sequencing_run_id pipeline_command : string)
| analysis_work_dir_deleted (sequencing_run_id analysis_work_dir_path : string)
| analysis_failed (sequencing_run_id pipeline_command : string)
| delete_analysis_work_dir_failed
    (sequencing_run_id analysis_work_dir_path : string).

#[global] Instance level_eq_dec : EqDecision level.
Proof. solve_decision. Defined.
#[global] Instance event_eq_dec : EqDecision event.
Proof. solve_decision. Defined.

(** How starting a child process ends: the child exits with a status,
    it could not be started at all (an [OSError]), or the arguments
    could not be handed to the operating system because one of them
    holds the null character (a [ValueError]). *)
Inductive proc_outcome :=
| Exited (returncode : Z)
| SpawnFailed
| EmbeddedNull.

(** What the program does not control. *)
Record env := {
  cwd : string;                     (** [os.getcwd()] *)
  home : string;                    (** [os.path.expanduser('~')] *)
  clock : nat -> Datetime.datetime; (** the n-th reading of [now()] *)
  (** the external engine: what a command does to the file system and
      the status it exits with, [None] when it cannot be started *)
  process : list string -> filesystem -> option Z * filesystem;
}.

(** Starting a child process with the argument vector [argv].  The
    arguments are converted to C strings first, which fails for one
    with the null character in it; only then is the engine asked. *)
Definition spawn (E : env) (argv : list string) (fs : filesystem)
  : proc_outcome * filesystem :=
  if existsb (PyStr.contains PyStr.nul) argv then (EmbeddedNull, fs)
  else
    match process E argv fs with
    | (Some returncode, fs') => (Exited returncode, fs')
    | (None, fs') => (SpawnFailed, fs')
    end.

Record world := {
  w_fs : filesystem;
  w_ticks : nat;                    (** readings of the clock so far *)
  w_log : list (level * event);     (** oldest first *)
  w_launched : list (list string);  (** commands started, oldest first *)
}.

(** The run descriptor is a dict the caller shares with [analyze_run]. *)
Record state := {
  st_run : gmap string string;
  st_world : world;
}.

Definition set_fs (f : filesystem) (x : world) : world :=
  {| w_fs := f; w_ticks := w_ticks x; w_log := w_log x;
     w_launched := w_launched x |}.
Definition add_tick (x : world) : world :=
  {| w_fs := w_fs x; w_ticks := S (w_ticks x); w_log := w_log x;
     w_launched := w_launched x |}.
Definition add_log (lv : level) (ev : event) (x : world) : world :=
  {| w_fs := w_fs x; w_ticks := w_ticks x; w_log := w_log x ++ [(lv, ev)];
     w_launched := w_launched x |}.
Definition add_launched (cmd : list string) (x : world) : world :=
  {| w_fs := w_fs x; w_ticks := w_ticks x; w_log := w_log x;
     w_launched := w_launched x ++ [cmd] |}.

Definition on_world (f : world -> world) (st : state) : state :=
  {| st_run := st_run st; st_world := f (st_world st) |}.
Definition set_run (key value : string) (st : state) : state :=
  {| st_run := <[key := value]> (st_run st); st_world := st_world st |}.

(** ** Configuration *)

Record pipeline_config := {
  pipeline_name : string;
  pipeline_version : string;
  pipeline_parameters : list (string * pyval);
}.

Record config := {
  fastq_by_run_dir : string;
  analysis_output_dir : string;
  analysis_work_dir : string;
  pipelines : list pipeline_config;
  excluded_runs : option (gset string);
  notification_email_addresses : option (list string);
  send_notification_emails : option bool;
}.

(** ** Run discovery: [find_run_dirs] and [scan] *)

Section Discovery.

Variable E : env.

Definition path_exists (x : world) (p : string) : bool :=
  Fs.exists_ (cwd E) (w_fs x) p.

Definition instrument_type_of (run_id : string) : string :=
  let matches_gridion_regex := Re.matches Re.gridion_run_id_regex run_id in
  let matches_promethion_regex :=
    Re.matches Re.promethion_run_id_regex run_id in
  if matches_gridion_regex then "gridion"
  else if matches_promethion_regex then "promethion"
  else "unknown".

(** The dict [conditions_checked] that the loop body builds for one
    entry, in insertion order. *)
Definition conditions_checked (config : config)
  (check_symlinks_complete : bool) (x : world) (subdir : DirEntry.t)
  : list (string * bool) :=
  let run_id := DirEntry.name subdir in
  let matches_gridion_regex := Re.matches Re.gridion_run_id_regex run_id in
  let matches_promethion_regex :=
    Re.matches Re.promethion_run_id_regex run_id in
  let symlinks_complete :=
    path_exists x
      (PosixPath.join (DirEntry.path subdir) ["symlinks_complete.json"]) in
  let analysis_not_already_initiated :=
    negb (path_exists x
            (PosixPath.join (analysis_output_dir config) [run_id])) in
  let not_excluded :=
    match excluded_runs config with
    | Some excluded => negb (bool_decide (run_id ∈ excluded))
    | None => true
    end in
  ([("is_directory", DirEntry.is_dir subdir);
    ("matches_nanopore_run_id_format",
      matches_gridion_regex || matches_promethion_regex);
    ("analysis_not_already_initiated", analysis_not_already_initiated);
    ("not_excluded", not_excluded)]
   ++ (if check_symlinks_complete
       then [("symlinks_complete", symlinks_complete)]
       else []))%list.

(** [all(xs)] *)
Definition all (xs : list bool) : bool := forallb (fun b => b) xs.

(** The body of the [for subdir in subdirs] loop: what the generator
    logs and yields for one entry, in the world as it is when the
    entry is reached. *)
Definition find_run_dirs_body (config : config)
  (check_symlinks_complete : bool) (subdir : DirEntry.t)
  : M world (option (gmap string string)) :=
  let run_id := DirEntry.name subdir in
  let instrument_type := instrument_type_of run_id in
  let* x := get in
  let checked := conditions_checked config check_symlinks_complete x subdir in
  let conditions_met := map snd checked in
  let abs_path := PosixPath.abspath (cwd E) (DirEntry.path subdir) in
  if all conditions_met then
    modify (add_log INFO (run_directory_found run_id abs_path)) >>
    let run : gmap string string := ∅ in
    let run := <["run_dir" := abs_path]> run in
    let run := <["sequencing_run_id" := run_id]> run in
    let run := <["instrument_type" := instrument_type]> run in
    ret (Some run)
  else
    modify (add_log DEBUG (directory_skipped abs_path checked)) >>
    ret None.

(** [find_run_dirs], drained: one result per entry of the listing. *)
Definition find_run_dirs (config : config) (check_symlinks_complete : bool)
  : M world (list (option (gmap string string))) :=
  let* x := get in
  match Scandir.scandir (cwd E) (w_fs x) (fastq_by_run_dir config) with
  | Raise e => raise e
  | Ok subdirs =>
      yield_each subdirs (find_run_dirs_body config check_symlinks_complete)
  end.

Definition scan (config : config)
  : M world (list (option (gmap string string))) :=
  modify (add_log INFO scan_start) >>
  find_run_dirs config true.

End Discovery.

(** ** Analysis dispatch: [analyze_run] *)

(** The locals of one pass of the pipeline loop that the [try] block
    uses. *)
Module Invocation.
Record t := {
  analysis_run_id : string;
  analysis_output_dir : string;
  analysis_work_dir : string;
  pipeline_command : list pyval;
}.
End Invocation.

Section Dispatcher.

Variable E : env.

(** [datetime.datetime.now()] *)
Definition now : M state Datetime.datetime :=
  fun st => (Ok (clock E (w_ticks (st_world st))), on_world add_tick st).

(** [run[key]] *)
Definition run_get (key : string) : M state string :=
  let* st := get in
  match st_run st !! key with
  | Some v => ret v
  | None => raise (KeyError key)
  end.

(** [sep.join(xs)] on a list of values: a [TypeError] unless all are
    [str]. *)
Definition str_values (xs : list pyval) : option (list string) :=
  mapM (fun v => match v with VStr s => Some s | _ => None end) xs.

Definition join_values (sep : string) (xs : list pyval) : M state string :=
  match str_values xs with
  | Some ss => ret (PyStr.join sep ss)
  | None => raise TypeError
  end.

(** [subprocess.run(args, capture_output=True, check=True)]: an
    argument that is not a [str] is a [TypeError], one that holds the
    null character a [ValueError]; neither starts anything. *)
Definition subprocess_run_check (args : list pyval) : M state unit :=
  match str_values args with
  | None => raise TypeError
  | Some argv =>
      let* st := get in
      match spawn E argv (w_fs (st_world st)) with
      | (EmbeddedNull, _) => raise ValueError
      | (SpawnFailed, _) => raise OSError
      | (Exited returncode, fs') =>
          modify (on_world (fun x => add_launched argv (set_fs fs' x))) >>
          if Z.eqb returncode 0 then ret tt
          else raise (CalledProcessError returncode)
      end
  end.

(** [with open(path, 'w') as f: json.dump(obj, f, indent=2)] *)
Definition json_dump_to (path : string) (obj : list (string * string))
  : M state unit :=
  let* st := get in
  match Fs.write (cwd E) (w_fs (st_world st)) path (Json.dump_indent2 obj) with
  | Some fs' => modify (on_world (set_fs fs'))
  | None => raise OSError
  end.

(** [shutil.rmtree(path, ignore_errors=True)] *)
Definition rmtree_ignore_errors (path : string) : M state unit :=
  modify (on_world (fun x =>
    set_fs (Fs.rmtree_ignore_errors (cwd E) (w_fs x) path) x)).

Definition info (ev : event) : M state unit :=
  modify (on_world (add_log INFO ev)).
Definition error (ev : event) : M state unit :=
  modify (on_world (add_log ERROR ev)).

(** [pipeline['pipeline_name'].split('/')[1].replace('_', '-')] *)
Definition pipeline_short_name (pipeline : pipeline_config) : M state string :=
  let* second := index (PyStr.split PosixPath.sep (pipeline_name pipeline)) 1 in
  ret (PyStr.replace (PyStr.chr 95) (PyStr.chr 45) second).

(** ['.'.join(pipeline['pipeline_version'].split('.')[0:2])] *)
Definition pipeline_minor_version (pipeline : pipeline_config) : string :=
  PyStr.join "."
    (take 2 (PyStr.split (PyStr.chr 46) (pipeline_version pipeline))).

Definition output_dir_name (short_name minor_version : string) : string :=
  short_name +:+ "-" +:+ minor_version +:+ "-output".

(** The loop over [pipeline_parameters.items()]. *)
Fixpoint add_parameters (parameters : list (string * pyval))
  (pipeline_command : list pyval) : M state (list pyval) :=
  match parameters with
  | [] => ret pipeline_command
  | (flag, config_value) :: rest =>
      let* value :=
        match config_value with
        | VNone => let* v := run_get flag in ret (VStr v)
        | _ => ret config_value
        end in
      let pipeline_command :=
        (pipeline_command ++ [VStr ("--" +:+ flag); value])%list in
      let pipeline_command :=
        map (fun v => VStr (py_str v)) pipeline_command in
      add_parameters rest pipeline_command
  end.

(** Lines 101 to 131: the locals of one pass, the two writes to the
    run descriptor, the command line and the [analysis_started]
    event.  [analysis_report_path] is computed and, as in the source,
    used nowhere. *)
Definition build_invocation (config : config)
  (notification_email_addresses : list string) (pipeline : pipeline_config)
  : M state Invocation.t :=
  let base_analysis_outdir := analysis_output_dir config in
  let base_analysis_work_dir := analysis_work_dir config in
  let pipeline_parameters := pipeline_parameters pipeline in
  let* pipeline_short_name := pipeline_short_name pipeline in
  let pipeline_minor_version := pipeline_minor_version pipeline in
  let* t := now in
  let analysis_timestamp := Datetime.strftime_compact t in
  let* analysis_run_id := run_get "sequencing_run_id" in
  let analysis_output_dir :=
    PosixPath.join base_analysis_outdir
      [analysis_run_id;
       output_dir_name pipeline_short_name pipeline_minor_version] in
  let* run_dir := run_get "run_dir" in
  modify (set_run "fastq_input" run_dir) >>
  modify (set_run "outdir" analysis_output_dir) >>
  let analysis_work_dir :=
    PosixPath.abspath (cwd E)
      (PosixPath.join base_analysis_work_dir
         ["work-" +:+ analysis_run_id +:+ "-" +:+ analysis_timestamp]) in
  let analysis_trace_path :=
    PosixPath.abspath (cwd E)
      (PosixPath.join base_analysis_outdir
         [analysis_run_id;
          output_dir_name pipeline_short_name pipeline_minor_version;
          analysis_run_id +:+ "_trace.tsv"]) in
  let analysis_report_path :=
    PosixPath.abspath (cwd E)
      (PosixPath.join base_analysis_outdir
         [analysis_run_id;
          output_dir_name pipeline_short_name pipeline_minor_version;
          analysis_run_id +:+ "_nextflow_report.html"]) in
  let pipeline_command :=
    [VStr "nextflow"; VStr "run"; VStr (pipeline_name pipeline);
     VStr "-r"; VStr (pipeline_version pipeline);
     VStr "-profile"; VStr "conda";
     VStr "--cache"; VStr (PosixPath.join (home E) [".conda/envs"]);
     VStr "-work-dir"; VStr analysis_work_dir;
     VStr "-with-trace"; VStr analysis_trace_path] in
  let pipeline_command :=
    match send_notification_emails config with
    | Some true =>
        (pipeline_command
         ++ [VStr "-with-notification";
             VStr (PyStr.join "," notification_email_addresses)])%list
    | _ => pipeline_command
    end in
  let* pipeline_command :=
    add_parameters pipeline_parameters pipeline_command in
  let* command_text := join_values " " pipeline_command in
  info (analysis_started analysis_run_id command_text) >>
  ret {| Invocation.analysis_run_id := analysis_run_id;
         Invocation.analysis_output_dir := analysis_output_dir;
         Invocation.analysis_work_dir := analysis_work_dir;
         Invocation.pipeline_command := pipeline_command |}.

(** Lines 133 to 150: the [try] block and its two [except] clauses. *)
Definition run_invocation (i : Invocation.t) : M state unit :=
  let analysis_run_id := Invocation.analysis_run_id i in
  let analysis_output_dir := Invocation.analysis_output_dir i in
  let analysis_work_dir := Invocation.analysis_work_dir i in
  let pipeline_command := Invocation.pipeline_command i in
  try_except
    (let* t0 := now in
     let timestamp_analysis_start := Datetime.isoformat t0 in
     subprocess_run_check pipeline_command >>
     let* t1 := now in
     let timestamp_analysis_complete := Datetime.isoformat t1 in
     let analysis_complete_path :=
       PosixPath.join analysis_output_dir ["analysis_complete.json"] in
     let analysis_complete :=
       [("timestamp_analysis_start", timestamp_analysis_start);
        ("timestamp_analysis_complete", timestamp_analysis_complete)] in
     json_dump_to analysis_complete_path analysis_complete >>
     let* command_text := join_values " " pipeline_command in
     info (analysis_completed analysis_run_id command_text) >>
     rmtree_ignore_errors analysis_work_dir >>
     info (analysis_work_dir_deleted analysis_run_id analysis_work_dir))
    (fun e =>
       match e with
       | CalledProcessError _ =>
           Some (let* command_text := join_values " " pipeline_command in
                 error (analysis_failed analysis_run_id command_text))
       | OSError =>
           Some (error (delete_analysis_work_dir_failed
                          analysis_run_id analysis_work_dir))
       | _ => None
       end).

Definition analyze_pipeline (config : config)
  (notification_email_addresses : list string) (pipeline : pipeline_config)
  : M state unit :=
  let* i := build_invocation config notification_email_addresses pipeline in
  run_invocation i.

Definition analyze_run (config : config) : M state unit :=
  let notification_email_addresses :=
    match notification_email_addresses config with
    | Some addresses => addresses
    | None => []
    end in
  for_each (pipelines config)
    (analyze_pipeline config notification_email_addresses).

End Dispatcher.

(** ** Eligibility, as the specification words it *)

Section Eligibility.

Variable E : env.

(** Every applicable condition holds for [subdir] in world [x]. *)
Definition eligible (config : config) (check_symlinks_complete : bool)
  (x : world) (subdir : DirEntry.t) : Prop :=
  let run_id := DirEntry.name subdir in
  DirEntry.is_dir subdir = true
  /\ (Re.matches Re.gridion_run_id_regex run_id = true
      \/ Re.matches Re.promethion_run_id_regex run_id = true)
  /\ path_exists E x
       (PosixPath.join (analysis_output_dir config) [run_id]) = false
  /\ (forall excluded, excluded_runs config = Some excluded ->
        run_id ∉ excluded)
  /\ (check_symlinks_complete = true ->
        path_exists E x
          (PosixPath.join (DirEntry.path subdir) ["symlinks_complete.json"])
        = true).

(** What one entry makes the generator yield. *)
Definition yielded (config : config) (check_symlinks_complete : bool)
  (x : world) (subdir : DirEntry.t) : res (option (gmap string string)) :=
  fst (find_run_dirs_body E config check_symlinks_complete subdir x).

(** The descriptor of a ready run: its absolute directory, its id and
    the instrument class of the id. *)
Definition descriptor (subdir : DirEntry.t) : gmap string string :=
  <["instrument_type" := instrument_type_of (DirEntry.name subdir)]>
    (<["sequencing_run_id" := DirEntry.name subdir]>
       (<["run_dir" := PosixPath.abspath (cwd E) (DirEntry.path subdir)]> ∅)).

(** What discovery owes one entry of the listing, as the value it
    yields and the log record it writes: the descriptor and a
    [run_directory_found] record when every applicable condition holds,
    the placeholder and a [directory_skipped] record with the conditions
    otherwise. *)
Definition owed (config : config) (check_symlinks_complete : bool)
  (x : world) (subdir : DirEntry.t)
  (out : option (gmap string string) * (level * event)) : Prop :=
  let abs_path := PosixPath.abspath (cwd E) (DirEntry.path subdir) in
  (eligible config check_symlinks_complete x subdir
   /\ out = (Some (descriptor subdir),
             (INFO, run_directory_found (DirEntry.name subdir) abs_path)))
  \/ (~ eligible config check_symlinks_complete x subdir
      /\ out = (None,
                (DEBUG,
                 directory_skipped abs_path
                   (conditions_checked E config check_symlinks_complete x
                      subdir)))).

End Eligibility.

(** ** The pieces of one dispatch, named for the statements below *)

Section DispatchTerms.

Variable E : env.

(** The text a configured parameter puts on the command line: the run
    descriptor's field of the same name for the null sentinel, the
    textual form of the configured value otherwise. *)
Definition resolved_value (run : gmap string string)
  (parameter : string * pyval) : option string :=
  match parameter.2 with
  | VNone => run !! parameter.1
  | v => Some (py_str v)
  end.

(** One [--flag value] pair per parameter, in configuration order. *)
Fixpoint parameter_args (run : gmap string string)
  (parameters : list (string * pyval)) : option (list string) :=
  match parameters with
  | [] => Some []
  | parameter :: rest =>
      match resolved_value run parameter, parameter_args run rest with
      | Some value, Some args =>
          Some (("--" +:+ parameter.1) :: value :: args)
      | _, _ => None
      end
  end.

(** The part of the command line that does not depend on the
    parameters. *)
Definition command_head (config : config)
  (notification_email_addresses : list string) (pipeline : pipeline_config)
  (work_dir trace_path : string) : list string :=
  (["nextflow"; "run"; pipeline_name pipeline;
    "-r"; pipeline_version pipeline;
    "-profile"; "conda";
    "--cache"; PosixPath.join (home E) [".conda/envs"];
    "-work-dir"; work_dir;
    "-with-trace"; trace_path]
   ++ match send_notification_emails config with
      | Some true =>
          ["-with-notification"; PyStr.join "," notification_email_addresses]
      | _ => []
      end)%list.

Definition output_dir_of (config : config) (run_id short_name : string)
  (pipeline : pipeline_config) : string :=
  PosixPath.join (analysis_output_dir config)
    [run_id; output_dir_name short_name (pipeline_minor_version pipeline)].

Definition work_dir_of (config : config) (run_id : string)
  (t : Datetime.datetime) : string :=
  PosixPath.abspath (cwd E)
    (PosixPath.join (analysis_work_dir config)
       ["work-" +:+ run_id +:+ "-" +:+ Datetime.strftime_compact t]).

Definition trace_path_of (config : config) (run_id short_name : string)
  (pipeline : pipeline_config) : string :=
  PosixPath.abspath (cwd E)
    (PosixPath.join (analysis_output_dir config)
       [run_id; output_dir_name short_name (pipeline_minor_version pipeline);
        run_id +:+ "_trace.tsv"]).

(** [str(v)], as a value *)
Definition coerce (v : pyval) : pyval := VStr (py_str v).

(** The argument vector handed to the external engine. *)
Definition argv (i : Invocation.t) : list string :=
  map py_str (Invocation.pipeline_command i).

Definition command_text (i : Invocation.t) : string :=
  PyStr.join " " (argv i).

Definition marker_path (i : Invocation.t) : string :=
  PosixPath.join (Invocation.analysis_output_dir i)
    ["analysis_complete.json"].

Definition marker_content (started completed : Datetime.datetime) : string :=
  Json.dump_indent2
    [("timestamp_analysis_start", Datetime.isoformat started);
     ("timestamp_analysis_complete", Datetime.isoformat completed)].

(** The recipients [analyze_run] settles on before its loop. *)
Definition recipients (config : config) : list string :=
  match notification_email_addresses config with
  | Some addresses => addresses
  | None => []
  end.

(** The [event_type] field of a logged object. *)
Definition event_type (ev : event) : string :=
  match ev with
  | scan_start => "scan_start"
  | run_directory_found _ _ => "run_directory_found"
  | directory_skipped _ _ => "directory_skipped"
  | analysis_started _ _ => "analysis_started"
  | analysis_completed _ _ => "analysis_completed"
  | analysis_work_dir_deleted _ _ => "analysis_work_dir_deleted"
  | analysis_failed _ _ => "analysis_failed"
  | delete_analysis_work_dir_failed _ _ => "delete_analysis_work_dir_failed"
  end.

Definition event_types (x : world) : list string :=
  map (fun entry => event_type entry.2) (w_log x).

Definition has_separator (pipeline : pipeline_config) : Prop :=
  PyStr.contains PosixPath.sep (pipeline_name pipeline) = true.

End DispatchTerms.

(** ** A small world to run the code in *)

Module Example.

Definition run_id : string := "20230101_1200_X1_ABCDEFGH_abcdefgh".

Definition tree (l : list (list string * node)) : filesystem :=
  {| nodes := list_to_map l; pinned := ∅ |}.

(** [/data/runs] holds one complete GridION run and a stray file. *)
Definition disk : filesystem :=
  tree [(["data"], Dir);
        (["data"; "runs"], Dir);
        (["data"; "runs"; run_id], Dir);
        (["data"; "runs"; run_id; "symlinks_complete.json"], File "{}");
        (["data"; "runs"; "notes.txt"], File "");
        (["data"; "out"], Dir);
        (["data"; "work"], Dir)].

Definition noon : Datetime.datetime :=
  {| Datetime.year := 2023; Datetime.month := 1; Datetime.day := 2;
     Datetime.hour := 12; Datetime.minute := 0; Datetime.second := 0;
     Datetime.microsecond := 0 |}.

(** The value that follows [flag] on a command line. *)
Fixpoint after (flag : string) (argv : list string) : option string :=
  match argv with
  | f :: rest =>
      match rest with
      | v :: _ => if String.eqb f flag then Some v else after flag rest
      | [] => None
      end
  | [] => None
  end.

(** [mkdir -p] *)
Definition mkdir_p (k : list string) (f : filesystem) : filesystem :=
  {| nodes := foldr (fun n m => <[take n k := Dir]> m) (nodes f)
                (seq 1 (List.length k));
     pinned := pinned f |}.

Definition touch (k : list string) (f : filesystem) : filesystem :=
  {| nodes := <[k := File ""]> (nodes f); pinned := pinned f |}.

Definition pin (k : list string) (f : filesystem) : filesystem :=
  {| nodes := nodes f; pinned := {[k]} ∪ pinned f |}.

Definition at_path (p : option string) (act : list string -> filesystem -> filesystem)
  (f : filesystem) : filesystem :=
  match p with
  | Some p => act (Fs.resolve "/" p) f
  | None => f
  end.

(** An engine that creates its work directory with one scratch file
    in it and, when [publishes], the output directory, then exits with
    [returncode]; with [locks] the scratch file cannot be removed
    afterwards. *)
Definition engine (returncode : Z) (publishes locks : bool)
  (argv : list string) (f : filesystem) : option Z * filesystem :=
  let f := at_path (after "-work-dir" argv)
             (fun k f => touch (k ++ ["scratch"])%list (mkdir_p k f)) f in
  let f := if locks
           then at_path (after "-work-dir" argv)
                  (fun k => pin (k ++ ["scratch"])%list) f
           else f in
  let f := if publishes then at_path (after "--outdir" argv) mkdir_p f
           else f in
  (Some returncode, f).

Definition host (returncode : Z) (publishes locks : bool) : env :=
  {| cwd := "/"; home := "/home/qc"; clock := fun _ => noon;
     process := engine returncode publishes locks |}.

Definition qc : pipeline_config :=
  {| pipeline_name := "BCCDC-PHL/routine_nanopore_qc";
     pipeline_version := "0.1.3";
     pipeline_parameters :=
       [("fastq_input", VNone); ("outdir", VNone); ("min_depth", VInt 10)] |}.

Definition taxon : pipeline_config :=
  {| pipeline_name := "BCCDC-PHL/taxon-abundance";
     pipeline_version := "0.2";
     pipeline_parameters := [("fastq_input", VNone); ("outdir", VNone)] |}.

Definition unnamed : pipeline_config :=
  {| pipeline_name := "routine_nanopore_qc";
     pipeline_version := "0.1.3";
     pipeline_parameters := [] |}.

Definition settings (ps : list pipeline_config) : config :=
  {| fastq_by_run_dir := "/data/runs";
     analysis_output_dir := "/data/out";
     analysis_work_dir := "/data/work";
     pipelines := ps;
     excluded_runs := None;
     notification_email_addresses := None;
     send_notification_emails := None |}.

Definition fresh : world :=
  {| w_fs := disk; w_ticks := 0; w_log := []; w_launched := [] |}.

Definition run_entry : DirEntry.t :=
  {| DirEntry.name := run_id;
     DirEntry.path := "/data/runs/" +:+ run_id;
     DirEntry.is_dir := true |}.

Definition stray_entry : DirEntry.t :=
  {| DirEntry.name := "notes.txt";
     DirEntry.path := "/data/runs/notes.txt";
     DirEntry.is_dir := false |}.

Definition ready_run : gmap string string :=
  <["instrument_type" := "gridion"]>
    (<["sequencing_run_id" := run_id]>
       (<["run_dir" := "/data/runs/" +:+ run_id]> ∅)).

Definition start : state := {| st_run := ready_run; st_world := fresh |}.

(** The same disk once something exists under the output root for the
    run. *)
Definition initiated : world :=
  {| w_fs := mkdir_p ["data"; "out"; run_id] disk;
     w_ticks := 0; w_log := []; w_launched := [] |}.

(** An engine that works, one that exits with status 1, one that
    exits with status 0 without having created the output directory,
    and one that leaves a scratch file nobody can remove. *)
Definition working : env := host 0 true false.
Definition failing : env := host 1 true false.
Definition silent : env := host 0 false false.
Definition locking : env := host 0 true true.

Definition work_dir : string :=
  "/data/work/work-" +:+ run_id +:+ "-20230102120000".
Definition qc_output_dir : string :=
  "/data/out/" +:+ run_id +:+ "/routine-nanopore-qc-0.1-output".
Definition qc_marker : string := qc_output_dir +:+ "/analysis_complete.json".

(** What the pass for [qc] has built when it reaches the [try]
    block. *)
Definition qc_command : list string :=
  ["nextflow"; "run"; "BCCDC-PHL/routine_nanopore_qc"; "-r"; "0.1.3";
   "-profile"; "conda"; "--cache"; "/home/qc/.conda/envs";
   "-work-dir"; work_dir;
   "-with-trace"; qc_output_dir +:+ "/" +:+ run_id +:+ "_trace.tsv";
   "--fastq_input"; "/data/runs/" +:+ run_id;
   "--outdir"; qc_output_dir;
   "--min_depth"; "10"].

Definition qc_invocation : Invocation.t :=
  {| Invocation.analysis_run_id := run_id;
     Invocation.analysis_output_dir := qc_output_dir;
     Invocation.analysis_work_dir := work_dir;
     Invocation.pipeline_command := map VStr qc_command |}.

Definition qc_built : state :=
  {| st_run := <["outdir" := qc_output_dir]>
                 (<["fastq_input" := "/data/runs/" +:+ run_id]> ready_run);
     st_world :=
       add_log INFO (analysis_started run_id (PyStr.join " " qc_command))
         (add_tick fresh) |}.

(** The disk as an engine leaves it, and with the marker added. *)
Definition left_by (E : env) : filesystem := snd (spawn E qc_command disk).

Definition marked (E : env) : filesystem :=
  {| nodes := <[Fs.resolve "/" qc_marker :=
                  File (marker_content noon noon)]> (nodes (left_by E));
     pinned := pinned (left_by E) |}.

(** The state in which a call of [analyze_run] ends. *)
Definition outcome (E : env) (ps : list pipeline_config) : res unit :=
  fst (analyze_run E (settings ps) start).
Definition final (E : env) (ps : list pipeline_config) : state :=
  snd (analyze_run E (settings ps) start).
Definition final_disk (E : env) (ps : list pipeline_config) : filesystem :=
  w_fs (st_world (final E ps)).

End Example.

(** ** More of the small world *)

Module Scenario.

(** The same settings with the run on the exclusion list. *)
Definition excluding (ps : list pipeline_config) : config :=
  {| fastq_by_run_dir := "/data/runs";
     analysis_output_dir := "/data/out";
     analysis_work_dir := "/data/work";
     pipelines := ps;
     excluded_runs := Some {[Example.run_id]};
     notification_email_addresses := None;
     send_notification_emails := None |}.

(** Notifications switched on, with and without recipients. *)
Definition notifying (addresses : option (list string))
  (ps : list pipeline_config) : config :=
  {| fastq_by_run_dir := "/data/runs";
     analysis_output_dir := "/data/out";
     analysis_work_dir := "/data/work";
     pipelines := ps;
     excluded_runs := None;
     notification_email_addresses := addresses;
     send_notification_emails := Some true |}.

(** A host on which the engine is not installed. *)
Definition without_engine : env :=
  {| cwd := "/"; home := "/home/qc"; clock := fun _ => Example.noon;
     process := fun _ f => (None, f) |}.

(** The run directory before the upstream linking has finished. *)
Definition unlinked : world :=
  {| w_fs := Example.tree
               [(["data"], Dir);
                (["data"; "runs"], Dir);
                (["data"; "runs"; Example.run_id], Dir);
                (["data"; "out"], Dir)];
     w_ticks := 0; w_log := []; w_launched := [] |}.

(** A world in which the parent of the runs is missing. *)
Definition empty_disk : world :=
  {| w_fs := Example.tree []; w_ticks := 0; w_log := []; w_launched := [] |}.

(** A pipeline asking for a run field that discovery does not set. *)
Definition wanting : pipeline_config :=
  {| pipeline_name := "BCCDC-PHL/routine_nanopore_qc";
     pipeline_version := "0.1.3";
     pipeline_parameters := [("fastq_input", VNone); ("sample_sheet", VNone)] |}.

(** A pipeline with the null character in a configured value, and
    settings with it in the path of the parent of the runs. *)
Definition poisoned : pipeline_config :=
  {| pipeline_name := "BCCDC-PHL/routine_nanopore_qc";
     pipeline_version := "0.1.3";
     pipeline_parameters :=
       [("fastq_input", VNone);
        ("prefix", VStr ("a" +:+ String PyStr.nul "b"))] |}.

Definition misdirected : config :=
  {| fastq_by_run_dir := "/data/runs" +:+ String PyStr.nul "";
     analysis_output_dir := "/data/out";
     analysis_work_dir := "/data/work";
     pipelines := [Example.qc];
     excluded_runs := None;
     notification_email_addresses := None;
     send_notification_emails := None |}.

(** Descriptors with a field missing. *)
Definition nameless : state :=
  {| st_run := <["run_dir" := "/data/runs/" +:+ Example.run_id]> ∅;
     st_world := Example.fresh |}.
Definition homeless : state :=
  {| st_run := <["sequencing_run_id" := Example.run_id]> ∅;
     st_world := Example.fresh |}.

End Scenario.

(** ** Terms for the statements about names *)

Section NameTerms.

(** No character [c] is accepted by the atom. *)
Definition avoids (c : ascii) (a : Re.atom) : bool :=
  match a with
  | Re.One p => negb (p c)
  | Re.Plus p => negb (p c)
  | Re.Dollar => true
  end.

Definition newline_str : string := String PyStr.newline "".

(** The names a ready descriptor can be asked for by a null
    parameter. *)
Definition descriptor_fields : list string :=
  ["run_dir"; "sequencing_run_id"; "instrument_type"; "fastq_input";
   "outdir"].

(** Every null parameter of the pipeline, [fastq_input] and [outdir]
    apart, names a field the descriptor has. *)
Definition resolvable (run : gmap string string)
  (pipeline : pipeline_config) : Prop :=
  forall key,
    In (key, VNone) (pipeline_parameters pipeline) ->
    key <> "fastq_input" -> key <> "outdir" ->
    is_Some (run !! key).

(** The exceptions [analyze_run] lets through. *)
Definition let_through (r : res unit) : Prop :=
  match r with
  | Ok _ => True
  | Raise IndexError => True
  | Raise (KeyError _) => True
  | Raise ValueError => True
  | Raise _ => False
  end.

(** The null character occurs nowhere in [s]. *)
Definition nul_free (s : string) : Prop :=
  PyStr.contains PyStr.nul s = false.

Definition nul_free_pipeline (pipeline : pipeline_config) : Prop :=
  nul_free (pipeline_name pipeline)
  /\ nul_free (pipeline_version pipeline)
  /\ Forall (fun parameter => nul_free parameter.1
                              /\ nul_free (py_str parameter.2))
       (pipeline_parameters pipeline).

(** Nothing the environment and the configuration contribute to a
    command line holds the null character: the working and home
    directories, the two configured roots, the recipients, and the
    names, versions, parameter names and parameter values of the
    pipelines. *)
Definition nul_free_settings (E : env) (config : config) : Prop :=
  nul_free (cwd E)
  /\ nul_free (home E)
  /\ nul_free (analysis_output_dir config)
  /\ nul_free (analysis_work_dir config)
  /\ Forall nul_free (recipients config)
  /\ Forall nul_free_pipeline (pipelines config).

(** Neither does any field of the run descriptor. *)
Definition nul_free_run (run : gmap string string) : Prop :=
  map_Forall (fun _ value => nul_free value) run.

End NameTerms.

(** ** The library functions on examples *)

Example split_on_examples :
  PyStr.split PosixPath.sep "BCCDC-PHL/routine_nanopore_qc"
  = ["BCCDC-PHL"; "routine_nanopore_qc"]
  /\ PyStr.split PosixPath.sep "routine_nanopore_qc" = ["routine_nanopore_qc"]
  /\ PyStr.split PosixPath.sep "" = [""]
  /\ PyStr.split PosixPath.sep "/a//b" = [""; "a"; ""; "b"]
  /\ PyStr.join "." (take 2 (PyStr.split (PyStr.chr 46) "0.1.3")) = "0.1"
  /\ PyStr.join "." (take 2 (PyStr.split (PyStr.chr 46) "2")) = "2".
Proof. by split_and!. Qed.

Example os_path_examples :
  PosixPath.join "/data/out" ["run"; "qc-0.1-output"]
  = "/data/out/run/qc-0.1-output"
  /\ PosixPath.join "/data/out/" ["run"] = "/data/out/run"
  /\ PosixPath.join "/data/out" ["/elsewhere"; "x"] = "/elsewhere/x"
  /\ PosixPath.normpath "/a/./b/../c//d/" = "/a/c/d"
  /\ PosixPath.normpath "//a" = "//a"
  /\ PosixPath.normpath "a/../.." = ".."
  /\ PosixPath.abspath "/home/qc" "work/x" = "/home/qc/work/x"
  /\ PosixPath.abspath "/home/qc" "" = "/home/qc".
Proof. by split_and!. Qed.

Example run_id_pattern_examples :
  Re.matches Re.gridion_run_id_regex "20230101_1200_X1_ABCDEFGH_abcdefgh" = true
  /\ Re.matches Re.gridion_run_id_regex "20230101_1200_X1_ABCDEFGH_abcdefghi"
     = false
  /\ Re.matches Re.gridion_run_id_regex
       ("20230101_1200_X1_ABCDEFGH_abcdefgh" +:+ String PyStr.newline "")
     = true
  /\ Re.matches Re.gridion_run_id_regex "x20230101_1200_X1_ABCDEFGH_abcdefgh"
     = false
  /\ Re.matches Re.promethion_run_id_regex
       "20230101_1200_P2S_00123-A_ABCDEFGH_abcdefgh" = true
  /\ Re.matches Re.promethion_run_id_regex
       "20230101_1200_P2S_-A_ABCDEFGH_abcdefgh" = false
  /\ Re.matches Re.promethion_run_id_regex
       "20230101_1200_P2S_1-AB_ABCDEFGH_abcdefgh" = false.
Proof. by split_and!. Qed.

Example timestamp_examples :
  Datetime.strftime_compact Example.noon = "20230102120000"
  /\ Datetime.isoformat Example.noon = "2023-01-02T12:00:00"
  /\ Datetime.isoformat
       {| Datetime.year := 2023; Datetime.month := 11; Datetime.day := 3;
          Datetime.hour := 9; Datetime.minute := 5; Datetime.second := 7;
          Datetime.microsecond := 4210 |}
     = "2023-11-03T09:05:07.004210".
Proof. by split_and!. Qed.

Example str_examples :
  py_str (VInt 10) = "10" /\ py_str (VInt (-3)) = "-3"
  /\ py_str (VBool true) = "True" /\ py_str (VStr "x") = "x".
Proof. by split_and!. Qed.

(** ** Facts about strings and the patterns *)

Section StringFacts.
Import PyStr.

Lemma split_nonempty sep s : split sep s <> [].
Proof.
  destruct s as [|c s]; simpl; [discriminate|].
  destruct (Ascii.eqb c sep); [discriminate|].
  destruct (split sep s); discriminate.
Qed.

(** [s.split(sep)[1]] exists exactly when [sep] occurs in [s]. *)
Lemma split_second sep s :
  split sep s !! 1 = None <-> contains sep s = false.
Proof.
  induction s as [|c s IH]; simpl; [tauto|].
  destruct (Ascii.eqb c sep); simpl.
  - pose proof (split_nonempty sep s).
    destruct (split sep s); [done|]. simpl. split; discriminate.
  - pose proof (split_nonempty sep s).
    destruct (split sep s) as [|w1 ws]; [done|]. exact IH.
Qed.

End StringFacts.

Section PatternFacts.
Import Re.

Lemma matches_one p r s :
  matches (One p :: r) s = true ->
  exists c s', s = String c s' /\ p c = true /\ matches r s' = true.
Proof.
  destruct s as [|c s']; simpl; [discriminate|].
  intros [? ?]%andb_true_iff. eauto.
Qed.

Lemma lit_inv l c : lit l c = true -> c = l.
Proof. unfold lit. by intros ?%Ascii.eqb_eq. Qed.

Ltac eat H :=
  apply matches_one in H;
  let c := fresh "c" in let s := fresh "s" in let Hc := fresh "Hc" in
  destruct H as (c & s & -> & Hc & H).

(** No name matches both patterns: after the date and the time a
    GridION id goes on with [X], a PromethION id with [P]. *)
Lemma patterns_exclusive s :
  matches gridion_run_id_regex s = true ->
  matches promethion_run_id_regex s = false.
Proof.
  intros Hg. destruct (matches promethion_run_id_regex s) eqn:Hp; [|done].
  exfalso.
  cbv [gridion_run_id_regex promethion_run_id_regex times repeat underscore
       app] in Hg, Hp.
  do 15 eat Hg.
  do 14 (apply matches_one in Hp; destruct Hp as (? & ? & [= <- <-] & _ & Hp)).
  apply matches_one in Hp. destruct Hp as (? & ? & [= <- <-] & Hc' & _).
  apply lit_inv in Hc13, Hc'. rewrite Hc13 in Hc'. discriminate.
Qed.

End PatternFacts.

(** ** Run discovery *)

Section DiscoveryFacts.

Variable E : env.

Lemma all_conditions_iff config check x subdir :
  all (map snd (conditions_checked E config check x subdir)) = true
  <-> eligible E config check x subdir.
Proof.
  unfold eligible, conditions_checked, all.
  rewrite map_app, forallb_app. cbn [map snd forallb].
  rewrite !andb_true_iff, orb_true_iff, negb_true_iff.
  split.
  - intros [(Hd & Hm & Ha & He & _) Hs]. repeat split; try done.
    + intros excluded Hx. rewrite Hx in He.
      apply negb_true_iff, bool_decide_eq_false in He. done.
    + intros ->. cbn [forallb] in Hs. by apply andb_true_iff in Hs as [? _].
  - intros (Hd & Hm & Ha & He & Hs). repeat split; try done.
    + destruct (excluded_runs config) as [excluded|]; [|done].
      apply negb_true_iff, bool_decide_eq_false. by apply He.
    + destruct check; [|done]. cbn [forallb]. by rewrite Hs.
Qed.

Lemma find_run_dirs_body_ready config check x subdir :
  all (map snd (conditions_checked E config check x subdir)) = true ->
  find_run_dirs_body E config check subdir x
  = (Ok (Some (<["instrument_type" :=
                   instrument_type_of (DirEntry.name subdir)]>
               (<["sequencing_run_id" := DirEntry.name subdir]>
                (<["run_dir" :=
                     PosixPath.abspath (cwd E) (DirEntry.path subdir)]>
                 ∅)))),
     add_log INFO
       (run_directory_found (DirEntry.name subdir)
          (PosixPath.abspath (cwd E) (DirEntry.path subdir))) x).
Proof.
  intros H. unfold find_run_dirs_body, bind, get. by rewrite H.
Qed.

Lemma find_run_dirs_body_skipped config check x subdir :
  all (map snd (conditions_checked E config check x subdir)) = false ->
  find_run_dirs_body E config check subdir x
  = (Ok None,
     add_log DEBUG
       (directory_skipped (PosixPath.abspath (cwd E) (DirEntry.path subdir))
          (conditions_checked E config check x subdir)) x).
Proof.
  intros H. unfold find_run_dirs_body, bind, get. by rewrite H.
Qed.

Lemma conditions_checked_fs config check x1 x2 subdir :
  w_fs x1 = w_fs x2 ->
  conditions_checked E config check x1 subdir
  = conditions_checked E config check x2 subdir.
Proof. unfold conditions_checked, path_exists. by intros ->. Qed.

Lemma eligible_fs config check x x' subdir :
  w_fs x' = w_fs x ->
  eligible E config check x' subdir <-> eligible E config check x subdir.
Proof. unfold eligible, path_exists. by intros ->. Qed.

(** Draining the loop over a listing: every entry is judged against the
    file system of the moment the listing was taken, and gets one value
    and one log record. *)
Lemma yield_each_outcomes config check x0 : forall subdirs x,
  w_fs x = w_fs x0 ->
  exists outs,
    yield_each subdirs (find_run_dirs_body E config check) x
    = (Ok (map fst outs),
       {| w_fs := w_fs x; w_ticks := w_ticks x;
          w_log := w_log x ++ map snd outs;
          w_launched := w_launched x |})
    /\ Forall2 (owed E config check x0) subdirs outs.
Proof.
  induction subdirs as [|subdir rest IH]; intros x Hfs.
  - exists []. cbn. rewrite app_nil_r. split; [by destruct x|constructor].
  - cbn [yield_each]. unfold bind at 1.
    pose proof (eligible_fs config check x0 x subdir Hfs) as Hsame.
    pose proof (conditions_checked_fs config check x x0 subdir Hfs) as Hcond.
    destruct (all (map snd (conditions_checked E config check x subdir)))
      eqn:Hall.
    + rewrite find_run_dirs_body_ready by done.
      cbv beta iota. unfold bind at 1.
      match goal with
      | |- context [yield_each rest _ ?x1] =>
          destruct (IH x1) as (outs & Hrest & Houts); [exact Hfs|]
      end.
      rewrite Hrest. cbn [ret].
      eexists ((_, (_, _)) :: outs). split.
      * cbn [map fst snd add_log w_fs w_ticks w_log w_launched].
        by rewrite <- (assoc_L (++)).
      * constructor; [|done]. left. split; [|reflexivity].
        by apply Hsame, all_conditions_iff.
    + rewrite find_run_dirs_body_skipped by done.
      cbv beta iota. unfold bind at 1.
      match goal with
      | |- context [yield_each rest _ ?x1] =>
          destruct (IH x1) as (outs & Hrest & Houts); [exact Hfs|]
      end.
      rewrite Hrest. cbn [ret].
      eexists ((_, (_, _)) :: outs). split.
      * cbn [map fst snd add_log w_fs w_ticks w_log w_launched].
        by rewrite <- (assoc_L (++)).
      * constructor; [|done]. right. split; [|by rewrite Hcond].
        intros He%Hsame%all_conditions_iff. congruence.
Qed.

(** C1: for every entry of the listing of the scanned parent directory,
    in the order of the listing, discovery yields the run descriptor
    exactly when every applicable condition holds (the entry is a
    directory, its name matches one of the two run-id patterns, nothing
    exists under the output root for its run id, it is not excluded,
    and, when the check is enabled, [symlinks_complete.json] exists
    inside it), and the placeholder [None] otherwise, with one log
    record for either.  There is no third outcome, and nothing but the
    log changes.  The same holds of the loop body alone, for an entry
    reached in any world. *)
Theorem discovery_ready_iff_all_conditions config check x :
  (forall subdirs,
     Scandir.scandir (cwd E) (w_fs x) (fastq_by_run_dir config)
     = Ok subdirs ->
     exists outs,
       find_run_dirs E config check x
       = (Ok (map fst outs),
          {| w_fs := w_fs x; w_ticks := w_ticks x;
             w_log := w_log x ++ map snd outs;
             w_launched := w_launched x |})
       /\ Forall2 (owed E config check x) subdirs outs
       /\ Forall2 (fun subdir out =>
                     is_Some out.1 <-> eligible E config check x subdir)
            subdirs outs)
  /\ (forall subdir,
        exists out,
          find_run_dirs_body E config check subdir x
          = (Ok out.1, add_log out.2.1 out.2.2 x)
          /\ owed E config check x subdir out
          /\ (is_Some out.1 <-> eligible E config check x subdir)).
Proof.
  split.
  - intros subdirs Hlist. unfold find_run_dirs, bind, get. rewrite Hlist.
    destruct (yield_each_outcomes config check x subdirs x eq_refl)
      as (outs & Hrun & Houts).
    exists outs. split; [exact Hrun|]. split; [exact Houts|].
    eapply Forall2_impl; [exact Houts|].
    intros subdir out [[He ->]|[Hn ->]]; cbn [fst]; split; try done.
  - intros subdir.
    destruct (all (map snd (conditions_checked E config check x subdir)))
      eqn:Hall.
    + eexists (_, (_, _)). rewrite find_run_dirs_body_ready by done.
      apply all_conditions_iff in Hall.
      split; [reflexivity|]. split; [by left|]. done.
    + eexists (_, (_, _)). rewrite find_run_dirs_body_skipped by done.
      assert (~ eligible E config check x subdir) as Hn
        by (rewrite <- all_conditions_iff; congruence).
      split; [reflexivity|]. split; [by right|].
      cbn [fst]. split; [by intros [? [=]]|done].
Qed.

(** C4: once anything exists at [<analysis_output_dir>/<run_id>] the
    entry is skipped, whatever the other conditions, the symlinks flag
    and the configured pipelines are. *)
Theorem initiated_run_never_ready config check x subdir :
  path_exists E x
    (PosixPath.join (analysis_output_dir config) [DirEntry.name subdir])
  = true ->
  yielded E config check x subdir = Ok None.
Proof.
  intros Hex. unfold yielded.
  rewrite find_run_dirs_body_skipped; [done|].
  apply not_true_is_false. rewrite all_conditions_iff.
  intros (_ & _ & Hfree & _). congruence.
Qed.

(** C6: a name matching the GridION pattern is classified [gridion],
    one matching the PromethION pattern [promethion] (the GridION test
    comes first, and no name matches both); a name matching neither is
    [unknown] and is never yielded as ready.  A yielded descriptor
    carries this classification. *)
Theorem instrument_type_by_pattern config check x subdir :
  let run_id := DirEntry.name subdir in
  (Re.matches Re.gridion_run_id_regex run_id = true ->
     instrument_type_of run_id = "gridion")
  /\ (Re.matches Re.promethion_run_id_regex run_id = true ->
        instrument_type_of run_id = "promethion")
  /\ (Re.matches Re.gridion_run_id_regex run_id = false ->
      Re.matches Re.promethion_run_id_regex run_id = false ->
        instrument_type_of run_id = "unknown"
        /\ yielded E config check x subdir = Ok None)
  /\ (forall run, yielded E config check x subdir = Ok (Some run) ->
        run !! "instrument_type" = Some (instrument_type_of run_id)).
Proof.
  intros run_id. unfold instrument_type_of.
  split; [|split; [|split]].
  - by intros ->.
  - intros Hp. destruct (Re.matches Re.gridion_run_id_regex run_id) eqn:Hg.
    + apply patterns_exclusive in Hg. congruence.
    + by rewrite Hp.
  - intros Hg Hp. rewrite Hg, Hp. split; [done|]. unfold yielded.
    rewrite find_run_dirs_body_skipped; [done|].
    apply not_true_is_false. rewrite all_conditions_iff.
    intros (_ & [Hm|Hm] & _); fold run_id in Hm; congruence.
  - intros run Hy. unfold yielded in Hy.
    destruct (all (map snd (conditions_checked E config check x subdir)))
      eqn:Hall.
    + rewrite find_run_dirs_body_ready in Hy by done.
      simpl in Hy. injection Hy as <-. by simplify_map_eq.
    + by rewrite find_run_dirs_body_skipped in Hy.
Qed.

(** Draining the generator touches nothing but the log, so every entry
    of one listing is judged against the same file system. *)
Lemma find_run_dirs_body_fs config check subdir x :
  w_fs (snd (find_run_dirs_body E config check subdir x)) = w_fs x.
Proof.
  destruct (all (map snd (conditions_checked E config check x subdir)))
    eqn:Hall.
  - by rewrite find_run_dirs_body_ready.
  - by rewrite find_run_dirs_body_skipped.
Qed.

Lemma yield_each_entries config check x0 : forall subdirs x,
  w_fs x = w_fs x0 ->
  exists ys x',
    yield_each subdirs (find_run_dirs_body E config check) x = (Ok ys, x')
    /\ w_fs x' = w_fs x0
    /\ Forall2 (fun subdir y =>
                  (eligible E config check x0 subdir -> is_Some y)
                  /\ (~ eligible E config check x0 subdir -> y = None))
         subdirs ys.
Proof.
  induction subdirs as [|subdir rest IH]; intros x Hfs.
  - exists [], x. by split_and!.
  - cbn [yield_each]. unfold bind at 1.
    pose proof (find_run_dirs_body_fs config check subdir x) as Hkeep.
    pose proof (eligible_fs config check x0 x subdir Hfs) as Hsame.
    destruct (all (map snd (conditions_checked E config check x subdir)))
      eqn:Hall.
    + rewrite find_run_dirs_body_ready in * by done. cbn [snd] in Hkeep.
      destruct (IH _ (eq_trans Hkeep Hfs)) as (ys & x' & Hrest & ? & ?).
      eexists (_ :: ys), x'. unfold bind at 1. rewrite Hrest.
      split_and!; [done..|]. constructor; [|done]. split; [by eauto|].
      intros Hn. exfalso. apply Hn, Hsame, all_conditions_iff, Hall.
    + rewrite find_run_dirs_body_skipped in * by done. cbn [snd] in Hkeep.
      destruct (IH _ (eq_trans Hkeep Hfs)) as (ys & x' & Hrest & ? & ?).
      eexists (_ :: ys), x'. unfold bind at 1. rewrite Hrest.
      split_and!; [done..|]. constructor; [|done]. split; [|done].
      intros He%Hsame%all_conditions_iff. congruence.
Qed.

(** Drained, the generator gives one result per entry of the listing,
    a descriptor for the eligible entries and [None] for the others; a
    parent that cannot be listed is an exception for the caller. *)
Lemma find_run_dirs_one_result_per_entry config check x :
  match Scandir.scandir (cwd E) (w_fs x) (fastq_by_run_dir config) with
  | Ok subdirs =>
      exists ys x',
        find_run_dirs E config check x = (Ok ys, x')
        /\ w_fs x' = w_fs x
        /\ Forall2 (fun subdir y =>
                      (eligible E config check x subdir -> is_Some y)
                      /\ (~ eligible E config check x subdir -> y = None))
             subdirs ys
  | Raise e => find_run_dirs E config check x = (Raise e, x)
  end.
Proof.
  unfold find_run_dirs, bind, get.
  destruct (Scandir.scandir (cwd E) (w_fs x) (fastq_by_run_dir config));
    [|done].
  by apply yield_each_entries.
Qed.

End DiscoveryFacts.

(** ** Command construction *)

Section CommandFacts.

Variable E : env.

Lemma coerce_strs (l : list string) : map coerce (map VStr l) = map VStr l.
Proof. by rewrite map_map. Qed.

Lemma str_values_strs (l : list string) : str_values (map VStr l) = Some l.
Proof.
  unfold str_values. induction l as [|s l IH]; [done|].
  cbn. cbn in IH. by rewrite IH.
Qed.

Lemma Forall_is_str (l : list pyval) :
  Forall is_str l -> l = map VStr (map py_str l).
Proof.
  induction 1 as [|v l Hv _ IH]; [done|].
  destruct v; try done. cbn. by rewrite <- IH.
Qed.

Lemma run_get_inv key st r st' :
  run_get key st = (r, st') ->
  st' = st
  /\ match st_run st !! key with
     | Some v => r = Ok v
     | None => r = Raise (KeyError key)
     end.
Proof.
  unfold run_get, bind, get, ret, raise.
  destruct (st_run st !! key); intros [= <- <-]; done.
Qed.

(** The parameter loop reads the run descriptor and nothing else. *)
Lemma add_parameters_state parameters : forall command st,
  snd (add_parameters parameters command st) = st.
Proof.
  induction parameters as [|[flag value] rest IH]; intros command st;
    [done|].
  cbn [add_parameters]. unfold bind at 1.
  destruct value; cbn; try apply IH.
  unfold run_get, bind, get, ret, raise.
  destruct (st_run st !! flag); cbn; [apply IH|done].
Qed.

Lemma add_parameters_ok parameters : forall command st command' st',
  add_parameters parameters command st = (Ok command', st') ->
  exists args,
    parameter_args (st_run st) parameters = Some args
    /\ command'
       = (match parameters with
          | [] => command
          | _ => map coerce command
          end ++ map VStr args)%list.
Proof.
  induction parameters as [|[flag value] rest IH];
    intros command st command' st' H.
  - injection H as <- <-. exists []. by rewrite app_nil_r.
  - cbn [add_parameters] in H. unfold bind at 1 in H.
    assert (exists text,
      resolved_value (st_run st) (flag, value) = Some text
      /\ add_parameters rest
           (map coerce (command ++ [VStr ("--" +:+ flag); VStr text]))
           st = (Ok command', st')) as (text & Hres & Hrest).
    { assert (forall v, map coerce (command ++ [VStr ("--" +:+ flag); v])
               = map coerce (command
                             ++ [VStr ("--" +:+ flag); VStr (py_str v)]))
        as Hlast by (intros v; by rewrite !map_app).
      unfold resolved_value. fold coerce in H.
      destruct value; cbn [snd fst] in *;
        try (eexists; split; [done|]; by rewrite <- Hlast).
      unfold run_get, bind, get, ret, raise in H.
      destruct (st_run st !! flag); cbn in *; [eauto|done]. }
    apply IH in Hrest as (args & Hargs & ->).
    exists (("--" +:+ flag) :: text :: args). split.
    + cbn [parameter_args]. by rewrite Hres, Hargs.
    + assert (map coerce (map coerce
                (command ++ [VStr ("--" +:+ flag); VStr text]))
              = map coerce (command ++ [VStr ("--" +:+ flag); VStr text]))
        as Hidem by (rewrite map_map; by apply map_ext).
      destruct rest; rewrite ?Hidem, map_app, <- app_assoc; done.
Qed.

(** The loop hands on a command of strings when it was given one. *)
Lemma add_parameters_strings parameters command st command' st' :
  add_parameters parameters command st = (Ok command', st') ->
  Forall is_str command ->
  Forall is_str command'.
Proof.
  intros (args & _ & ->)%add_parameters_ok Hstr.
  apply Forall_app. split.
  - destruct parameters; [done|].
    rewrite List.Forall_map. by apply Forall_true.
  - rewrite List.Forall_map. by apply Forall_true.
Qed.

(** Only a null parameter naming a missing run field can stop the
    parameter loop. *)
Lemma add_parameters_raise parameters : forall command st e st',
  add_parameters parameters command st = (Raise e, st') ->
  exists key,
    e = KeyError key
    /\ In (key, VNone) parameters
    /\ st_run st !! key = None.
Proof.
  induction parameters as [|[flag value] rest IH]; intros command st e st' H;
    [done|].
  cbn [add_parameters] in H. unfold bind at 1 in H.
  assert (forall c, add_parameters rest c st = (Raise e, st') ->
            exists key, e = KeyError key
                        /\ In (key, VNone) ((flag, value) :: rest)
                        /\ st_run st !! key = None) as Hrest.
  { intros c (key & ? & ? & ?)%IH. exists key. cbn. eauto. }
  destruct value; cbn in H; try (by eapply Hrest).
  unfold run_get, bind, get, ret, raise in H.
  destruct (st_run st !! flag) eqn:Hflag; cbn in H; [by eapply Hrest|].
  injection H as <- _. exists flag. cbn. eauto.
Qed.

Lemma parameter_args_lookup run parameters : forall args n flag value,
  parameter_args run parameters = Some args ->
  parameters !! n = Some (flag, value) ->
  exists text,
    resolved_value run (flag, value) = Some text
    /\ args !! (2 * n) = Some ("--" +:+ flag)
    /\ args !! (2 * n + 1) = Some text.
Proof.
  induction parameters as [|parameter rest IH]; intros args n flag value H Hn;
    [done|].
  cbn [parameter_args] in H.
  destruct (resolved_value run parameter) as [text|] eqn:Hres; [|done].
  destruct (parameter_args run rest) as [args'|] eqn:Hrest; [|done].
  injection H as <-. destruct n as [|n].
  - injection Hn as ->. eauto.
  - cbn in Hn. destruct (IH args' n flag value eq_refl Hn)
      as (text' & ? & ? & ?).
    exists text'. replace (2 * S n) with (S (S (2 * n))) by lia. done.
Qed.

Lemma parameter_args_length run parameters : forall args,
  parameter_args run parameters = Some args ->
  List.length args = 2 * List.length parameters.
Proof.
  induction parameters as [|parameter rest IH]; intros args H.
  - by injection H as <-.
  - cbn [parameter_args] in H.
    destruct (resolved_value run parameter); [|done].
    destruct (parameter_args run rest) as [args'|]; [|done].
    injection H as <-. cbn [List.length]. rewrite (IH args' eq_refl). lia.
Qed.

End CommandFacts.

(** ** One pass of the pipeline loop *)

Section DispatchFacts.

Variable E : env.

Lemma index_inv {S A} (l : list A) n (s : S) r s' :
  index l n s = (r, s') ->
  s' = s /\ match l !! n with
            | Some x => r = Ok x
            | None => r = Raise IndexError
            end.
Proof.
  unfold index, ret, raise. destruct (l !! n); intros [= <- <-]; done.
Qed.

(** What a pass that gets as far as the [try] block has done. *)
Lemma build_invocation_ok config addresses pipeline st i st1 :
  build_invocation E config addresses pipeline st = (Ok i, st1) ->
  exists second run_id run_dir args,
    PyStr.split PosixPath.sep (pipeline_name pipeline) !! 1 = Some second
    /\ st_run st !! "sequencing_run_id" = Some run_id
    /\ st_run st !! "run_dir" = Some run_dir
    /\ let short_name := PyStr.replace (PyStr.chr 95) (PyStr.chr 45) second in
       let started := clock E (w_ticks (st_world st)) in
       let output_dir := output_dir_of config run_id short_name pipeline in
       let work_dir := work_dir_of E config run_id started in
       let trace_path := trace_path_of E config run_id short_name pipeline in
       let command :=
         (command_head E config addresses pipeline work_dir trace_path
          ++ args)%list in
       st_run st1
       = <["outdir" := output_dir]> (<["fastq_input" := run_dir]> (st_run st))
       /\ parameter_args (st_run st1) (pipeline_parameters pipeline)
          = Some args
       /\ i = {| Invocation.analysis_run_id := run_id;
                 Invocation.analysis_output_dir := output_dir;
                 Invocation.analysis_work_dir := work_dir;
                 Invocation.pipeline_command := map VStr command |}
       /\ st_world st1
          = add_log INFO (analysis_started run_id (PyStr.join " " command))
              (add_tick (st_world st)).
Proof.
  unfold build_invocation, pipeline_short_name. intros H.
  unfold bind at 1 in H. unfold bind at 1 in H.
  destruct (index _ 1 st) as [r s'] eqn:Hidx.
  apply index_inv in Hidx as [-> Hidx].
  destruct (PyStr.split PosixPath.sep (pipeline_name pipeline) !! 1)
    as [second|]; subst r; [|done].
  cbn [ret] in H. unfold bind at 1 in H. cbn [now] in H.
  unfold bind at 1 in H.
  destruct (run_get "sequencing_run_id" (on_world add_tick st))
    as [r s'] eqn:Hid.
  apply run_get_inv in Hid as [-> Hid]. cbn [on_world st_run] in Hid.
  destruct (st_run st !! "sequencing_run_id") as [run_id|] eqn:Hrid;
    subst r; [|done].
  unfold bind at 1 in H.
  destruct (run_get "run_dir" (on_world add_tick st)) as [r s'] eqn:Hrd.
  apply run_get_inv in Hrd as [-> Hrd]. cbn [on_world st_run] in Hrd.
  destruct (st_run st !! "run_dir") as [run_dir|] eqn:Hrdir;
    subst r; [|done].
  unfold bind at 1 in H. cbn [modify] in H.
  unfold bind at 1 in H. cbn [modify] in H.
  unfold bind at 1 in H.
  match type of H with
  | context [add_parameters ?ps ?cmd ?s] =>
      destruct (add_parameters ps cmd s) as [r s'] eqn:Hadd;
      pose proof (add_parameters_state ps cmd s) as Hst;
      rewrite Hadd in Hst; cbn in Hst; subst s'
  end.
  destruct r as [command'|]; [|done].
  apply add_parameters_ok in Hadd as (args & Hargs & Hcmd).
  set (work := work_dir_of E config run_id (clock E (w_ticks (st_world st))))
    in *.
  set (trace := trace_path_of E config run_id
                  (PyStr.replace (PyStr.chr 95) (PyStr.chr 45) second)
                  pipeline) in *.
  assert (command'
          = map VStr (command_head E config addresses pipeline work trace
                      ++ args)) as ->.
  { rewrite Hcmd, map_app. f_equal.
    assert (forall head : list string,
              match pipeline_parameters pipeline with
              | [] => map VStr head
              | _ => map coerce (map VStr head)
              end = map VStr head) as Hhead
      by (intros head; destruct (pipeline_parameters pipeline);
          by rewrite ?coerce_strs).
    pose proof (Hhead (command_head E config addresses pipeline work trace))
      as Hh.
    unfold command_head in *.
    destruct (send_notification_emails config) as [[]|]; exact Hh. }
  unfold bind at 1 in H. unfold join_values in H.
  rewrite str_values_strs in H. cbn [ret] in H.
  unfold bind at 1 in H. cbn in H. injection H as <- <-.
  exists second, run_id, run_dir, args. cbn. done.
Qed.

End DispatchFacts.

(** ** The [try] block, outcome by outcome *)

Section AttemptFacts.

Variable E : env.

Ltac run_try H :=
  unfold run_invocation, try_except, subprocess_run_check, json_dump_to,
    rmtree_ignore_errors, join_values, info, error, now, bind, get, modify,
    ret, raise;
  cbn [Invocation.pipeline_command Invocation.analysis_run_id
       Invocation.analysis_output_dir Invocation.analysis_work_dir];
  rewrite H; cbn [on_world st_world st_run add_tick w_fs].

Ltac settle :=
  unfold on_world, add_log, set_fs, add_tick, add_launched;
  cbn [st_world st_run w_fs w_ticks w_log w_launched];
  rewrite <- ?(assoc_L (++)); reflexivity.

Ltac step :=
  cbn -[PosixPath.join PosixPath.abspath Json.dump_indent2 Fs.write
        Fs.rmtree_ignore_errors Datetime.isoformat PyStr.join Z.eqb].

(** Exit status zero and the marker file could be created. *)
Lemma run_invocation_completed i st args fs_run fs_marked :
  str_values (Invocation.pipeline_command i) = Some args ->
  spawn E args (w_fs (st_world st)) = (Exited 0, fs_run) ->
  Fs.write (cwd E) fs_run (marker_path i)
    (marker_content (clock E (w_ticks (st_world st)))
                    (clock E (S (w_ticks (st_world st)))))
  = Some fs_marked ->
  run_invocation E i st
  = (Ok tt,
     {| st_run := st_run st;
        st_world :=
          {| w_fs := Fs.rmtree_ignore_errors (cwd E) fs_marked
                       (Invocation.analysis_work_dir i);
             w_ticks := S (S (w_ticks (st_world st)));
             w_log := w_log (st_world st)
                      ++ [(INFO, analysis_completed
                                   (Invocation.analysis_run_id i)
                                   (PyStr.join " " args));
                          (INFO, analysis_work_dir_deleted
                                   (Invocation.analysis_run_id i)
                                   (Invocation.analysis_work_dir i))];
             w_launched := w_launched (st_world st) ++ [args] |} |}).
Proof.
  intros Hargs Hspawn Hwrite. run_try Hargs. rewrite Hspawn.
  change (0 =? 0)%Z with true. step. unfold marker_path, marker_content in Hwrite. rewrite Hwrite.
  step. settle.
Qed.

(** Exit status zero, but the marker file could not be created: the
    [OSError] of [open] lands in the second [except] clause. *)
Lemma run_invocation_marker_failed i st args fs_run :
  str_values (Invocation.pipeline_command i) = Some args ->
  spawn E args (w_fs (st_world st)) = (Exited 0, fs_run) ->
  Fs.write (cwd E) fs_run (marker_path i)
    (marker_content (clock E (w_ticks (st_world st)))
                    (clock E (S (w_ticks (st_world st)))))
  = None ->
  run_invocation E i st
  = (Ok tt,
     {| st_run := st_run st;
        st_world :=
          {| w_fs := fs_run;
             w_ticks := S (S (w_ticks (st_world st)));
             w_log := w_log (st_world st)
                      ++ [(ERROR, delete_analysis_work_dir_failed
                                    (Invocation.analysis_run_id i)
                                    (Invocation.analysis_work_dir i))];
             w_launched := w_launched (st_world st) ++ [args] |} |}).
Proof.
  intros Hargs Hspawn Hwrite. run_try Hargs. rewrite Hspawn.
  change (0 =? 0)%Z with true. step. unfold marker_path, marker_content in Hwrite. by rewrite Hwrite.
Qed.

(** Non-zero exit status. *)
Lemma run_invocation_failed i st args returncode fs_run :
  str_values (Invocation.pipeline_command i) = Some args ->
  spawn E args (w_fs (st_world st)) = (Exited returncode, fs_run) ->
  returncode <> 0%Z ->
  run_invocation E i st
  = (Ok tt,
     {| st_run := st_run st;
        st_world :=
          {| w_fs := fs_run;
             w_ticks := S (w_ticks (st_world st));
             w_log := w_log (st_world st)
                      ++ [(ERROR, analysis_failed
                                    (Invocation.analysis_run_id i)
                                    (PyStr.join " " args))];
             w_launched := w_launched (st_world st) ++ [args] |} |}).
Proof.
  intros Hargs Hspawn Hcode. run_try Hargs. rewrite Hspawn.
  apply Z.eqb_neq in Hcode. step. rewrite Hcode. step. settle.
Qed.

(** The engine could not be started. *)
Lemma run_invocation_not_started i st args fs_run :
  str_values (Invocation.pipeline_command i) = Some args ->
  spawn E args (w_fs (st_world st)) = (SpawnFailed, fs_run) ->
  run_invocation E i st
  = (Ok tt,
     {| st_run := st_run st;
        st_world :=
          {| w_fs := w_fs (st_world st);
             w_ticks := S (w_ticks (st_world st));
             w_log := w_log (st_world st)
                      ++ [(ERROR, delete_analysis_work_dir_failed
                                    (Invocation.analysis_run_id i)
                                    (Invocation.analysis_work_dir i))];
             w_launched := w_launched (st_world st) |} |}).
Proof.
  intros Hargs Hspawn. run_try Hargs. rewrite Hspawn. step. settle.
Qed.

(** An argument holds the null character: the [ValueError] of
    [subprocess.run] matches neither [except] clause and leaves the
    [try] block, after the first reading of the clock. *)
Lemma run_invocation_refused i st args fs_run :
  str_values (Invocation.pipeline_command i) = Some args ->
  spawn E args (w_fs (st_world st)) = (EmbeddedNull, fs_run) ->
  run_invocation E i st = (Raise ValueError, on_world add_tick st).
Proof.
  intros Hargs Hspawn. run_try Hargs. by rewrite Hspawn.
Qed.

(** The arguments are refused exactly when one of them holds the null
    character; otherwise the engine decides. *)
Lemma spawn_refuses argv fs :
  fst (spawn E argv fs) = EmbeddedNull
  <-> existsb (PyStr.contains PyStr.nul) argv = true.
Proof.
  unfold spawn. destruct (existsb _ argv); [done|].
  by destruct (process E argv fs) as [[returncode|] fs'].
Qed.

(** With a command of strings the [try] block lets nothing escape but
    the [ValueError] of an argument with the null character in it, and
    leaves the run descriptor alone. *)
Lemma run_invocation_returns i st :
  Forall is_str (Invocation.pipeline_command i) ->
  run_invocation E i st
  = match fst (spawn E (argv i) (w_fs (st_world st))) with
    | EmbeddedNull => (Raise ValueError, on_world add_tick st)
    | _ => (Ok tt, snd (run_invocation E i st))
    end
  /\ st_run (snd (run_invocation E i st)) = st_run st.
Proof.
  intros Hstr. apply Forall_is_str in Hstr.
  pose proof (str_values_strs (argv i)) as Hargs.
  unfold argv in *. rewrite <- Hstr in Hargs.
  destruct (spawn E (map py_str (Invocation.pipeline_command i))
              (w_fs (st_world st))) as [[returncode| |] fs_run] eqn:Hspawn;
    cbn [fst].
  - destruct (Z.eq_dec returncode 0) as [->|Hcode].
    + destruct (Fs.write (cwd E) fs_run (marker_path i)
                 (marker_content (clock E (w_ticks (st_world st)))
                    (clock E (S (w_ticks (st_world st)))))) eqn:Hwrite.
      * by erewrite run_invocation_completed.
      * by erewrite run_invocation_marker_failed.
    + by erewrite run_invocation_failed.
  - by erewrite run_invocation_not_started.
  - by erewrite run_invocation_refused.
Qed.

End AttemptFacts.

Section PassFacts.

Variable E : env.

(** A pass stops before the [try] block only for a pipeline name
    without separator or for a run field that is not there. *)
Lemma build_invocation_raise config addresses pipeline st e st1 :
  build_invocation E config addresses pipeline st = (Raise e, st1) ->
  (e = IndexError
   /\ PyStr.split PosixPath.sep (pipeline_name pipeline) !! 1 = None
   /\ st1 = st)
  \/ (exists key,
        e = KeyError key
        /\ st_run st !! key = None
        /\ (key = "sequencing_run_id" \/ key = "run_dir"
            \/ (In (key, VNone) (pipeline_parameters pipeline)
                /\ key <> "fastq_input" /\ key <> "outdir"))).
Proof.
  unfold build_invocation, pipeline_short_name. intros H.
  unfold bind at 1 in H. unfold bind at 1 in H.
  destruct (index _ 1 st) as [r s'] eqn:Hidx.
  apply index_inv in Hidx as [-> Hidx].
  destruct (PyStr.split PosixPath.sep (pipeline_name pipeline) !! 1)
    as [second|]; subst r; [|injection H as <- <-; by left].
  right. cbn [ret] in H. unfold bind at 1 in H. cbn [now] in H.
  unfold bind at 1 in H.
  destruct (run_get "sequencing_run_id" (on_world add_tick st))
    as [r s'] eqn:Hid.
  apply run_get_inv in Hid as [-> Hid]. cbn [on_world st_run] in Hid.
  destruct (st_run st !! "sequencing_run_id") eqn:Hrid;
    subst r; [|injection H as <- _; eauto 6].
  unfold bind at 1 in H.
  destruct (run_get "run_dir" (on_world add_tick st)) as [r s'] eqn:Hrd.
  apply run_get_inv in Hrd as [-> Hrd]. cbn [on_world st_run] in Hrd.
  destruct (st_run st !! "run_dir") eqn:Hrdir;
    subst r; [|injection H as <- _; eauto 6].
  unfold bind at 1 in H. cbn [modify] in H.
  unfold bind at 1 in H. cbn [modify] in H.
  unfold bind at 1 in H.
  match type of H with
  | context [add_parameters ?ps ?cmd ?s] =>
      destruct (add_parameters ps cmd s) as [r s'] eqn:Hadd
  end.
  destruct r as [command'|e'].
  - exfalso. apply add_parameters_strings in Hadd.
    + apply Forall_is_str in Hadd. unfold bind at 1 in H.
      unfold join_values in H. rewrite Hadd, str_values_strs in H.
      cbn in H. discriminate.
    + destruct (send_notification_emails config) as [[]|];
        repeat constructor.
  - apply add_parameters_raise in Hadd as (key & -> & Hin & Hnone).
    injection H as <- _. exists key. split; [done|].
    cbn [set_run on_world st_run] in Hnone.
    apply lookup_insert_None in Hnone as [Hnone ?].
    apply lookup_insert_None in Hnone as [Hnone ?].
    split; [done|]. right. right. done.
Qed.

(** A pass reaches the [try] block whenever the pipeline name has a
    separator, the run descriptor has its two fields, and every null
    parameter other than [fastq_input] and [outdir] names a field of
    the descriptor. *)
Lemma build_invocation_succeeds config addresses pipeline st :
  has_separator pipeline ->
  is_Some (st_run st !! "sequencing_run_id") ->
  is_Some (st_run st !! "run_dir") ->
  (forall key, In (key, VNone) (pipeline_parameters pipeline) ->
     key <> "fastq_input" -> key <> "outdir" ->
     is_Some (st_run st !! key)) ->
  exists i st1,
    build_invocation E config addresses pipeline st = (Ok i, st1).
Proof.
  intros Hsep [? Hid] [? Hrd] Hparams.
  destruct (build_invocation E config addresses pipeline st)
    as [[i|e] st1] eqn:Hbuild; [eauto|].
  exfalso.
  apply build_invocation_raise in Hbuild
    as [(_ & Hnone & _)|(key & _ & Hnone & [->|[->|(Hin & ? & ?)]])].
  - apply split_second in Hnone. unfold has_separator in Hsep. congruence.
  - congruence.
  - congruence.
  - destruct (Hparams key Hin) as [? Hsome]; congruence.
Qed.

Lemma build_invocation_strings config addresses pipeline st i st1 :
  build_invocation E config addresses pipeline st = (Ok i, st1) ->
  Forall is_str (Invocation.pipeline_command i)
  /\ str_values (Invocation.pipeline_command i) = Some (argv i).
Proof.
  intros (? & ? & ? & args & _ & _ & _ & _ & _ & -> & _)%build_invocation_ok.
  unfold argv. cbn [Invocation.pipeline_command]. split.
  - rewrite List.Forall_map. by apply Forall_true.
  - rewrite map_map. cbn [py_str]. rewrite map_id. apply str_values_strs.
Qed.

(** One whole pass either returns, having written the two fields onto
    the run descriptor, or stops before the [try] block, or leaves the
    [try] block with the [ValueError] of a command that holds the null
    character. *)
Lemma analyze_pipeline_cases config addresses pipeline st :
  match analyze_pipeline E config addresses pipeline st with
  | (Ok _, st2) =>
      exists i st1,
        build_invocation E config addresses pipeline st = (Ok i, st1)
        /\ run_invocation E i st1 = (Ok tt, st2)
        /\ st_run st2 = st_run st1
  | (Raise e, st2) =>
      build_invocation E config addresses pipeline st = (Raise e, st2)
      \/ exists i st1,
           build_invocation E config addresses pipeline st = (Ok i, st1)
           /\ e = ValueError
           /\ st2 = on_world add_tick st1
           /\ existsb (PyStr.contains PyStr.nul) (argv i) = true
  end.
Proof.
  unfold analyze_pipeline, bind.
  destruct (build_invocation E config addresses pipeline st)
    as [[i|e] st1] eqn:Hbuild; [|by left].
  pose proof (build_invocation_strings _ _ _ _ _ _ Hbuild) as [Hstr _].
  destruct (run_invocation_returns E i st1 Hstr) as [Hret Hrun].
  pose proof (spawn_refuses E (argv i) (w_fs (st_world st1))) as Hnull.
  destruct (fst (spawn E (argv i) (w_fs (st_world st1)))).
  - rewrite Hret. rewrite Hret in Hrun. cbn [snd] in Hrun. eauto.
  - rewrite Hret. rewrite Hret in Hrun. cbn [snd] in Hrun. eauto.
  - rewrite Hret. right. exists i, st1. split_and!; try done.
    by apply Hnull.
Qed.

End PassFacts.

(** ** The file system operations *)

Section FsFacts.

Lemma write_then_read cwd fs p content fs' :
  Fs.write cwd fs p content = Some fs' ->
  Fs.read cwd fs' p = Some content.
Proof.
  unfold Fs.write, Fs.read.
  destruct (Fs.resolve cwd p) as [|c k] eqn:Hk; [done|].
  destruct (_ && _); [|done]. intros [= <-].
  cbn. by rewrite lookup_insert_eq.
Qed.

(** When nothing below [p] resists, no directory is left at [p]. *)
Lemma rmtree_clears cwd fs p :
  Fs.resists fs (Fs.resolve cwd p) = false ->
  Fs.isdir cwd (Fs.rmtree_ignore_errors cwd fs p) p = false.
Proof.
  unfold Fs.isdir, Fs.rmtree_ignore_errors. intros Hres.
  destruct (Fs.is_dir_node (Fs.node_at fs (Fs.resolve cwd p))) eqn:Hdir;
    [|done].
  destruct (Fs.resolve cwd p) as [|c k] eqn:Hk; [done|].
  cbn [Fs.node_at nodes].
  rewrite (proj2 (map_lookup_filter_None _ _ _)); [done|].
  right. intros x _ Hkeep. cbn [fst] in Hkeep. rewrite Hres in Hkeep.
  assert (Fs.under (c :: k) (c :: k) = true) as Hself
    by (by apply bool_decide_eq_true).
  by specialize (Hkeep Hself).
Qed.

(** A recursive delete touches nothing outside the tree it is given. *)
Lemma rmtree_outside cwd fs p q :
  Fs.under (Fs.resolve cwd p) (Fs.resolve cwd q) = false ->
  Fs.read cwd (Fs.rmtree_ignore_errors cwd fs p) q = Fs.read cwd fs q.
Proof.
  unfold Fs.read, Fs.rmtree_ignore_errors. intros Hout.
  destruct (Fs.is_dir_node (Fs.node_at fs (Fs.resolve cwd p))); [|done].
  destruct (Fs.resolve cwd q) as [|c k] eqn:Hq; [done|].
  cbn [Fs.node_at nodes].
  destruct (nodes fs !! (c :: k)) as [n|] eqn:Hn.
  - rewrite (proj2 (map_lookup_filter_Some _ _ _ n)); [done|].
    split; [done|]. cbn [fst]. intros Hin. congruence.
  - rewrite (proj2 (map_lookup_filter_None _ _ _)); [done|]. by left.
Qed.

End FsFacts.

(** ** The dispatcher *)

Section DispatcherClaims.

Variable E : env.

Lemma analyze_run_unfold config :
  analyze_run E config
  = for_each (pipelines config) (analyze_pipeline E config (recipients config)).
Proof. reflexivity. Qed.

Lemma analyze_pipeline_run config addresses pipeline st st2 :
  analyze_pipeline E config addresses pipeline st = (Ok tt, st2) ->
  exists second run_id run_dir,
    PyStr.split PosixPath.sep (pipeline_name pipeline) !! 1 = Some second
    /\ st_run st !! "sequencing_run_id" = Some run_id
    /\ st_run st !! "run_dir" = Some run_dir
    /\ st_run st2
       = <["outdir" :=
             output_dir_of config run_id
               (PyStr.replace (PyStr.chr 95) (PyStr.chr 45) second) pipeline]>
           (<["fastq_input" := run_dir]> (st_run st)).
Proof.
  intros H. pose proof (analyze_pipeline_cases E config addresses pipeline st)
    as Hc. rewrite H in Hc. destruct Hc as (i & st1 & Hb & _ & Hrun).
  apply build_invocation_ok in Hb
    as (second & run_id & run_dir & args & ? & ? & ? & Hst & _).
  exists second, run_id, run_dir. by rewrite Hrun.
Qed.

(** C2, under the two conditions it depends on: when the engine exits
    with status zero and the marker file can be created in the
    pipeline's output directory (which the dispatcher never creates), the
    pass returns normally, the file [analysis_complete.json] holds
    exactly the two ISO timestamps taken around the call, and the work
    directory is then deleted with errors ignored: the marker is still
    there unless it lay inside the work directory, and no work directory
    is left unless something in it resisted deletion. *)
Theorem completed_pipeline_marker_and_cleanup
  config addresses pipeline st i st1 fs_run fs_marked :
  build_invocation E config addresses pipeline st = (Ok i, st1) ->
  spawn E (argv i) (w_fs (st_world st1)) = (Exited 0, fs_run) ->
  Fs.write (cwd E) fs_run (marker_path i)
    (marker_content (clock E (w_ticks (st_world st1)))
                    (clock E (S (w_ticks (st_world st1)))))
  = Some fs_marked ->
  exists st2,
    analyze_pipeline E config addresses pipeline st = (Ok tt, st2)
    /\ Fs.read (cwd E) fs_marked (marker_path i)
       = Some (marker_content (clock E (w_ticks (st_world st1)))
                              (clock E (S (w_ticks (st_world st1)))))
    /\ w_fs (st_world st2)
       = Fs.rmtree_ignore_errors (cwd E) fs_marked
           (Invocation.analysis_work_dir i)
    /\ (Fs.under (Fs.resolve (cwd E) (Invocation.analysis_work_dir i))
                 (Fs.resolve (cwd E) (marker_path i)) = false ->
        Fs.read (cwd E) (w_fs (st_world st2)) (marker_path i)
        = Some (marker_content (clock E (w_ticks (st_world st1)))
                               (clock E (S (w_ticks (st_world st1))))))
    /\ (Fs.resists fs_marked
          (Fs.resolve (cwd E) (Invocation.analysis_work_dir i)) = false ->
        Fs.isdir (cwd E) (w_fs (st_world st2))
          (Invocation.analysis_work_dir i) = false)
    /\ w_log (st_world st2)
       = (w_log (st_world st1)
          ++ [(INFO, analysis_completed (Invocation.analysis_run_id i)
                       (command_text i));
              (INFO, analysis_work_dir_deleted
                       (Invocation.analysis_run_id i)
                       (Invocation.analysis_work_dir i))])%list.
Proof.
  intros Hbuild Hspawn Hwrite.
  pose proof (build_invocation_strings _ _ _ _ _ _ _ Hbuild) as [_ Hargs].
  pose proof (run_invocation_completed E i st1 _ _ _ Hargs Hspawn Hwrite)
    as Hrun.
  eexists. unfold analyze_pipeline, bind. rewrite Hbuild, Hrun.
  split; [done|]. cbn [st_world w_fs w_log].
  split; [by eapply write_then_read|]. split; [done|].
  split; [|split; [|done]].
  - intros Hout. rewrite rmtree_outside by done. by eapply write_then_read.
  - apply rmtree_clears.
Qed.

(** Whether the delete succeeded leaves no trace in the log: a
    completed attempt logs [analysis_completed] and
    [analysis_work_dir_deleted], nothing else, whatever resisted. *)
Lemma completed_attempt_logs_deleted i st fs_run fs_marked :
  str_values (Invocation.pipeline_command i) = Some (argv i) ->
  spawn E (argv i) (w_fs (st_world st)) = (Exited 0, fs_run) ->
  Fs.write (cwd E) fs_run (marker_path i)
    (marker_content (clock E (w_ticks (st_world st)))
                    (clock E (S (w_ticks (st_world st)))))
  = Some fs_marked ->
  event_types (st_world (snd (run_invocation E i st)))
  = (event_types (st_world st)
     ++ ["analysis_completed"; "analysis_work_dir_deleted"])%list.
Proof.
  intros Hargs Hspawn Hwrite.
  rewrite (run_invocation_completed E i st _ _ _ Hargs Hspawn Hwrite).
  unfold event_types. cbn [snd st_world w_log]. by rewrite map_app.
Qed.

(** C3: when the engine exits with a non-zero status the pass still
    returns normally; the dispatcher has written and removed nothing
    (the file system is as the engine left it, so there is no marker of
    its making and the work directory is where it was), an
    [analysis_failed] event is logged at error level, and the loop goes
    on with the pipelines that follow. *)
Theorem failed_pipeline_is_logged_and_passed_over
  config addresses pipeline rest st i st1 returncode fs_run :
  build_invocation E config addresses pipeline st = (Ok i, st1) ->
  spawn E (argv i) (w_fs (st_world st1)) = (Exited returncode, fs_run) ->
  returncode <> 0%Z ->
  exists st2,
    analyze_pipeline E config addresses pipeline st = (Ok tt, st2)
    /\ w_fs (st_world st2) = fs_run
    /\ w_log (st_world st2)
       = (w_log (st_world st1)
          ++ [(ERROR, analysis_failed (Invocation.analysis_run_id i)
                        (command_text i))])%list
    /\ for_each (pipeline :: rest) (analyze_pipeline E config addresses) st
       = for_each rest (analyze_pipeline E config addresses) st2.
Proof.
  intros Hbuild Hspawn Hcode.
  pose proof (build_invocation_strings _ _ _ _ _ _ _ Hbuild) as [_ Hargs].
  pose proof (run_invocation_failed E i st1 _ _ _ Hargs Hspawn Hcode) as Hrun.
  assert (analyze_pipeline E config addresses pipeline st
          = (Ok tt, snd (run_invocation E i st1))) as Hpass
    by (unfold analyze_pipeline, bind; by rewrite Hbuild, Hrun).
  eexists. split; [exact Hpass|]. rewrite Hrun. cbn [snd st_world w_fs w_log].
  repeat split. cbn [for_each]. unfold bind at 1. by rewrite Hpass, Hrun.
Qed.

(** C5: on the command line every configured parameter contributes
    [--flag] followed by its value; for the null sentinel the value is
    the run descriptor's field of that name, read after [fastq_input]
    (the run directory) and [outdir] (the pipeline's output directory)
    have been written onto the descriptor, and for any other configured
    value it is that value's text, whatever the descriptor holds. *)
Theorem parameter_resolution config addresses pipeline st i st1 :
  build_invocation E config addresses pipeline st = (Ok i, st1) ->
  is_Some (st_run st !! "run_dir")
  /\ st_run st1 !! "fastq_input" = st_run st !! "run_dir"
  /\ st_run st1 !! "outdir" = Some (Invocation.analysis_output_dir i)
  /\ exists trace_path args,
       argv i
       = (command_head E config addresses pipeline
            (Invocation.analysis_work_dir i) trace_path ++ args)%list
       /\ List.length args = 2 * List.length (pipeline_parameters pipeline)
       /\ forall n flag value,
            pipeline_parameters pipeline !! n = Some (flag, value) ->
            args !! (2 * n) = Some ("--" +:+ flag)
            /\ args !! (2 * n + 1)
               = match value with
                 | VNone => st_run st1 !! flag
                 | _ => Some (py_str value)
                 end.
Proof.
  intros (second & run_id & run_dir & args & _ & _ & Hrd & Hst & Hargs
          & -> & _)%build_invocation_ok.
  cbn zeta in Hst, Hargs. rewrite Hst, Hrd.
  split; [done|]. split; [by simplify_map_eq|].
  split; [by simplify_map_eq|].
  eexists _, args. unfold argv. cbn [Invocation.pipeline_command
    Invocation.analysis_work_dir]. split.
  - rewrite map_map. cbn [py_str]. by rewrite map_id.
  - split; [by eapply parameter_args_length|].
    intros n flag value Hn. rewrite <- Hst.
    destruct (parameter_args_lookup _ _ _ _ _ _ Hargs Hn)
      as (text & Hres & H0 & H1).
    split; [done|]. rewrite H1. unfold resolved_value in Hres.
    by destruct value.
Qed.

(** What the [try] block counts as launched: the argument vector, when
    the engine was started and exited; nothing otherwise. *)
Lemma run_invocation_launches i st :
  Forall is_str (Invocation.pipeline_command i) ->
  w_launched (st_world (snd (run_invocation E i st)))
  = (w_launched (st_world st)
     ++ match fst (spawn E (argv i) (w_fs (st_world st))) with
        | Exited _ => [argv i]
        | _ => []
        end)%list.
Proof.
  intros Hstr. apply Forall_is_str in Hstr.
  pose proof (str_values_strs (argv i)) as Hargs.
  unfold argv in *. rewrite <- Hstr in Hargs.
  destruct (spawn E (map py_str (Invocation.pipeline_command i))
              (w_fs (st_world st))) as [[returncode| |] fs_run] eqn:Hspawn;
    cbn [fst].
  - destruct (Z.eq_dec returncode 0) as [->|Hcode].
    + destruct (Fs.write (cwd E) fs_run (marker_path i)
                 (marker_content (clock E (w_ticks (st_world st)))
                    (clock E (S (w_ticks (st_world st)))))) eqn:Hwrite.
      * by erewrite run_invocation_completed.
      * by erewrite run_invocation_marker_failed.
    + by erewrite run_invocation_failed.
  - erewrite run_invocation_not_started by done. cbn. by rewrite app_nil_r.
  - erewrite run_invocation_refused by done. cbn. by rewrite app_nil_r.
Qed.

(** C8: whenever a command line is constructed, every element of it
    is a string and so its own textual form.  The configured values are
    on it as text: the pipeline name and the pinned version at their
    fixed places, and for the n-th configured parameter [--flag] and
    then the [str] of its value (for the null sentinel, the run
    descriptor's field of that name), right after the fixed arguments
    and the notification flag, if any; nothing else is on it.  That list
    of strings is what is handed to the engine, and neither constructing
    nor executing it fails for want of a string: no [TypeError] arises,
    and the one exception the call of the engine itself lets through is
    the [ValueError] of an argument with the null character in it. *)
Theorem command_line_is_strings config addresses pipeline st :
  match build_invocation E config addresses pipeline st with
  | (Ok i, st1) =>
      let first :=
        match send_notification_emails config with
        | Some true => 15
        | _ => 13
        end in
      Forall is_str (Invocation.pipeline_command i)
      /\ Invocation.pipeline_command i = map VStr (argv i)
      /\ (argv i !! 2 = Some (pipeline_name pipeline)
          /\ argv i !! 4 = Some (pipeline_version pipeline))
      /\ (forall n flag value,
            pipeline_parameters pipeline !! n = Some (flag, value) ->
            argv i !! (first + 2 * n) = Some ("--" +:+ flag)
            /\ argv i !! (first + 2 * n + 1)
               = match value with
                 | VNone => st_run st1 !! flag
                 | _ => Some (py_str value)
                 end)
      /\ List.length (argv i)
         = first + 2 * List.length (pipeline_parameters pipeline)
      /\ fst (run_invocation E i st1) <> Raise TypeError
      /\ (existsb (PyStr.contains PyStr.nul) (argv i) = true ->
          run_invocation E i st1
          = (Raise ValueError, on_world add_tick st1))
      /\ w_launched (st_world (snd (run_invocation E i st1)))
         = (w_launched (st_world st1)
            ++ match fst (spawn E (argv i) (w_fs (st_world st1))) with
               | Exited _ => [argv i]
               | _ => []
               end)%list
  | (Raise e, _) => e <> TypeError
  end.
Proof.
  destruct (build_invocation E config addresses pipeline st)
    as [[i|e] st1] eqn:Hbuild.
  - pose proof (build_invocation_strings _ _ _ _ _ _ _ Hbuild) as [Hstr _].
    pose proof (run_invocation_returns E i st1 Hstr) as [Hret _].
    pose proof (run_invocation_launches i st1 Hstr) as Hlaunch.
    apply build_invocation_ok in Hbuild
      as (second & run_id & run_dir & args & _ & _ & _ & _ & Hargs & Hi & _).
    cbn zeta in Hargs.
    match type of Hi with
    | _ = {| Invocation.pipeline_command := map VStr (?head ++ args) |} =>
        assert (argv i = (head ++ args)%list) as Hargv
          by (rewrite Hi; unfold argv; cbn [Invocation.pipeline_command];
              rewrite map_map; cbn [py_str]; by rewrite map_id);
        set (first := match send_notification_emails config with
                      | Some true => 15
                      | _ => 13
                      end);
        assert (List.length head = first) as Hlen
          by (unfold command_head, first; rewrite length_app;
              by destruct (send_notification_emails config) as [[]|])
    end.
    cbn zeta. fold first. split_and!.
    + done.
    + by apply Forall_is_str.
    + rewrite Hargv. done.
    + rewrite Hargv. done.
    + intros n flag value Hn.
      destruct (parameter_args_lookup _ _ _ _ _ _ Hargs Hn)
        as (text & Hres & H0 & H1).
      rewrite Hargv. split.
      * rewrite lookup_app_r by lia.
        replace (first + 2 * n - _) with (2 * n) by lia. done.
      * rewrite lookup_app_r by lia.
        replace (first + 2 * n + 1 - _) with (2 * n + 1) by lia.
        rewrite H1. unfold resolved_value in Hres. by destruct value.
    + rewrite Hargv, length_app, Hlen.
      by erewrite parameter_args_length by done.
    + rewrite Hret. by destruct (fst (spawn _ _ _)).
    + intros Hnull%(spawn_refuses E (argv i) (w_fs (st_world st1))).
      by rewrite Hret, Hnull.
    + exact Hlaunch.
  - apply build_invocation_raise in Hbuild as [(-> & _)|(key & -> & _)];
      done.
Qed.

End DispatcherClaims.

Section RunClaims.

Variable E : env.

Lemma for_each_cons {A} (x : A) rest (body : A -> M state unit) st :
  for_each (x :: rest) body st
  = match body x st with
    | (Ok _, st2) => for_each rest body st2
    | (Raise e, st2) => (Raise e, st2)
    end.
Proof. reflexivity. Qed.

Lemma for_each_writes_two_fields config addresses pipeline :
  forall ps st st',
    last ps = Some pipeline ->
    for_each ps (analyze_pipeline E config addresses) st
    = (Ok tt, st') ->
    exists second run_id run_dir,
      PyStr.split PosixPath.sep (pipeline_name pipeline) !! 1 = Some second
      /\ st_run st !! "sequencing_run_id" = Some run_id
      /\ st_run st !! "run_dir" = Some run_dir
      /\ st_run st' !! "fastq_input" = Some run_dir
      /\ st_run st' !! "outdir"
         = Some (output_dir_of config run_id
                   (PyStr.replace (PyStr.chr 95) (PyStr.chr 45) second)
                   pipeline)
      /\ (forall key, key <> "fastq_input" -> key <> "outdir" ->
            st_run st' !! key = st_run st !! key).
Proof.
  induction ps as [|p rest IH]; intros st st' Hlast Hrun; [done|].
  rewrite for_each_cons in Hrun.
  destruct (analyze_pipeline E config addresses p st) as [[[]|e] st2] eqn:Hp;
    [|done].
  apply analyze_pipeline_run in Hp
    as (second & run_id & run_dir & Hsec & Hid & Hrd & Hst2).
  destruct rest as [|p' rest'].
  - injection Hlast as <-. injection Hrun as <-.
    exists second, run_id, run_dir. rewrite Hst2.
    split_and!; try done; try by simplify_map_eq.
    intros key ? ?. by simplify_map_eq.
  - destruct (IH st2 st' Hlast Hrun)
      as (second' & run_id' & run_dir' & ? & Hid' & Hrd' & ? & ? & Hframe).
    rewrite Hst2 in Hid', Hrd'. simplify_map_eq.
    exists second', run_id, run_dir. split_and!; try done.
    intros key ? ?. rewrite Hframe, Hst2 by done.
    by rewrite !lookup_insert_ne.
Qed.

(** C9: [analyze_run] works on the caller's run descriptor.  After a
    normal return with at least one pipeline configured, the descriptor
    has [fastq_input] equal to its [run_dir] and [outdir] equal to the
    output directory of the last configured pipeline, and every other
    field, [run_dir], [sequencing_run_id] and [instrument_type] among
    them, is as before. *)
Theorem analyze_run_writes_two_fields config pipeline st st' :
  last (pipelines config) = Some pipeline ->
  analyze_run E config st = (Ok tt, st') ->
  exists second run_id run_dir,
    PyStr.split PosixPath.sep (pipeline_name pipeline) !! 1 = Some second
    /\ st_run st !! "sequencing_run_id" = Some run_id
    /\ st_run st !! "run_dir" = Some run_dir
    /\ st_run st' !! "fastq_input" = Some run_dir
    /\ st_run st' !! "outdir"
       = Some (output_dir_of config run_id
                 (PyStr.replace (PyStr.chr 95) (PyStr.chr 45) second)
                 pipeline)
    /\ st_run st' !! "run_dir" = st_run st !! "run_dir"
    /\ st_run st' !! "sequencing_run_id" = st_run st !! "sequencing_run_id"
    /\ st_run st' !! "instrument_type" = st_run st !! "instrument_type"
    /\ (forall key, key <> "fastq_input" -> key <> "outdir" ->
          st_run st' !! key = st_run st !! key).
Proof.
  intros Hlast Hrun. rewrite analyze_run_unfold in Hrun.
  destruct (for_each_writes_two_fields _ _ _ _ _ _ Hlast Hrun)
    as (second & run_id & run_dir & ? & ? & ? & ? & ? & Hframe).
  exists second, run_id, run_dir.
  split_and!; try done; by apply Hframe.
Qed.

(** With no pipeline configured the loop body never runs and the
    descriptor is not touched. *)
Lemma analyze_run_no_pipelines config st :
  pipelines config = [] -> analyze_run E config st = (Ok tt, st).
Proof. intros Hps. by rewrite analyze_run_unfold, Hps. Qed.

Lemma for_each_no_index_error config addresses :
  forall ps st,
    Forall has_separator ps ->
    fst (for_each ps (analyze_pipeline E config addresses) st)
    <> Raise IndexError.
Proof.
  induction ps as [|p rest IH]; intros st Hsep; [done|].
  apply Forall_cons in Hsep as [Hp Hrest]. rewrite for_each_cons.
  pose proof (analyze_pipeline_cases E config addresses p st) as Hc.
  destruct (analyze_pipeline E config addresses p st) as [[[]|e] st2].
  - by apply IH.
  - destruct Hc as [Hc|(? & ? & _ & -> & _)]; [|done].
    apply build_invocation_raise in Hc as [(_ & Hnone & _)|(key & -> & _)];
      [|done].
    apply split_second in Hnone. unfold has_separator in Hp. congruence.
Qed.

(** C10: the short name is the piece after the first ['/'] of the
    pipeline name.  When the first configured pipeline's name has no
    ['/'], [analyze_run] raises [IndexError] at once: nothing has been
    launched, logged, read from the clock or written onto the run
    descriptor.  When every configured name has one, [analyze_run] never
    raises [IndexError]. *)
Theorem short_name_needs_separator config st :
  (forall pipeline rest,
     pipelines config = pipeline :: rest ->
     PyStr.contains PosixPath.sep (pipeline_name pipeline) = false ->
     analyze_run E config st = (Raise IndexError, st))
  /\ (Forall has_separator (pipelines config) ->
      fst (analyze_run E config st) <> Raise IndexError).
Proof.
  split.
  - intros pipeline rest Hps Hno. apply split_second in Hno.
    rewrite analyze_run_unfold, Hps, for_each_cons.
    unfold analyze_pipeline, build_invocation, pipeline_short_name.
    unfold bind at 1. unfold bind at 1. unfold bind at 1.
    unfold index. by rewrite Hno.
  - intros Hsep. rewrite analyze_run_unfold.
    by apply for_each_no_index_error.
Qed.

End RunClaims.

(** ** The claims on a concrete world *)

Import Example.

(** Closes an equation between closed terms by evaluating both sides. *)
Ltac evaluate :=
lazymatch goal with
| |- ?l = ?r => vm_cast_no_check (@eq_refl _ r)
end.

Lemma discovery_ready_iff_all_conditions_witness :
  (exists outs,
     find_run_dirs working (settings [qc]) true fresh
     = (Ok (map fst outs),
        {| w_fs := disk; w_ticks := 0; w_log := [] ++ map snd outs;
           w_launched := [] |})
     /\ Forall2 (owed working (settings [qc]) true fresh)
          [stray_entry; run_entry] outs
     /\ Forall2 (fun subdir out =>
                   is_Some out.1
                   <-> eligible working (settings [qc]) true fresh subdir)
          [stray_entry; run_entry] outs)
  /\ find_run_dirs working (settings [qc]) true fresh
     = (Ok [None; Some ready_run],
        {| w_fs := disk; w_ticks := 0;
           w_log :=
             [(DEBUG,
               directory_skipped "/data/runs/notes.txt"
                 (conditions_checked working (settings [qc]) true fresh
                    stray_entry));
              (INFO,
               run_directory_found run_id ("/data/runs/" +:+ run_id))];
           w_launched := [] |}).
Proof.
  split.
  - apply (proj1 (discovery_ready_iff_all_conditions working (settings [qc])
                    true fresh) [stray_entry; run_entry]).
    evaluate.
  - evaluate.
Defined.

Lemma initiated_run_never_ready_witness :
  yielded working (settings [qc]) true initiated run_entry = Ok None.
Proof.
  apply (initiated_run_never_ready working (settings [qc]) true initiated
           run_entry).
  evaluate.
Defined.

Lemma instrument_type_by_pattern_witness :
  instrument_type_of run_id = "gridion"
  /\ instrument_type_of "20230101_1200_P2S_00001-1_ABCDEFGH_abcdefgh"
     = "promethion"
  /\ instrument_type_of "notes.txt" = "unknown"
  /\ yielded working (settings [qc]) true fresh stray_entry = Ok None.
Proof.
  split_and!.
  - apply (instrument_type_by_pattern working (settings [qc]) true fresh
             run_entry).
    evaluate.
  - apply (instrument_type_by_pattern working (settings [qc]) true fresh
             {| DirEntry.name := "20230101_1200_P2S_00001-1_ABCDEFGH_abcdefgh";
                DirEntry.path := ""; DirEntry.is_dir := true |}).
    evaluate.
  - apply (instrument_type_by_pattern working (settings [qc]) true fresh
             stray_entry); evaluate.
  - apply (instrument_type_by_pattern working (settings [qc]) true fresh
             stray_entry); evaluate.
Defined.

Lemma completed_pipeline_marker_and_cleanup_witness :
  exists st2,
    analyze_pipeline working (settings [qc]) [] qc start = (Ok tt, st2)
    /\ Fs.read "/" (w_fs (st_world st2)) qc_marker
       = Some (marker_content noon noon)
    /\ Fs.isdir "/" (w_fs (st_world st2)) work_dir = false.
Proof.
  destruct (completed_pipeline_marker_and_cleanup working (settings [qc]) []
              qc start qc_invocation qc_built (left_by working)
              (marked working))
    as (st2 & Hrun & _ & _ & Hkept & Hgone & _).
  - evaluate.
  - evaluate.
  - evaluate.
  - exists st2. split; [exact Hrun|]. split.
    + apply Hkept. evaluate.
    + apply Hgone. evaluate.
Defined.

(** C2 does not hold without those two conditions.  With an engine that
    exits with status zero without having created the output directory, [open]
    fails, the pass ends in the second [except] clause, no marker
    exists and the work directory stays.  With an engine that leaves a
    file nobody can remove, the marker is written but the work directory
    is still there after the delete. *)
Lemma exit_zero_without_marker_or_cleanup :
  (build_invocation silent (settings [qc]) [] qc start
   = (Ok qc_invocation, qc_built)
   /\ fst (spawn silent (argv qc_invocation) (w_fs (st_world qc_built)))
      = Exited 0
   /\ outcome silent [qc] = Ok tt
   /\ Fs.exists_ "/" (final_disk silent [qc]) qc_marker = false
   /\ Fs.isdir "/" (final_disk silent [qc]) work_dir = true
   /\ event_types (st_world (final silent [qc]))
      = ["analysis_started"; "delete_analysis_work_dir_failed"])
  /\ (build_invocation locking (settings [qc]) [] qc start
      = (Ok qc_invocation, qc_built)
      /\ fst (spawn locking (argv qc_invocation) (w_fs (st_world qc_built)))
         = Exited 0
      /\ outcome locking [qc] = Ok tt
      /\ Fs.read "/" (final_disk locking [qc]) qc_marker
         = Some (marker_content noon noon)
      /\ Fs.isdir "/" (final_disk locking [qc]) work_dir = true).
Proof. split_and!; evaluate. Qed.

Lemma failed_pipeline_is_logged_and_passed_over_witness :
  exists st2,
    analyze_pipeline failing (settings [qc; taxon]) [] qc start = (Ok tt, st2)
    /\ w_fs (st_world st2) = left_by failing
    /\ for_each [qc; taxon]
         (analyze_pipeline failing (settings [qc; taxon]) []) start
       = for_each [taxon]
           (analyze_pipeline failing (settings [qc; taxon]) []) st2.
Proof.
  destruct (failed_pipeline_is_logged_and_passed_over failing
              (settings [qc; taxon]) [] qc [taxon] start qc_invocation
              qc_built 1%Z (left_by failing))
    as (st2 & Hrun & Hfs & _ & Hnext).
  - evaluate.
  - evaluate.
  - discriminate.
  - exists st2. split; [exact Hrun|]. split; [exact Hfs|exact Hnext].
Defined.

Lemma command_line_is_strings_witness :
  Forall is_str (Invocation.pipeline_command qc_invocation)
  /\ argv qc_invocation !! 4 = Some "0.1.3"
  /\ argv qc_invocation !! 17 = Some "--min_depth"
  /\ argv qc_invocation !! 18 = Some "10"
  /\ fst (run_invocation working qc_invocation qc_built) <> Raise TypeError
  /\ w_launched (st_world (snd (run_invocation working qc_invocation
                                  qc_built)))
     = [qc_command].
Proof.
  pose proof (command_line_is_strings working (settings [qc]) [] qc start)
    as H.
  assert (build_invocation working (settings [qc]) [] qc start
          = (Ok qc_invocation, qc_built)) as Hb by evaluate.
  rewrite Hb in H.
  destruct H as (Hstr & _ & [_ Hver] & Hpar & _ & Hrun & _ & Hlaunch).
  destruct (Hpar 2 "min_depth" (VInt 10) eq_refl) as [Hflag Hval].
  split_and!; [exact Hstr|exact Hver|exact Hflag|exact Hval|exact Hrun|].
  rewrite Hlaunch. evaluate.
Defined.

Lemma parameter_resolution_witness :
  st_run qc_built !! "fastq_input" = st_run start !! "run_dir"
  /\ st_run qc_built !! "outdir" = Some qc_output_dir.
Proof.
  destruct (parameter_resolution working (settings [qc]) [] qc start
              qc_invocation qc_built) as (_ & Hin & Hout & _).
  - evaluate.
  - split; [exact Hin|exact Hout].
Defined.

(** C7 on a concrete world: the engine exits with status zero and
    leaves a scratch file that cannot be removed.  The delete fails (the
    work directory is still there), the marker stays and nothing is
    raised, but what is logged is [analysis_work_dir_deleted]; no
    [delete_analysis_work_dir_failed] event is emitted. *)
Theorem failed_cleanup_is_logged_as_deleted :
  outcome locking [qc] = Ok tt
  /\ Fs.resists (marked locking) (Fs.resolve "/" work_dir) = true
  /\ Fs.isdir "/" (final_disk locking [qc]) work_dir = true
  /\ Fs.read "/" (final_disk locking [qc]) qc_marker
     = Some (marker_content noon noon)
  /\ event_types (st_world (final locking [qc]))
     = ["analysis_started"; "analysis_completed";
        "analysis_work_dir_deleted"].
Proof. split_and!; evaluate. Qed.

Lemma analyze_run_writes_two_fields_witness :
  st_run (final working [qc; taxon]) !! "fastq_input"
  = st_run start !! "run_dir"
  /\ st_run (final working [qc; taxon]) !! "outdir"
     = Some ("/data/out/" +:+ run_id +:+ "/taxon-abundance-0.2-output")
  /\ st_run (final working [qc; taxon]) !! "instrument_type"
     = st_run start !! "instrument_type".
Proof.
  assert (outcome working [qc; taxon] = Ok tt) as Hok by evaluate.
  unfold final, outcome in *.
  destruct (analyze_run working (settings [qc; taxon]) start)
    as [r st'] eqn:Hrun.
  cbn [fst snd] in *. subst r.
  destruct (analyze_run_writes_two_fields working (settings [qc; taxon])
              taxon start st' eq_refl Hrun)
    as (second & id & dir & Hsecond & Hid & Hdir & Hin & Hout & _ & _
        & Htype & _).
  split_and!; [by rewrite Hin, Hdir| |exact Htype].
  vm_compute in Hsecond, Hid.
  injection Hsecond as <-. injection Hid as <-.
  rewrite Hout. evaluate.
Defined.

Lemma short_name_needs_separator_witness :
  analyze_run working (settings [unnamed; qc]) start
  = (Raise IndexError, start)
  /\ fst (analyze_run working (settings [qc; taxon]) start)
     <> Raise IndexError.
Proof.
  split.
  - apply (proj1 (short_name_needs_separator working
                    (settings [unnamed; qc]) start) unnamed [qc]);
      reflexivity.
  - apply (proj2 (short_name_needs_separator working
                    (settings [qc; taxon]) start)).
    repeat constructor.
Defined.



(** ** More about run discovery *)

Section DiscoveryExtras.

Variable E : env.

(** X1: a run id on the exclusion list is never yielded as ready,
    whatever the other conditions and the symlinks flag are. *)
Theorem excluded_run_never_ready config check x subdir excluded :
  excluded_runs config = Some excluded ->
  DirEntry.name subdir ∈ excluded ->
  yielded E config check x subdir = Ok None.
Proof.
  intros Hex Hin. unfold yielded.
  rewrite find_run_dirs_body_skipped; [done|].
  apply not_true_is_false. rewrite all_conditions_iff.
  intros (_ & _ & _ & Hnot & _). by apply (Hnot excluded).
Qed.

(** X2: an entry that is not a directory is never yielded as ready,
    even when its name is a well-formed run id. *)
Theorem plain_file_never_ready config check x subdir :
  DirEntry.is_dir subdir = false ->
  yielded E config check x subdir = Ok None.
Proof.
  intros Hfile. unfold yielded.
  rewrite find_run_dirs_body_skipped; [done|].
  apply not_true_is_false. rewrite all_conditions_iff.
  intros (Hdir & _). congruence.
Qed.

(** X3: with the symlinks check enabled, an entry without
    [symlinks_complete.json] is skipped, and the one record this adds
    to the log is a [directory_skipped] record whose conditions hold
    [symlinks_complete] as false; disabling the check never loses a run:
    whatever is yielded as ready with the check is yielded, unchanged,
    without it. *)
Theorem symlinks_check_only_removes_runs config x subdir :
  (path_exists E x
     (PosixPath.join (DirEntry.path subdir) ["symlinks_complete.json"])
   = false ->
   yielded E config true x subdir = Ok None
   /\ In ("symlinks_complete", false)
        (conditions_checked E config true x subdir)
   /\ w_log (snd (find_run_dirs_body E config true subdir x))
      = (w_log x
         ++ [(DEBUG,
              directory_skipped
                (PosixPath.abspath (cwd E) (DirEntry.path subdir))
                (conditions_checked E config true x subdir))])%list)
  /\ (forall run,
        yielded E config true x subdir = Ok (Some run) ->
        yielded E config false x subdir = Ok (Some run)).
Proof.
  split.
  - intros Hno.
    assert (all (map snd (conditions_checked E config true x subdir))
            = false) as Hall.
    { apply not_true_is_false. rewrite all_conditions_iff.
      intros (_ & _ & _ & _ & Hs). specialize (Hs eq_refl). congruence. }
    split_and!.
    + unfold yielded. by rewrite find_run_dirs_body_skipped.
    + unfold conditions_checked. rewrite Hno. apply in_or_app. right.
      by left.
    + by rewrite find_run_dirs_body_skipped.
  - intros run Hrun. unfold yielded in *.
    destruct (all (map snd (conditions_checked E config true x subdir)))
      eqn:Hall.
    + rewrite find_run_dirs_body_ready in Hrun by done.
      rewrite find_run_dirs_body_ready; [done|].
      apply all_conditions_iff. apply all_conditions_iff in Hall.
      destruct Hall as (? & ? & ? & ? & _). by split_and!.
    + by rewrite find_run_dirs_body_skipped in Hrun.
Qed.

(** What one entry does to the world: one more log entry, nothing
    else. *)
Lemma find_run_dirs_body_logs config check subdir x :
  exists entry,
    snd (find_run_dirs_body E config check subdir x)
    = add_log entry.1 entry.2 x.
Proof.
  destruct (all (map snd (conditions_checked E config check x subdir)))
    eqn:Hall.
  - rewrite find_run_dirs_body_ready by done. by eexists (_, _).
  - rewrite find_run_dirs_body_skipped by done. by eexists (_, _).
Qed.

Lemma find_run_dirs_body_returns config check subdir x :
  exists y, fst (find_run_dirs_body E config check subdir x) = Ok y.
Proof.
  destruct (all (map snd (conditions_checked E config check x subdir)))
    eqn:Hall.
  - rewrite find_run_dirs_body_ready by done. eauto.
  - rewrite find_run_dirs_body_skipped by done. eauto.
Qed.

Lemma find_run_dirs_body_same config check subdir x1 x2 :
  w_fs x1 = w_fs x2 ->
  fst (find_run_dirs_body E config check subdir x1)
  = fst (find_run_dirs_body E config check subdir x2).
Proof.
  intros Hfs.
  pose proof (conditions_checked_fs E config check x1 x2 subdir Hfs) as Hc.
  destruct (all (map snd (conditions_checked E config check x1 subdir)))
    eqn:Hall.
  - rewrite (find_run_dirs_body_ready E config check x1) by done.
    rewrite (find_run_dirs_body_ready E config check x2) by congruence.
    done.
  - rewrite (find_run_dirs_body_skipped E config check x1) by done.
    rewrite (find_run_dirs_body_skipped E config check x2) by congruence.
    done.
Qed.

Lemma yield_each_logs config check : forall subdirs x,
  exists ys new,
    yield_each subdirs (find_run_dirs_body E config check) x
    = (Ok ys,
       {| w_fs := w_fs x; w_ticks := w_ticks x;
          w_log := w_log x ++ new; w_launched := w_launched x |})
    /\ List.length ys = List.length subdirs
    /\ List.length new = List.length subdirs.
Proof.
  induction subdirs as [|subdir rest IH]; intros x.
  - exists [], []. rewrite app_nil_r. by destruct x.
  - cbn [yield_each]. unfold bind at 1.
    destruct (find_run_dirs_body_logs config check subdir x)
      as [[lv ev] Hlog].
    destruct (find_run_dirs_body_returns config check subdir x)
      as [y Hy].
    destruct (find_run_dirs_body E config check subdir x) as [r x1].
    cbn [fst snd] in *. subst r x1.
    destruct (IH (add_log lv ev x)) as (ys & new & Hrest & Hys & Hnew).
    unfold bind at 1. rewrite Hrest.
    exists (y :: ys), ((lv, ev) :: new). cbn [List.length add_log
      w_fs w_ticks w_log w_launched ret].
    rewrite <- (assoc_L (++)). by rewrite Hys, Hnew.
Qed.

Lemma yield_each_same config check : forall subdirs x1 x2,
  w_fs x1 = w_fs x2 ->
  fst (yield_each subdirs (find_run_dirs_body E config check) x1)
  = fst (yield_each subdirs (find_run_dirs_body E config check) x2).
Proof.
  induction subdirs as [|subdir rest IH]; intros x1 x2 Hfs; [done|].
  cbn [yield_each]. unfold bind at 1. unfold bind at 2.
  pose proof (find_run_dirs_body_same config check subdir x1 x2 Hfs) as Hy.
  pose proof (find_run_dirs_body_fs E config check subdir x1) as H1.
  pose proof (find_run_dirs_body_fs E config check subdir x2) as H2.
  destruct (find_run_dirs_body E config check subdir x1) as [r1 y1].
  destruct (find_run_dirs_body E config check subdir x2) as [r2 y2].
  cbn [fst snd] in *. subst r2. destruct r1 as [y|e]; [|done].
  assert (w_fs y1 = w_fs y2) as Hfs' by congruence.
  specialize (IH y1 y2 Hfs'). unfold bind.
  destruct (yield_each rest _ y1) as [r1 z1].
  destruct (yield_each rest _ y2) as [r2 z2].
  cbn [fst] in IH. subst r2. by destruct r1.
Qed.

Lemma discovery_log_grows config check x :
  exists new,
    w_log (snd (find_run_dirs E config check x)) = (w_log x ++ new)%list.
Proof.
  unfold find_run_dirs, bind, get.
  destruct (Scandir.scandir (cwd E) (w_fs x) (fastq_by_run_dir config))
    as [subdirs|e].
  - destruct (yield_each_logs config check subdirs x)
      as (ys & new & -> & _). by exists new.
  - exists []. by rewrite app_nil_r.
Qed.

Lemma classic_eligible config check x subdir :
  eligible E config check x subdir \/ ~ eligible E config check x subdir.
Proof.
  rewrite <- all_conditions_iff.
  destruct (all (map snd (conditions_checked E config check x subdir)));
    [by left|by right].
Qed.

(** What stops a listing before the file system is asked: the null
    character in the path is a [ValueError], the empty path an
    [OSError]; nothing else is a [ValueError]. *)
Lemma scandir_refuses cwd fs dir :
  (PyStr.contains PyStr.nul dir = true ->
   Scandir.scandir cwd fs dir = Raise ValueError)
  /\ (dir = "" -> Scandir.scandir cwd fs dir = Raise OSError)
  /\ (forall e, Scandir.scandir cwd fs dir = Raise e ->
        (e = ValueError /\ PyStr.contains PyStr.nul dir = true)
        \/ (e = OSError /\ PyStr.contains PyStr.nul dir = false)).
Proof.
  unfold Scandir.scandir. split_and!.
  - by intros ->.
  - by intros ->.
  - intros e. destruct (PyStr.contains PyStr.nul dir);
      [intros [= <-]; by left|].
    destruct (String.eqb dir ""); [intros [= <-]; by right|].
    destruct (Fs.is_dir_node _); [done|].
    intros [= <-]. by right.
Qed.

(** X4: discovery observes and logs, nothing more.  Draining
    [find_run_dirs] leaves the file system, the clock and the launched
    processes as they were and appends to the log; when the parent can
    be listed there is exactly one result and one log entry per entry
    of the listing, and when it cannot, the exception of the listing
    reaches the caller with nothing logged.  That exception is a
    [ValueError] exactly when the configured path holds the null
    character, which always stops the listing, and an [OSError]
    otherwise, as for the empty path. *)
Theorem discovery_only_logs config check x :
  let result := find_run_dirs E config check x in
  w_fs (snd result) = w_fs x
  /\ w_ticks (snd result) = w_ticks x
  /\ w_launched (snd result) = w_launched x
  /\ match Scandir.scandir (cwd E) (w_fs x) (fastq_by_run_dir config) with
     | Ok subdirs =>
         exists ys new,
           fst result = Ok ys
           /\ List.length ys = List.length subdirs
           /\ w_log (snd result) = (w_log x ++ new)%list
           /\ List.length new = List.length subdirs
     | Raise e =>
         result = (Raise e, x)
         /\ ((e = ValueError
              /\ PyStr.contains PyStr.nul (fastq_by_run_dir config) = true)
             \/ (e = OSError
                 /\ PyStr.contains PyStr.nul (fastq_by_run_dir config)
                    = false))
     end
  /\ (PyStr.contains PyStr.nul (fastq_by_run_dir config) = true ->
      result = (Raise ValueError, x))
  /\ (fastq_by_run_dir config = "" -> result = (Raise OSError, x)).
Proof.
  cbn zeta. unfold find_run_dirs, bind, get.
  destruct (scandir_refuses (cwd E) (w_fs x) (fastq_by_run_dir config))
    as (Hnull & Hempty & Hraise).
  destruct (Scandir.scandir (cwd E) (w_fs x) (fastq_by_run_dir config))
    as [subdirs|e] eqn:Hlist.
  - destruct (yield_each_logs config check subdirs x)
      as (ys & new & -> & Hys & Hnew).
    cbn [fst snd w_fs w_ticks w_log w_launched]. split_and!; try done.
    + by exists ys, new.
    + intros Hn. by specialize (Hnull Hn).
    + intros He. by specialize (Hempty He).
  - unfold raise. split_and!; try done.
    + by apply Hraise.
    + intros Hn. by injection (Hnull Hn) as ->.
    + intros He. by injection (Hempty He) as ->.
Qed.

(** X5: what discovery yields depends on the file system alone, so a
    second pass over an unchanged tree yields the same results as the
    first, whatever was logged in between. *)
Theorem discovery_is_repeatable config check x1 x2 :
  w_fs x1 = w_fs x2 ->
  fst (find_run_dirs E config check x1)
  = fst (find_run_dirs E config check x2)
  /\ fst (find_run_dirs E config check
            (snd (find_run_dirs E config check x1)))
     = fst (find_run_dirs E config check x1).
Proof.
  assert (forall y1 y2, w_fs y1 = w_fs y2 ->
            fst (find_run_dirs E config check y1)
            = fst (find_run_dirs E config check y2)) as Hsame.
  { intros y1 y2 Hfs. unfold find_run_dirs, bind, get. rewrite Hfs.
    destruct (Scandir.scandir (cwd E) (w_fs y2) (fastq_by_run_dir config));
      [|done].
    by apply yield_each_same. }
  intros Hfs. split; [by apply Hsame|].
  apply Hsame.
  unfold find_run_dirs, bind, get.
  destruct (Scandir.scandir (cwd E) (w_fs x1) (fastq_by_run_dir config))
    as [subdirs|e]; [|done].
  by destruct (yield_each_logs config check subdirs x1)
    as (ys & new & -> & _).
Qed.

(** X6: [scan] logs [scan_start] first, also when the listing then
    fails, and always enforces the symlinks check: every entry it
    yields as ready is a directory that holds [symlinks_complete.json]
    and has nothing under the output root yet. *)
Theorem scan_logs_start_and_checks_symlinks config x :
  (exists new,
     w_log (snd (scan E config x))
     = (w_log x ++ (INFO, scan_start) :: new)%list)
  /\ match Scandir.scandir (cwd E) (w_fs x) (fastq_by_run_dir config) with
     | Ok subdirs =>
         exists ys,
           fst (scan E config x) = Ok ys
           /\ Forall2 (fun subdir y =>
                         is_Some y ->
                         DirEntry.is_dir subdir = true
                         /\ path_exists E x
                              (PosixPath.join (DirEntry.path subdir)
                                 ["symlinks_complete.json"]) = true
                         /\ path_exists E x
                              (PosixPath.join (analysis_output_dir config)
                                 [DirEntry.name subdir]) = false)
                subdirs ys
     | Raise e => fst (scan E config x) = Raise e
     end.
Proof.
  assert (scan E config x
          = find_run_dirs E config true (add_log INFO scan_start x))
    as -> by reflexivity.
  pose proof (find_run_dirs_one_result_per_entry E config true
                (add_log INFO scan_start x)) as Hone.
  pose proof (discovery_log_grows config true (add_log INFO scan_start x))
    as Hlog.
  cbn [add_log w_fs] in Hone.
  destruct (Scandir.scandir (cwd E) (w_fs x) (fastq_by_run_dir config))
    as [subdirs|e].
  - destruct Hone as (ys & x' & Hrun & _ & Hall). rewrite Hrun in *.
    split.
    + destruct Hlog as [new Hnew]. exists new.
      cbn [snd] in *. rewrite Hnew. cbn [add_log w_log].
      by rewrite <- (assoc_L (++)).
    + exists ys. split; [done|].
      eapply Forall2_impl; [exact Hall|].
      intros subdir y [Hready Hskip] [run ->].
      destruct (classic_eligible config true (add_log INFO scan_start x)
                  subdir) as [He|Hn].
      * destruct He as (? & _ & ? & _ & Hs). split_and!; try done.
        by apply Hs.
      * by specialize (Hskip Hn).
  - rewrite Hone. split; [|done]. exists []. by cbn.
Qed.

End DiscoveryExtras.

(** ** Names: run ids, short names and versions *)

Section NameFacts.
Import PyStr Re.

Lemma append_cons ch (a b : string) :
  String ch a +:+ b = String ch (a +:+ b).
Proof. reflexivity. Qed.

Lemma append_assoc (a b c : string) : (a +:+ b) +:+ c = a +:+ b +:+ c.
Proof.
  induction a as [|ch a IH]; [done|]. by rewrite !append_cons, IH.
Qed.

Lemma append_nil_r (a : string) : a +:+ "" = a.
Proof.
  induction a as [|ch a IH]; [done|]. by rewrite append_cons, IH.
Qed.

Lemma contains_append c (a b : string) :
  contains c (a +:+ b) = contains c a || contains c b.
Proof.
  induction a as [|ch a IH]; [done|].
  rewrite append_cons. cbn [contains]. rewrite IH. by rewrite orb_assoc.
Qed.

(** Joining what [split] gives back restores the string. *)
Lemma join_split c s : join (String c "") (split c s) = s.
Proof.
  induction s as [|ch s IH]; [done|].
  cbn [split]. pose proof (split_nonempty c s) as Hne.
  destruct (Ascii.eqb_spec ch c) as [->|Hch].
  - destruct (split c s) as [|w ws]; [done|].
    change (join (String c "") ("" :: w :: ws))
      with (String c (join (String c "") (w :: ws))).
    by rewrite IH.
  - destruct (split c s) as [|w ws]; [done|].
    destruct ws as [|w' ws].
    + cbn [join] in *. by rewrite IH.
    + change (join (String c "") (String ch w :: w' :: ws))
        with (String ch (join (String c "") (w :: w' :: ws))).
      by rewrite IH.
Qed.

Lemma split_pieces c s : Forall (fun w => contains c w = false) (split c s).
Proof.
  induction s as [|ch s IH]; [by repeat constructor|].
  cbn [split]. destruct (Ascii.eqb ch c) eqn:Hch.
  - by constructor.
  - pose proof (split_nonempty c s).
    destruct (split c s) as [|w ws]; [done|].
    apply Forall_cons in IH as [Hw Hws]. constructor; [|done].
    cbn [contains]. by rewrite Hch, Hw.
Qed.

Lemma join_take_prefix sep : forall l n,
  exists rest, join sep l = join sep (take n l) +:+ rest.
Proof.
  induction l as [|x l IH]; intros n.
  - exists "". by destruct n.
  - destruct n as [|n]; [by eexists|].
    cbn [take]. destruct l as [|y l].
    + exists "". rewrite take_nil. cbn [join]. by rewrite append_nil_r.
    + destruct (IH n) as [rest Hrest].
      destruct n as [|n].
      * exists (sep +:+ join sep (y :: l)). done.
      * exists rest. cbn [take] in *.
        change (join sep (x :: y :: l))
          with (x +:+ sep +:+ join sep (y :: l)).
        change (join sep (x :: y :: take n l))
          with (x +:+ sep +:+ join sep (y :: take n l)).
        by rewrite Hrest, !append_assoc.
Qed.

Lemma contains_replace c old new s :
  c <> new -> contains c s = false ->
  contains c (replace old new s) = false.
Proof.
  intros Hnew. induction s as [|ch s IH]; [done|].
  cbn [contains replace]. intros [Hch Hs]%orb_false_iff.
  rewrite IH by done. rewrite orb_false_r.
  destruct (Ascii.eqb ch old); [|done].
  apply Ascii.eqb_neq. congruence.
Qed.

Lemma replace_removes old new s :
  old <> new -> contains old (replace old new s) = false.
Proof.
  intros Hne. induction s as [|ch s IH]; [done|].
  cbn [contains replace]. rewrite IH, orb_false_r.
  destruct (Ascii.eqb ch old) eqn:Hch; [|done].
  apply Ascii.eqb_neq. congruence.
Qed.

(** X7: the minor version that names the output directory is a
    prefix of the configured version, and is the whole of it when the
    version has at most two dot-separated components. *)
Theorem minor_version_is_a_prefix pipeline :
  (exists rest,
     pipeline_version pipeline = pipeline_minor_version pipeline +:+ rest)
  /\ (List.length (split (chr 46) (pipeline_version pipeline)) <= 2 ->
      pipeline_minor_version pipeline = pipeline_version pipeline).
Proof.
  unfold pipeline_minor_version. split.
  - destruct (join_take_prefix "."
                (split (chr 46) (pipeline_version pipeline)) 2)
      as [rest Hrest].
    exists rest. rewrite <- Hrest. symmetry. apply (join_split (chr 46)).
  - intros Hlen. rewrite take_ge by done. apply (join_split (chr 46)).
Qed.

(** X8: whenever a short name can be derived from the pipeline name it
    has no underscore and no slash in it. *)
Theorem short_name_has_no_underscore_or_slash pipeline st short st' :
  pipeline_short_name pipeline st = (Ok short, st') ->
  contains (chr 95) short = false /\ contains PosixPath.sep short = false.
Proof.
  unfold pipeline_short_name, bind, index, ret, raise.
  pose proof (split_pieces PosixPath.sep (pipeline_name pipeline)) as Hp.
  destruct (split PosixPath.sep (pipeline_name pipeline) !! 1)
    as [second|] eqn:Hsecond; [|done].
  intros [= <- _]. split.
  - by apply replace_removes.
  - apply contains_replace; [done|].
    rewrite Forall_forall in Hp. apply Hp.
    by eapply list_elem_of_lookup_2.
Qed.

Lemma matches_plus p r s :
  matches (Plus p :: r) s = true ->
  exists c s',
    s = String c s' /\ p c = true
    /\ (matches (Plus p :: r) s' = true \/ matches r s' = true).
Proof.
  destruct s as [|c s']; [done|].
  cbn [matches]. intros [Hc Hrest]%andb_true_iff.
  apply orb_true_iff in Hrest. eauto.
Qed.

Lemma at_end_inv s : at_end s = true -> s = "" \/ s = newline_str.
Proof.
  destruct s as [|c [|c' s]]; cbn; [by left| |done].
  intros ->%Ascii.eqb_eq. by right.
Qed.

(** A pattern that ends in [$] and whose classes all exclude [c]
    matches no name with [c] in it. *)
Lemma anchored_pattern_excludes c : forall r s,
  c <> newline ->
  forallb (avoids c) r = true ->
  last r = Some Dollar ->
  matches r s = true ->
  contains c s = false.
Proof.
  intros r s Hnl. revert s.
  induction r as [|a r IH]; intros s Hav Hlast Hm; [done|].
  cbn [forallb] in Hav. apply andb_true_iff in Hav as [Ha Hr].
  assert (r <> [] -> forall s', matches r s' = true -> contains c s' = false)
    as Hrest.
  { intros Hne s' Hs'. apply IH; try done.
    destruct r; [done|exact Hlast]. }
  destruct a as [p|p|].
  - apply matches_one in Hm as (ch & s' & -> & Hch & Hs').
    cbn [contains avoids] in *.
    assert (Ascii.eqb ch c = false) as ->
      by (apply Ascii.eqb_neq; intros ->; by rewrite Hch in Ha).
    destruct r; [done|]. by apply Hrest.
  - destruct r as [|a' r']; [done|].
    induction s as [|ch s' IHs]; [done|].
    apply matches_plus in Hm as (? & ? & [= <- <-] & Hch & Hs').
    cbn [contains avoids] in *.
    assert (Ascii.eqb ch c = false) as ->
      by (apply Ascii.eqb_neq; intros ->; by rewrite Hch in Ha).
    destruct Hs' as [Hs'|Hs']; [by apply IHs|by apply Hrest].
  - cbn [matches] in Hm. apply andb_true_iff in Hm as [Hend Hs].
    destruct r as [|a' r']; [|by apply Hrest].
    apply at_end_inv in Hend as [->| ->]; [done|].
    cbn. rewrite orb_false_r. apply Ascii.eqb_neq. congruence.
Qed.

Lemma startswith_contains c s : startswith c s = true -> contains c s = true.
Proof. destruct s as [|ch s]; [done|]. cbn. by intros ->. Qed.

Lemma pattern_names_have_no_separator s :
  matches gridion_run_id_regex s = true
  \/ matches promethion_run_id_regex s = true ->
  contains PosixPath.sep s = false.
Proof.
  intros [H|H];
    (eapply anchored_pattern_excludes; [done| | |exact H]; reflexivity).
Qed.

(** X9: the id of a run that discovery yields as ready has no ['/']
    in it, so [os.path.join] cannot be redirected by it: the path tested
    for earlier output is the output root followed by the id. *)
Theorem ready_run_id_stays_under_output_root E config check x subdir run :
  yielded E config check x subdir = Ok (Some run) ->
  contains PosixPath.sep (DirEntry.name subdir) = false
  /\ exists glue,
       (glue = "" \/ glue = PosixPath.sep_str)
       /\ PosixPath.join (analysis_output_dir config) [DirEntry.name subdir]
          = analysis_output_dir config +:+ glue +:+ DirEntry.name subdir.
Proof.
  intros Hy. unfold yielded in Hy.
  destruct (all (map snd (conditions_checked E config check x subdir)))
    eqn:Hall; [|by rewrite find_run_dirs_body_skipped in Hy].
  apply all_conditions_iff in Hall as (_ & Hm & _).
  apply pattern_names_have_no_separator in Hm. split; [done|].
  unfold PosixPath.join. cbn [fold_left]. unfold PosixPath.join2.
  destruct (startswith PosixPath.sep (DirEntry.name subdir)) eqn:Hs.
  - apply startswith_contains in Hs. congruence.
  - destruct (_ || _); [exists ""|exists PosixPath.sep_str]; eauto.
Qed.

Ltac eat H :=
  apply matches_one in H;
  let c := fresh "c" in let s := fresh "s" in let Hc := fresh "Hc" in
  destruct H as (c & s & -> & Hc & H).

(** X10: a GridION run id is 34 characters long, and because the
    pattern ends in [$] rather than in an end-of-string anchor, the same
    34 characters followed by one newline are accepted as well. *)
Theorem gridion_id_length s :
  matches gridion_run_id_regex s = true ->
  (String.length s = 34 /\ matches gridion_run_id_regex (s +:+ newline_str)
                           = true)
  \/ (String.length s = 35
      /\ exists body, s = body +:+ newline_str
                      /\ matches gridion_run_id_regex body = true).
Proof.
  intros H.
  cbv [gridion_run_id_regex times repeat underscore app] in H.
  do 34 eat H.
  cbn [matches] in H. apply andb_true_iff in H as [Hend _].
  apply at_end_inv in Hend as [->| ->].
  - left. split; [done|].
    cbv [gridion_run_id_regex times repeat underscore app].
    rewrite !append_cons. change ("" +:+ newline_str) with newline_str.
    unfold newline_str. cbn [matches at_end].
    repeat match goal with Hc : _ = true |- _ => rewrite Hc; clear Hc end.
    reflexivity.
  - right. split; [done|].
    eexists (String _ (String _ (String _ (String _ (String _ (String _
      (String _ (String _ (String _ (String _ (String _ (String _
      (String _ (String _ (String _ (String _ (String _ (String _
      (String _ (String _ (String _ (String _ (String _ (String _
      (String _ (String _ (String _ (String _ (String _ (String _
      (String _ (String _ (String _ (String _ ""))))))))))))))))))))))
      )))))))))))).
    split; [reflexivity|].
    cbv [gridion_run_id_regex times repeat underscore app].
    cbn [matches at_end].
    repeat match goal with Hc : _ = true |- _ => rewrite Hc; clear Hc end.
    reflexivity.
Qed.

End NameFacts.

(** ** More about the dispatcher *)

Section DispatcherExtras.

Variable E : env.

(** Where a pass that raises before the [try] block leaves the state:
    untouched for [IndexError], with one clock reading for a missing
    descriptor field, and with the clock read and the two fields already
    written for a null parameter that names a missing field. *)
Lemma build_invocation_raise_state config addresses pipeline st e st1 :
  build_invocation E config addresses pipeline st = (Raise e, st1) ->
  (e = IndexError /\ st1 = st
   /\ PyStr.split PosixPath.sep (pipeline_name pipeline) !! 1 = None)
  \/ (e = KeyError "sequencing_run_id" /\ st1 = on_world add_tick st
      /\ st_run st !! "sequencing_run_id" = None)
  \/ (e = KeyError "run_dir" /\ st1 = on_world add_tick st
      /\ st_run st !! "run_dir" = None)
  \/ (exists key second run_id run_dir,
        e = KeyError key
        /\ In (key, VNone) (pipeline_parameters pipeline)
        /\ key <> "fastq_input" /\ key <> "outdir"
        /\ st_run st !! key = None
        /\ PyStr.split PosixPath.sep (pipeline_name pipeline) !! 1
           = Some second
        /\ st_run st !! "sequencing_run_id" = Some run_id
        /\ st_run st !! "run_dir" = Some run_dir
        /\ st1 = set_run "outdir"
                   (output_dir_of config run_id
                      (PyStr.replace (PyStr.chr 95) (PyStr.chr 45) second)
                      pipeline)
                   (set_run "fastq_input" run_dir (on_world add_tick st))).
Proof.
  unfold build_invocation, pipeline_short_name. intros H.
  unfold bind at 1 in H. unfold bind at 1 in H.
  destruct (index _ 1 st) as [r s'] eqn:Hidx.
  apply index_inv in Hidx as [-> Hidx].
  destruct (PyStr.split PosixPath.sep (pipeline_name pipeline) !! 1)
    as [second|] eqn:Hsecond; subst r;
    [|injection H as <- <-; by left].
  right. cbn [ret] in H. unfold bind at 1 in H. cbn [now] in H.
  unfold bind at 1 in H.
  destruct (run_get "sequencing_run_id" (on_world add_tick st))
    as [r s'] eqn:Hid.
  apply run_get_inv in Hid as [-> Hid]. cbn [on_world st_run] in Hid.
  destruct (st_run st !! "sequencing_run_id") as [run_id|] eqn:Hrid;
    subst r; [|injection H as <- <-; by left].
  right. unfold bind at 1 in H.
  destruct (run_get "run_dir" (on_world add_tick st)) as [r s'] eqn:Hrd.
  apply run_get_inv in Hrd as [-> Hrd]. cbn [on_world st_run] in Hrd.
  destruct (st_run st !! "run_dir") as [run_dir|] eqn:Hrdir;
    subst r; [|injection H as <- <-; by left].
  right. unfold bind at 1 in H. cbn [modify] in H.
  unfold bind at 1 in H. cbn [modify] in H.
  unfold bind at 1 in H.
  match type of H with
  | context [add_parameters ?ps ?cmd ?s] =>
      destruct (add_parameters ps cmd s) as [r s'] eqn:Hadd;
      pose proof (add_parameters_state ps cmd s) as Hst;
      rewrite Hadd in Hst; cbn [snd] in Hst; subst s'
  end.
  destruct r as [command'|e'].
  - exfalso. apply add_parameters_strings in Hadd.
    + apply Forall_is_str in Hadd. unfold bind at 1 in H.
      unfold join_values in H. rewrite Hadd, str_values_strs in H.
      cbn in H. discriminate.
    + destruct (send_notification_emails config) as [[]|];
        repeat constructor.
  - apply add_parameters_raise in Hadd as (key & -> & Hin & Hnone).
    injection H as <- <-. exists key, second, run_id, run_dir.
    cbn [set_run on_world st_run] in Hnone.
    apply lookup_insert_None in Hnone as [Hnone ?].
    apply lookup_insert_None in Hnone as [Hnone ?].
    by split_and!.
Qed.

(** What the [try] block does to the world, whatever the engine
    does. *)
Lemma run_invocation_world i st :
  Forall is_str (Invocation.pipeline_command i) ->
  exists r st2 new_log new_commands,
    run_invocation E i st = (r, st2)
    /\ st_run st2 = st_run st
    /\ w_log (st_world st2) = (w_log (st_world st) ++ new_log)%list
    /\ w_launched (st_world st2)
       = (w_launched (st_world st) ++ new_commands)%list
    /\ List.length new_log <= 2
    /\ List.length new_commands <= 1
    /\ w_ticks (st_world st) < w_ticks (st_world st2).
Proof.
  intros Hstr. apply Forall_is_str in Hstr.
  pose proof (str_values_strs (argv i)) as Hargs.
  unfold argv in Hargs. rewrite <- Hstr in Hargs.
  destruct (spawn E (map py_str (Invocation.pipeline_command i))
              (w_fs (st_world st))) as [[returncode| |] fs_run] eqn:Hspawn.
  - destruct (Z.eq_dec returncode 0) as [->|Hcode].
    + destruct (Fs.write (cwd E) fs_run (marker_path i)
                 (marker_content (clock E (w_ticks (st_world st)))
                    (clock E (S (w_ticks (st_world st)))))) eqn:Hwrite.
      * erewrite run_invocation_completed by done.
        eexists _, _, _, [_]. split_and!; try done; cbn; lia.
      * erewrite run_invocation_marker_failed by done.
        eexists _, _, _, [_]. split_and!; try done; cbn; lia.
    + erewrite run_invocation_failed by done.
      eexists _, _, _, [_]. split_and!; try done; cbn; lia.
  - erewrite run_invocation_not_started by done.
    eexists _, _, [_], []. split_and!; try done; cbn; try lia.
    by rewrite app_nil_r.
  - erewrite run_invocation_refused by done.
    eexists _, _, [], []. split_and!; try done; cbn; try lia.
    all: by rewrite app_nil_r.
Qed.

End DispatcherExtras.

(** ** Strings without the null character *)

Section NullFacts.
Import PyStr.

Variable E : env.

Lemma nul_free_append (a b : string) :
  nul_free a -> nul_free b -> nul_free (a +:+ b).
Proof.
  unfold nul_free. intros Ha Hb. by rewrite contains_append, Ha, Hb.
Qed.

Lemma nul_free_concat sep : forall l,
  nul_free sep -> Forall nul_free l -> nul_free (String.concat sep l).
Proof.
  intros l Hsep. induction 1 as [|x l Hx Hl IH]; [done|].
  cbn [String.concat]. destruct l as [|y l]; [done|].
  change (nul_free (x +:+ sep +:+ String.concat sep (y :: l))).
  by repeat apply nul_free_append.
Qed.

Lemma nul_free_join sep : forall l,
  nul_free sep -> Forall nul_free l -> nul_free (join sep l).
Proof.
  intros l Hsep. induction 1 as [|x l Hx Hl IH]; [done|].
  cbn [join]. destruct l as [|y l]; [done|].
  by repeat apply nul_free_append.
Qed.

Lemma nul_free_split c : forall s,
  nul_free s -> Forall nul_free (split c s).
Proof.
  unfold nul_free.
  induction s as [|ch s IH]; intros Hs; [by repeat constructor|].
  cbn [contains] in Hs. apply orb_false_iff in Hs as [Hch Hs].
  specialize (IH Hs). cbn [split].
  destruct (Ascii.eqb ch c); [by constructor|].
  destruct (split c s) as [|w ws]; [by repeat constructor; cbn; rewrite Hch|].
  apply Forall_cons in IH as [Hw Hws]. constructor; [|done].
  cbn [contains]. by rewrite Hch, Hw.
Qed.

Lemma nul_free_replace old new s :
  nul <> new -> nul_free s -> nul_free (replace old new s).
Proof. intros Hnew Hs. by apply contains_replace. Qed.

Lemma nul_free_join2 a b :
  nul_free a -> nul_free b -> nul_free (PosixPath.join2 a b).
Proof.
  intros Ha Hb. unfold PosixPath.join2.
  destruct (startswith PosixPath.sep b); [done|].
  destruct (_ || _); by repeat apply nul_free_append.
Qed.

Lemma nul_free_path_join : forall p a,
  nul_free a -> Forall nul_free p -> nul_free (PosixPath.join a p).
Proof.
  unfold PosixPath.join.
  induction p as [|b p IH]; intros a Ha Hp; [done|].
  apply Forall_cons in Hp as [Hb Hp]. cbn [fold_left].
  apply IH; [|done]. by apply nul_free_join2.
Qed.

Lemma nul_free_norm_comps n : forall comps new_comps,
  Forall nul_free comps -> Forall nul_free new_comps ->
  Forall nul_free (PosixPath.norm_comps n comps new_comps).
Proof.
  induction comps as [|comp rest IH]; intros new_comps Hc Hn.
  - cbn. by apply Forall_rev.
  - apply Forall_cons in Hc as [Hcomp Hrest]. cbn [PosixPath.norm_comps].
    destruct (_ || _)%bool; [by apply IH|].
    destruct (_ || _)%bool; apply IH; try done.
    + by constructor.
    + destruct new_comps as [|? ?]; [done|].
      by apply Forall_cons in Hn as [_ ?].
Qed.

Lemma nul_free_normpath path :
  nul_free path -> nul_free (PosixPath.normpath path).
Proof.
  intros Hp. unfold PosixPath.normpath.
  destruct (String.eqb path ""); [done|].
  cbv zeta.
  match goal with
  | |- nul_free (if String.eqb ?joined "" then _ else _) =>
      assert (nul_free joined) as Hj; [|by destruct (String.eqb joined "")]
  end.
  apply nul_free_append.
  - apply nul_free_concat; [done|]. apply Forall_forall.
    intros x Hx%list_elem_of_In%repeat_spec. by subst x.
  - apply nul_free_join; [done|].
    apply nul_free_norm_comps; [|done]. by apply nul_free_split.
Qed.

Lemma nul_free_abspath cwd path :
  nul_free cwd -> nul_free path -> nul_free (PosixPath.abspath cwd path).
Proof.
  intros Hc Hp. unfold PosixPath.abspath. apply nul_free_normpath.
  destruct (PosixPath.isabs path); [done|].
  apply nul_free_path_join; [done|]. by constructor.
Qed.

Lemma nul_free_zfill width s : nul_free s -> nul_free (zfill width s).
Proof.
  intros Hs. unfold zfill. apply nul_free_append; [|done].
  apply nul_free_concat; [done|]. apply Forall_forall.
  intros x Hx%list_elem_of_In%repeat_spec. by subst x.
Qed.

(** Decimal numerals are digits. *)
Lemma nul_free_pretty_N_go x : forall s,
  nul_free s -> nul_free (pretty_N_go x s).
Proof.
  induction (N.lt_wf_0 x) as [x _ IH]; intros s Hs.
  assert (x = 0 \/ 0 < x)%N as [->|Hpos] by lia.
  - by rewrite pretty_N_go_0.
  - rewrite pretty_N_go_step by done. apply IH; [by apply N.div_lt|].
    unfold nul_free in *. cbn [contains]. rewrite Hs, orb_false_r.
    unfold pretty_N_char. by repeat case_match.
Qed.

Lemma nul_free_pretty_nat (n : nat) : nul_free (pretty n).
Proof.
  unfold pretty, pretty_nat, pretty, pretty_N.
  case_decide; [done|]. by apply nul_free_pretty_N_go.
Qed.

Lemma nul_free_strftime t : nul_free (Datetime.strftime_compact t).
Proof.
  unfold Datetime.strftime_compact, Datetime.dd.
  do 5 (apply nul_free_append; [apply nul_free_zfill, nul_free_pretty_nat|]).
  apply nul_free_zfill, nul_free_pretty_nat.
Qed.

(** The run descriptor stays free of the null character when a field
    is written that is. *)
Lemma nul_free_run_insert key value run :
  nul_free value -> nul_free_run run ->
  nul_free_run (<[key := value]> run).
Proof. intros Hv Hr. by apply map_Forall_insert_2. Qed.

Lemma nul_free_parameter_args run : forall parameters args,
  nul_free_run run ->
  Forall (fun parameter => nul_free parameter.1
                           /\ nul_free (py_str parameter.2)) parameters ->
  parameter_args run parameters = Some args ->
  Forall nul_free args.
Proof.
  induction parameters as [|[flag value] rest IH]; intros args Hrun Hps H.
  - by injection H as <-.
  - apply Forall_cons in Hps as [[Hflag Hvalue] Hps].
    cbn [parameter_args] in H. cbn [fst snd] in *.
    destruct (resolved_value run (flag, value)) as [text|] eqn:Hres; [|done].
    destruct (parameter_args run rest) as [args'|] eqn:Hrest; [|done].
    injection H as <-. constructor; [|constructor; [|by eapply IH]].
    + by apply nul_free_append.
    + unfold resolved_value in Hres. cbn [fst snd] in Hres.
      destruct value; try (by injection Hres as <-).
      by apply (Hrun flag).
Qed.

Lemma nul_free_output_dir_name pipeline second :
  nul_free_pipeline pipeline ->
  split PosixPath.sep (pipeline_name pipeline) !! 1 = Some second ->
  nul_free (output_dir_name (replace (chr 95) (chr 45) second)
              (pipeline_minor_version pipeline)).
Proof.
  intros (Hname & Hversion & _) Hsecond. unfold output_dir_name.
  repeat apply nul_free_append; try done.
  - apply nul_free_replace; [done|].
    pose proof (nul_free_split PosixPath.sep _ Hname) as Hpieces.
    rewrite Forall_forall in Hpieces. apply Hpieces.
    by eapply list_elem_of_lookup_2.
  - unfold pipeline_minor_version. apply nul_free_join; [done|].
    apply Forall_take. by apply nul_free_split.
Qed.

Lemma existsb_nul_free (l : list string) :
  Forall nul_free l -> existsb (contains nul) l = false.
Proof.
  induction 1 as [|x l Hx _ IH]; [done|]. cbn [existsb]. by rewrite Hx, IH.
Qed.

(** A pass over inputs without the null character builds a command
    without it, and leaves a descriptor without it. *)
Lemma build_invocation_nul_free config addresses pipeline st i st1 :
  build_invocation E config addresses pipeline st = (Ok i, st1) ->
  nul_free (cwd E) -> nul_free (home E) ->
  nul_free (analysis_output_dir config) ->
  nul_free (analysis_work_dir config) ->
  Forall nul_free addresses ->
  nul_free_pipeline pipeline ->
  nul_free_run (st_run st) ->
  Forall nul_free (argv i) /\ nul_free_run (st_run st1).
Proof.
  intros (second & run_id & run_dir & args & Hsecond & Hid & Hrd & Hst
          & Hargs & -> & _)%build_invocation_ok
    Hcwd Hhome Hout Hwork Haddr Hp Hrun.
  cbn zeta in Hst, Hargs.
  pose proof (Hrun _ _ Hid) as Hrun_id. pose proof (Hrun _ _ Hrd) as Hrun_dir.
  cbn beta in Hrun_id, Hrun_dir.
  pose proof (nul_free_output_dir_name _ _ Hp Hsecond) as Hname.
  assert (nul_free_run (st_run st1)) as Hrun1.
  { rewrite Hst. apply nul_free_run_insert;
      [|by apply nul_free_run_insert].
    unfold output_dir_of. apply nul_free_path_join; [done|].
    by repeat constructor. }
  split; [|done].
  unfold argv. cbn [Invocation.pipeline_command].
  rewrite map_map. cbn [py_str]. rewrite map_id.
  apply Forall_app. split.
  - destruct Hp as (Hpname & Hpversion & _).
    unfold command_head. apply Forall_app. split.
    + repeat constructor; try done.
      * apply nul_free_path_join; [done|]. by repeat constructor.
      * unfold work_dir_of. apply nul_free_abspath; [done|].
        apply nul_free_path_join; [done|]. repeat constructor.
        do 3 (apply nul_free_append; [done|]). apply nul_free_strftime.
      * unfold trace_path_of. apply nul_free_abspath; [done|].
        apply nul_free_path_join; [done|]. repeat constructor; try done.
        by apply nul_free_append.
    + destruct (send_notification_emails config) as [[]|];
        repeat constructor. by apply nul_free_join.
  - destruct Hp as (_ & _ & Hparams).
    by eapply nul_free_parameter_args.
Qed.

End NullFacts.

Section RunExtras.

Variable E : env.

Lemma parameter_args_resolved run parameters : forall args parameter,
  parameter_args run parameters = Some args ->
  In parameter parameters ->
  is_Some (resolved_value run parameter).
Proof.
  induction parameters as [|p rest IH]; intros args parameter H Hin;
    [done|].
  cbn [parameter_args] in H.
  destruct (resolved_value run p) as [text|] eqn:Hres; [|done].
  destruct (parameter_args run rest) as [args'|] eqn:Hrest; [|done].
  destruct Hin as [<-|Hin]; [by rewrite Hres|by eapply IH].
Qed.

Lemma resolvable_after run pipeline out dir :
  resolvable run pipeline ->
  resolvable (<["outdir" := out]> (<["fastq_input" := dir]> run)) pipeline.
Proof.
  intros Hres key Hin Hf Ho. rewrite !lookup_insert_ne by done.
  by apply Hres.
Qed.

(** One pass over a descriptor that has its two fields and resolves
    the null parameters, for a pipeline whose name has a separator,
    returns or leaves with the [ValueError] of a command that holds the
    null character, which cannot happen when none of what goes into the
    command holds it; the descriptor it leaves satisfies the same
    conditions. *)
Lemma analyze_pipeline_returns config addresses pipeline st :
  has_separator pipeline ->
  is_Some (st_run st !! "sequencing_run_id") ->
  is_Some (st_run st !! "run_dir") ->
  resolvable (st_run st) pipeline ->
  exists r st2,
    analyze_pipeline E config addresses pipeline st = (r, st2)
    /\ (r = Ok tt \/ r = Raise ValueError)
    /\ is_Some (st_run st2 !! "sequencing_run_id")
    /\ is_Some (st_run st2 !! "run_dir")
    /\ (forall p, resolvable (st_run st) p -> resolvable (st_run st2) p)
    /\ (nul_free (cwd E) -> nul_free (home E) ->
        nul_free (analysis_output_dir config) ->
        nul_free (analysis_work_dir config) ->
        Forall nul_free addresses ->
        nul_free_pipeline pipeline ->
        nul_free_run (st_run st) ->
        r = Ok tt /\ nul_free_run (st_run st2)).
Proof.
  intros Hsep Hid Hrd Hres.
  destruct (build_invocation_succeeds E config addresses pipeline st)
    as (i & st1 & Hbuild); try done.
  pose proof (build_invocation_strings _ _ _ _ _ _ _ Hbuild) as [Hstr _].
  destruct (run_invocation_returns E i st1 Hstr) as [Hret Hrun].
  pose proof (spawn_refuses E (argv i) (w_fs (st_world st1))) as Hnull.
  pose proof (build_invocation_nul_free E _ _ _ _ _ _ Hbuild) as Hclean.
  pose proof Hbuild as Hok.
  apply build_invocation_ok in Hok
    as (? & ? & ? & ? & _ & _ & _ & Hst & _).
  unfold analyze_pipeline, bind. rewrite Hbuild.
  destruct (run_invocation E i st1) as [r st2] eqn:Hri. cbn [snd] in *.
  exists r, st2. split; [done|]. rewrite Hrun, Hst. split_and!.
  - destruct (fst (spawn E (argv i) (w_fs (st_world st1))));
      [left|left|right]; congruence.
  - by rewrite !lookup_insert_ne.
  - by rewrite !lookup_insert_ne.
  - intros p Hp. by apply resolvable_after.
  - intros Hcwd Hhome Hout Hwork Haddr Hp Hfree.
    destruct Hclean as [Hargv Hfree1]; try done.
    split; [|by rewrite <- Hst].
    apply existsb_nul_free in Hargv.
    destruct (fst (spawn E (argv i) (w_fs (st_world st1))));
      try congruence.
    destruct Hnull as [Hnull _]. specialize (Hnull eq_refl). congruence.
Qed.

Lemma for_each_returns config addresses : forall ps st,
  Forall has_separator ps ->
  is_Some (st_run st !! "sequencing_run_id") ->
  is_Some (st_run st !! "run_dir") ->
  Forall (resolvable (st_run st)) ps ->
  (fst (for_each ps (analyze_pipeline E config addresses) st) = Ok tt
   \/ fst (for_each ps (analyze_pipeline E config addresses) st)
      = Raise ValueError)
  /\ (nul_free (cwd E) -> nul_free (home E) ->
      nul_free (analysis_output_dir config) ->
      nul_free (analysis_work_dir config) ->
      Forall nul_free addresses ->
      Forall nul_free_pipeline ps ->
      nul_free_run (st_run st) ->
      fst (for_each ps (analyze_pipeline E config addresses) st) = Ok tt).
Proof.
  induction ps as [|p rest IH]; intros st Hsep Hid Hrd Hres;
    [split; [by left|done]|].
  apply Forall_cons in Hsep as [Hp Hsep].
  apply Forall_cons in Hres as [Hrp Hres].
  destruct (analyze_pipeline_returns config addresses p st)
    as (r & st2 & Hpass & Hr & ? & ? & Hkeep & Hfree); try done.
  rewrite for_each_cons, Hpass.
  destruct (IH st2) as [Hrest Hrest_free]; try done.
  { eapply Forall_impl; [exact Hres|]. exact Hkeep. }
  destruct Hr as [->| ->].
  - split; [done|].
    intros Hcwd Hhome Hout Hwork Haddr [Hp1 Hps]%Forall_cons Hrun.
    destruct Hfree as [_ Hrun2]; try done. by apply Hrest_free.
  - split; [by right|].
    intros Hcwd Hhome Hout Hwork Haddr [Hp1 Hps]%Forall_cons Hrun.
    by destruct Hfree as [[=] _].
Qed.

(** X11: [analyze_run] returns normally, whatever the engine does
    (exit status, failure to start, what it writes), as soon as every
    configured pipeline name has a ['/'], the descriptor has
    [sequencing_run_id] and [run_dir], every null parameter other than
    [fastq_input] and [outdir] names a field of the descriptor, and the
    null character is in none of the strings that the environment, the
    configuration and the descriptor contribute.  Without the last
    condition the one other outcome is the [ValueError] of a command
    with the null character in it. *)
Theorem analyze_run_returns config st :
  Forall has_separator (pipelines config) ->
  is_Some (st_run st !! "sequencing_run_id") ->
  is_Some (st_run st !! "run_dir") ->
  Forall (resolvable (st_run st)) (pipelines config) ->
  (fst (analyze_run E config st) = Ok tt
   \/ fst (analyze_run E config st) = Raise ValueError)
  /\ (nul_free_settings E config ->
      nul_free_run (st_run st) ->
      fst (analyze_run E config st) = Ok tt).
Proof.
  intros Hsep Hid Hrd Hres. rewrite analyze_run_unfold.
  destruct (for_each_returns config (recipients config) (pipelines config)
              st Hsep Hid Hrd Hres) as [Hor Hfree].
  split; [exact Hor|].
  intros (? & ? & ? & ? & ? & ?) Hrun. by apply Hfree.
Qed.

Lemma for_each_let_through config addresses : forall ps st,
  let_through (fst (for_each ps (analyze_pipeline E config addresses) st)).
Proof.
  induction ps as [|p rest IH]; intros st; [done|].
  rewrite for_each_cons.
  pose proof (analyze_pipeline_cases E config addresses p st) as Hc.
  destruct (analyze_pipeline E config addresses p st) as [[[]|e] st2].
  - apply IH.
  - destruct Hc as [Hc|(? & ? & _ & -> & _)]; [|done].
    apply build_invocation_raise in Hc as [(-> & _)|(key & -> & _)]; done.
Qed.

(** X12: the only exceptions [analyze_run] lets through are the
    [IndexError] of a pipeline name without ['/'], the [KeyError] of a
    missing descriptor field and the [ValueError] of a command with the
    null character in it; a failing engine ([CalledProcessError]), an
    engine that cannot be started and a marker that cannot be written
    ([OSError]) never reach the caller, and no [TypeError] arises. *)
Theorem only_lookup_errors_escape config st :
  let_through (fst (analyze_run E config st)).
Proof. rewrite analyze_run_unfold. apply for_each_let_through. Qed.

Lemma first_pass_raises config pipeline rest st e st1 :
  pipelines config = pipeline :: rest ->
  build_invocation E config (recipients config) pipeline st
  = (Raise e, st1) ->
  analyze_run E config st = (Raise e, st1).
Proof.
  intros Hps Hb. rewrite analyze_run_unfold, Hps, for_each_cons.
  unfold analyze_pipeline, bind. by rewrite Hb.
Qed.

(** X13: a descriptor without [sequencing_run_id], or with it but
    without [run_dir], makes [analyze_run] raise the [KeyError] of that
    field in its first pass: the clock has been read once, and nothing
    has been written onto the descriptor, logged or launched. *)
Theorem missing_descriptor_field config pipeline rest st :
  pipelines config = pipeline :: rest ->
  has_separator pipeline ->
  (st_run st !! "sequencing_run_id" = None ->
   analyze_run E config st
   = (Raise (KeyError "sequencing_run_id"), on_world add_tick st))
  /\ (is_Some (st_run st !! "sequencing_run_id") ->
      st_run st !! "run_dir" = None ->
      analyze_run E config st
      = (Raise (KeyError "run_dir"), on_world add_tick st)).
Proof.
  intros Hps Hsep.
  assert (forall key,
            (key = "sequencing_run_id"
             \/ (key = "run_dir"
                 /\ is_Some (st_run st !! "sequencing_run_id"))) ->
            st_run st !! key = None ->
            analyze_run E config st
            = (Raise (KeyError key), on_world add_tick st)) as Hkey.
  { intros key Hwhich Hnone.
    destruct (build_invocation E config (recipients config) pipeline st)
      as [[i|e] st1] eqn:Hb.
    - apply build_invocation_ok in Hb
        as (? & ? & ? & ? & _ & Hid & Hrd & _).
      destruct Hwhich as [->|[-> _]]; congruence.
    - pose proof Hb as Hraise.
      apply build_invocation_raise_state in Hb
        as [(_ & _ & Hno)|[(-> & -> & Hid)|[(-> & -> & Hrd)|Hparam]]].
      + apply split_second in Hno. unfold has_separator in Hsep.
        congruence.
      + destruct Hwhich as [->|[-> [? Hsome]]];
          [by eapply first_pass_raises|congruence].
      + destruct Hwhich as [->|[-> _]];
          [|by eapply first_pass_raises].
        exfalso.
        unfold build_invocation, pipeline_short_name in Hraise.
        unfold bind at 1 in Hraise. unfold bind at 1 in Hraise.
        unfold index in Hraise.
        destruct (PyStr.split PosixPath.sep (pipeline_name pipeline) !! 1);
          [|done].
        cbn [ret] in Hraise. unfold bind at 1 in Hraise.
        cbn [now] in Hraise. unfold bind at 1 in Hraise.
        unfold run_get at 1 in Hraise. unfold bind at 1 in Hraise.
        cbn [get on_world st_run] in Hraise. rewrite Hnone in Hraise.
        cbn [raise] in Hraise. congruence.
      + destruct Hparam as (? & ? & ? & ? & _ & _ & _ & _ & _ & _ & Hid
                            & Hrd & _).
        destruct Hwhich as [->|[-> _]]; congruence. }
  split.
  - intros Hnone. apply Hkey; [by left|done].
  - intros Hid Hnone. apply Hkey; [by right|done].
Qed.

(** X14: a null parameter that names a field the descriptor lacks
    makes [analyze_run] raise [KeyError] for such a parameter in its
    first pass, before anything is launched or logged, but after
    [fastq_input] and [outdir] have been written onto the caller's
    descriptor. *)
Theorem missing_parameter_field config pipeline rest st run_dir key :
  pipelines config = pipeline :: rest ->
  has_separator pipeline ->
  is_Some (st_run st !! "sequencing_run_id") ->
  st_run st !! "run_dir" = Some run_dir ->
  In (key, VNone) (pipeline_parameters pipeline) ->
  key <> "fastq_input" -> key <> "outdir" ->
  st_run st !! key = None ->
  exists missing st1,
    analyze_run E config st = (Raise (KeyError missing), st1)
    /\ In (missing, VNone) (pipeline_parameters pipeline)
    /\ st_run st !! missing = None
    /\ st_world st1 = add_tick (st_world st)
    /\ st_run st1 !! "fastq_input" = Some run_dir
    /\ is_Some (st_run st1 !! "outdir").
Proof.
  intros Hps Hsep [run_id Hid] Hrd Hin Hf Ho Hnone.
  destruct (build_invocation E config (recipients config) pipeline st)
    as [[i|e] st1] eqn:Hb.
  - exfalso. apply build_invocation_ok in Hb
      as (? & ? & ? & args & _ & _ & _ & Hst & Hargs & _).
    cbn zeta in Hst, Hargs.
    destruct (parameter_args_resolved _ _ _ _ Hargs Hin) as [text Htext].
    unfold resolved_value in Htext. cbn [fst snd] in Htext.
    rewrite Hst, !lookup_insert_ne in Htext by done. congruence.
  - pose proof Hb as Hraise.
    apply build_invocation_raise_state in Hb
      as [(_ & _ & Hno)|[(_ & _ & ?)|[(_ & _ & ?)|Hparam]]];
      [|congruence|congruence|].
    + apply split_second in Hno. unfold has_separator in Hsep. congruence.
    + destruct Hparam as (missing & second & id & dir & -> & ? & ? & ?
                          & ? & _ & _ & Hdir & ->).
      exists missing. eexists. split; [by eapply first_pass_raises|].
      cbn [set_run on_world st_run st_world]. split_and!; try done.
      * rewrite lookup_insert_ne by done. rewrite lookup_insert_eq.
        congruence.
      * by rewrite lookup_insert_eq.
Qed.

End RunExtras.

Section AttemptExtras.

Variable E : env.

(** X15: when the engine cannot be started, the pass still returns
    normally and the loop goes on; the file system is untouched, nothing
    counts as launched, and the one event logged, at error level, is
    [delete_analysis_work_dir_failed], although no deletion was
    attempted. *)
Theorem unstartable_engine_is_passed_over
  config addresses pipeline rest st i st1 fs_ignored :
  build_invocation E config addresses pipeline st = (Ok i, st1) ->
  spawn E (argv i) (w_fs (st_world st1)) = (SpawnFailed, fs_ignored) ->
  exists st2,
    analyze_pipeline E config addresses pipeline st = (Ok tt, st2)
    /\ w_fs (st_world st2) = w_fs (st_world st1)
    /\ w_launched (st_world st2) = w_launched (st_world st1)
    /\ w_log (st_world st2)
       = (w_log (st_world st1)
          ++ [(ERROR, delete_analysis_work_dir_failed
                        (Invocation.analysis_run_id i)
                        (Invocation.analysis_work_dir i))])%list
    /\ for_each (pipeline :: rest) (analyze_pipeline E config addresses) st
       = for_each rest (analyze_pipeline E config addresses) st2.
Proof.
  intros Hbuild Hspawn.
  pose proof (build_invocation_strings _ _ _ _ _ _ _ Hbuild) as [_ Hargs].
  pose proof (run_invocation_not_started E i st1 _ _ Hargs Hspawn) as Hrun.
  assert (analyze_pipeline E config addresses pipeline st
          = (Ok tt, snd (run_invocation E i st1))) as Hpass
    by (unfold analyze_pipeline, bind; by rewrite Hbuild, Hrun).
  eexists. split; [exact Hpass|]. rewrite Hrun.
  cbn [snd st_world w_fs w_log w_launched]. split_and!; try done.
  rewrite for_each_cons, Hpass. by rewrite Hrun.
Qed.


(** What one pass does to the log, the launched commands and the
    clock, however it ends. *)
Lemma analyze_pipeline_appends config addresses pipeline st :
  exists new_log new_commands,
    let st2 := snd (analyze_pipeline E config addresses pipeline st) in
    w_log (st_world st2) = (w_log (st_world st) ++ new_log)%list
    /\ w_launched (st_world st2)
       = (w_launched (st_world st) ++ new_commands)%list
    /\ List.length new_log <= 3
    /\ List.length new_commands <= 1
    /\ w_ticks (st_world st) <= w_ticks (st_world st2).
Proof.
  unfold analyze_pipeline, bind.
  destruct (build_invocation E config addresses pipeline st)
    as [[i|e] st1] eqn:Hc; cbn [snd].
  - pose proof (build_invocation_strings _ _ _ _ _ _ _ Hc) as [Hstr _].
    apply build_invocation_ok in Hc
      as (? & ? & ? & ? & _ & _ & _ & _ & _ & _ & Hw).
    destruct (run_invocation_world E i st1 Hstr)
      as (r & st2 & new_log & new_commands & Hrun & _ & Hlog & Hcmd & ? & ?
          & ?).
    rewrite Hrun. cbn [snd].
    rewrite Hw in Hlog, Hcmd, H1. cbn [add_log add_tick w_log w_launched
      w_ticks] in *.
    eexists (_ :: new_log), new_commands.
    rewrite Hlog, Hcmd, <- (assoc_L (++)). cbn [List.length].
    split_and!; try done; lia.
  - exists [], []. rewrite !app_nil_r. cbn [List.length].
    apply build_invocation_raise_state in Hc
      as [(_ & -> & _)|[(_ & -> & _)|[(_ & -> & _)|Hparam]]];
      cbn [on_world st_world add_tick w_log w_launched w_ticks];
      try (split_and!; try done; lia).
    destruct Hparam as (? & ? & ? & ? & _ & _ & _ & _ & _ & _ & _ & _ & ->).
    cbn [set_run on_world st_world add_tick w_log w_launched w_ticks].
    split_and!; try done; lia.
Qed.

Lemma for_each_appends config addresses : forall ps st,
  exists new_log new_commands,
    let st' := snd (for_each ps (analyze_pipeline E config addresses) st) in
    w_log (st_world st') = (w_log (st_world st) ++ new_log)%list
    /\ w_launched (st_world st')
       = (w_launched (st_world st) ++ new_commands)%list
    /\ List.length new_log <= 3 * List.length ps
    /\ List.length new_commands <= List.length ps
    /\ w_ticks (st_world st) <= w_ticks (st_world st').
Proof.
  induction ps as [|p rest IH]; intros st.
  - exists [], []. cbn. rewrite !app_nil_r. split_and!; try done; lia.
  - rewrite for_each_cons.
    destruct (analyze_pipeline_appends config addresses p st)
      as (log1 & cmd1 & Hlog1 & Hcmd1 & ? & ? & ?).
    destruct (analyze_pipeline E config addresses p st) as [[[]|e] st2];
      cbn [snd] in *.
    + destruct (IH st2) as (log2 & cmd2 & Hlog2 & Hcmd2 & ? & ? & ?).
      cbn zeta in *.
      exists (log1 ++ log2)%list, (cmd1 ++ cmd2)%list.
      rewrite Hlog2, Hcmd2, Hlog1, Hcmd1, <- !(assoc_L (++)).
      rewrite !length_app. cbn [List.length].
      split_and!; try done; lia.
    + exists log1, cmd1. cbn [List.length]. split_and!; try done; lia.
Qed.

(** X17: [analyze_run] only ever appends to the log and to the list of
    launched commands, and the clock only advances; it launches at most
    one command per configured pipeline and logs at most three events
    per pipeline, also when it ends in an exception. *)
Theorem analyze_run_appends config st :
  exists new_log new_commands,
    let st' := snd (analyze_run E config st) in
    w_log (st_world st') = (w_log (st_world st) ++ new_log)%list
    /\ w_launched (st_world st')
       = (w_launched (st_world st) ++ new_commands)%list
    /\ List.length new_log <= 3 * List.length (pipelines config)
    /\ List.length new_commands <= List.length (pipelines config)
    /\ w_ticks (st_world st) <= w_ticks (st_world st').
Proof. rewrite analyze_run_unfold. apply for_each_appends. Qed.

(** X18: the notification flag is on the command line exactly when
    [send_notification_emails] is configured true; its value is the
    comma-joined recipients, which is the empty string when no
    recipients are configured.  Otherwise the parameters follow the
    thirteen fixed arguments directly. *)
Theorem notification_flag config pipeline st i st1 :
  build_invocation E config (recipients config) pipeline st = (Ok i, st1) ->
  exists args,
    parameter_args (st_run st1) (pipeline_parameters pipeline) = Some args
    /\ (send_notification_emails config = Some true ->
        drop 13 (argv i)
        = ("-with-notification"
           :: PyStr.join "," (recipients config) :: args)
        /\ (notification_email_addresses config = None ->
            argv i !! 14 = Some ""))
    /\ (send_notification_emails config <> Some true ->
        drop 13 (argv i) = args).
Proof.
  intros (? & ? & ? & args & _ & _ & _ & _ & Hargs & -> & _)
    %build_invocation_ok.
  exists args. split; [exact Hargs|].
  unfold argv. cbn [Invocation.pipeline_command].
  rewrite map_map. cbn [py_str]. rewrite map_id. unfold command_head.
  split.
  - intros ->. cbn [app drop]. split; [done|].
    intros Hnone. unfold recipients. rewrite Hnone. done.
  - intros Hsend.
    destruct (send_notification_emails config) as [[]|]; done.
Qed.

(** X19: the engine is started as [nextflow run <name> -r <version>];
    the directory it is given as [-work-dir] is the one removed after a
    success, and the trace file it is asked for lies directly in the
    pipeline's output directory, named after the run. *)
Theorem fixed_arguments config addresses pipeline st i st1 :
  build_invocation E config addresses pipeline st = (Ok i, st1) ->
  take 13 (argv i)
  = ["nextflow"; "run"; pipeline_name pipeline;
     "-r"; pipeline_version pipeline;
     "-profile"; "conda";
     "--cache"; PosixPath.join (home E) [".conda/envs"];
     "-work-dir"; Invocation.analysis_work_dir i;
     "-with-trace";
     PosixPath.abspath (cwd E)
       (PosixPath.join (Invocation.analysis_output_dir i)
          [Invocation.analysis_run_id i +:+ "_trace.tsv"])].
Proof.
  intros (? & ? & ? & args & _ & _ & _ & _ & _ & -> & _)
    %build_invocation_ok.
  unfold argv. cbn [Invocation.pipeline_command
    Invocation.analysis_work_dir Invocation.analysis_output_dir
    Invocation.analysis_run_id].
  rewrite map_map. cbn [py_str]. rewrite map_id. unfold command_head.
  reflexivity.
Qed.

(** The descriptor of a ready run has the null character in none of
    its fields when the path of the entry has none. *)
Lemma ready_descriptor_nul_free E0 found check x subdir run :
  yielded E0 found check x subdir = Ok (Some run) ->
  nul_free (cwd E0) ->
  nul_free (DirEntry.path subdir) ->
  run = descriptor E0 subdir /\ nul_free_run run.
Proof.
  intros Hy Hcwd Hpath. unfold yielded in Hy.
  destruct (all (map snd (conditions_checked E0 found check x subdir)))
    eqn:Hall; [|by rewrite find_run_dirs_body_skipped in Hy].
  rewrite find_run_dirs_body_ready in Hy by done.
  cbn [fst] in Hy. injection Hy as <-. split; [done|].
  apply all_conditions_iff in Hall as (_ & Hm & _).
  repeat apply nul_free_run_insert.
  - unfold instrument_type_of. by repeat case_match.
  - destruct Hm as [Hm|Hm];
      (eapply anchored_pattern_excludes; [done| | |exact Hm]; reflexivity).
  - by apply nul_free_abspath.
  - apply map_Forall_empty.
Qed.

(** X20: discovery and dispatch fit together.  For a descriptor that
    discovery yields as ready, [analyze_run] returns normally under any
    configuration whose pipeline names all have a ['/'] and whose null
    parameters are among the five fields a descriptor can have
    ([run_dir], [sequencing_run_id], [instrument_type], [fastq_input],
    [outdir]), provided the null character is neither in the path of
    the entry nor in what the environment and the configuration
    contribute to a command. *)
Theorem discovered_run_dispatches
  E0 found check x subdir run config outside :
  yielded E0 found check x subdir = Ok (Some run) ->
  Forall has_separator (pipelines config) ->
  (forall pipeline key,
     In pipeline (pipelines config) ->
     In (key, VNone) (pipeline_parameters pipeline) ->
     In key descriptor_fields) ->
  nul_free (cwd E0) ->
  nul_free (DirEntry.path subdir) ->
  nul_free_settings E config ->
  fst (analyze_run E config {| st_run := run; st_world := outside |})
  = Ok tt.
Proof.
  intros Hy Hsep Hfields Hcwd Hpath (? & ? & ? & ? & ? & ?).
  destruct (ready_descriptor_nul_free _ _ _ _ _ _ Hy Hcwd Hpath)
    as [-> Hrun].
  rewrite analyze_run_unfold.
  destruct (for_each_returns E config (recipients config) (pipelines config)
              {| st_run := descriptor E0 subdir; st_world := outside |})
    as [_ Hfree]; cbn [st_run].
  - done.
  - unfold descriptor. by simplify_map_eq.
  - unfold descriptor. by simplify_map_eq.
  - apply Forall_forall. intros pipeline Hin%list_elem_of_In key Hkey Hf Ho.
    specialize (Hfields pipeline key Hin Hkey).
    cbn in Hfields. unfold descriptor.
    destruct Hfields as [<-|[<-|[<-|[<-|[<-|[]]]]]];
      try done; by simplify_map_eq.
  - by apply Hfree.
Qed.

End AttemptExtras.

(** ** The further properties on the concrete world *)

Import Scenario.

Ltac separated := repeat constructor; unfold has_separator; evaluate.

(** Checks on closed terms that the null character is nowhere. *)
Ltac searched :=
  unfold nul_free_settings, nul_free_pipeline, nul_free_run;
  repeat first
    [ apply conj
    | apply Forall_nil_2
    | apply Forall_cons_2
    | apply map_Forall_insert_2
    | apply map_Forall_empty
    | progress (unfold nul_free); evaluate ].

Lemma excluded_run_never_ready_witness :
  yielded working (excluding [qc]) true fresh run_entry = Ok None.
Proof.
  apply (excluded_run_never_ready working (excluding [qc]) true fresh
           run_entry {[run_id]}).
  - reflexivity.
  - by apply elem_of_singleton_2.
Defined.

Lemma plain_file_never_ready_witness :
  yielded working (settings [qc]) false fresh stray_entry = Ok None.
Proof.
  apply (plain_file_never_ready working (settings [qc]) false fresh
           stray_entry).
  reflexivity.
Defined.

Lemma symlinks_check_only_removes_runs_witness :
  (yielded working (settings [qc]) true unlinked run_entry = Ok None
   /\ In ("symlinks_complete", false)
        (conditions_checked working (settings [qc]) true unlinked run_entry)
   /\ w_log (snd (find_run_dirs_body working (settings [qc]) true run_entry
                    unlinked))
      = ([]
         ++ [(DEBUG,
              directory_skipped
                (PosixPath.abspath "/" (DirEntry.path run_entry))
                (conditions_checked working (settings [qc]) true unlinked
                   run_entry))])%list)
  /\ yielded working (settings [qc]) false unlinked run_entry
     = Ok (Some ready_run)
  /\ yielded working (settings [qc]) false fresh run_entry
     = Ok (Some ready_run).
Proof.
  split; [|split].
  - apply (proj1 (symlinks_check_only_removes_runs working (settings [qc])
                    unlinked run_entry)).
    evaluate.
  - evaluate.
  - apply (proj2 (symlinks_check_only_removes_runs working (settings [qc])
                    fresh run_entry)).
    evaluate.
Defined.

Lemma discovery_is_repeatable_witness :
  fst (find_run_dirs working (settings [qc]) true fresh)
  = fst (find_run_dirs working (settings [qc]) true
           (add_log INFO scan_start fresh))
  /\ fst (find_run_dirs working (settings [qc]) true
            (snd (find_run_dirs working (settings [qc]) true fresh)))
     = fst (find_run_dirs working (settings [qc]) true fresh).
Proof.
  apply (discovery_is_repeatable working (settings [qc]) true fresh
           (add_log INFO scan_start fresh)).
  reflexivity.
Defined.

Lemma minor_version_is_a_prefix_witness :
  (exists rest, "0.1.3" = "0.1" +:+ rest)
  /\ pipeline_minor_version taxon = "0.2".
Proof.
  split.
  - exact (proj1 (minor_version_is_a_prefix qc)).
  - apply (proj2 (minor_version_is_a_prefix taxon)). vm_compute. lia.
Defined.

Lemma short_name_has_no_underscore_or_slash_witness :
  PyStr.contains (PyStr.chr 95) "routine-nanopore-qc" = false
  /\ PyStr.contains PosixPath.sep "routine-nanopore-qc" = false.
Proof.
  apply (short_name_has_no_underscore_or_slash qc start
           "routine-nanopore-qc" start).
  reflexivity.
Defined.

Lemma ready_run_id_stays_under_output_root_witness :
  PyStr.contains PosixPath.sep (DirEntry.name run_entry) = false
  /\ exists glue,
       (glue = "" \/ glue = PosixPath.sep_str)
       /\ PosixPath.join (analysis_output_dir (settings [qc]))
            [DirEntry.name run_entry]
          = analysis_output_dir (settings [qc]) +:+ glue
            +:+ DirEntry.name run_entry.
Proof.
  apply (ready_run_id_stays_under_output_root working (settings [qc]) true
           fresh run_entry ready_run).
  evaluate.
Defined.

Lemma gridion_id_length_witness :
  (String.length run_id = 34
   /\ Re.matches Re.gridion_run_id_regex (run_id +:+ newline_str) = true)
  \/ (String.length run_id = 35
      /\ exists body, run_id = body +:+ newline_str
                      /\ Re.matches Re.gridion_run_id_regex body = true).
Proof. apply (gridion_id_length run_id). reflexivity. Defined.

Lemma analyze_run_returns_witness :
  fst (analyze_run failing (settings [qc; taxon]) start) = Ok tt.
Proof.
  destruct (analyze_run_returns failing (settings [qc; taxon]) start)
    as [_ Hfree].
  - separated.
  - exists run_id. evaluate.
  - exists ("/data/runs/" +:+ run_id). evaluate.
  - repeat constructor; intros key Hin Hf Ho; cbn in Hin;
      repeat (destruct Hin as [[= <-]|Hin]; try done); done.
  - apply Hfree.
    + searched.
    + unfold start, ready_run. cbn [st_run]. searched.
Defined.

Lemma missing_descriptor_field_witness :
  analyze_run working (settings [qc]) nameless
  = (Raise (KeyError "sequencing_run_id"), on_world add_tick nameless)
  /\ analyze_run working (settings [qc]) homeless
     = (Raise (KeyError "run_dir"), on_world add_tick homeless).
Proof.
  split.
  - apply (proj1 (missing_descriptor_field working (settings [qc]) qc []
                    nameless eq_refl eq_refl)).
    evaluate.
  - apply (proj2 (missing_descriptor_field working (settings [qc]) qc []
                    homeless eq_refl eq_refl)).
    + exists run_id. evaluate.
    + evaluate.
Defined.

Lemma missing_parameter_field_witness :
  exists missing st1,
    analyze_run working (settings [wanting]) start
    = (Raise (KeyError missing), st1)
    /\ In (missing, VNone) (pipeline_parameters wanting)
    /\ st_run start !! missing = None
    /\ st_world st1 = add_tick (st_world start)
    /\ st_run st1 !! "fastq_input" = Some ("/data/runs/" +:+ run_id)
    /\ is_Some (st_run st1 !! "outdir").
Proof.
  apply (missing_parameter_field working (settings [wanting]) wanting []
           start ("/data/runs/" +:+ run_id) "sample_sheet").
  - reflexivity.
  - reflexivity.
  - exists run_id. evaluate.
  - evaluate.
  - right. by left.
  - discriminate.
  - discriminate.
  - evaluate.
Defined.

Lemma unstartable_engine_is_passed_over_witness :
  exists st2,
    analyze_pipeline without_engine (settings [qc; taxon]) [] qc start
    = (Ok tt, st2)
    /\ w_fs (st_world st2) = disk
    /\ w_launched (st_world st2) = [].
Proof.
  destruct (unstartable_engine_is_passed_over without_engine
              (settings [qc; taxon]) [] qc [taxon] start qc_invocation
              qc_built disk)
    as (st2 & Hrun & Hfs & Hnone & _).
  - evaluate.
  - reflexivity.
  - exists st2. split; [exact Hrun|]. split; [exact Hfs|exact Hnone].
Defined.


Lemma notification_flag_witness :
  exists i st1,
    build_invocation working (notifying None [qc]) [] qc start = (Ok i, st1)
    /\ argv i !! 13 = Some "-with-notification"
    /\ argv i !! 14 = Some "".
Proof.
  destruct (build_invocation_succeeds working (notifying None [qc]) [] qc
              start) as (i & st1 & Hb).
  - unfold has_separator. evaluate.
  - exists run_id. evaluate.
  - exists ("/data/runs/" +:+ run_id). evaluate.
  - intros key Hin Hf Ho. cbn in Hin.
    repeat (destruct Hin as [[= <-]|Hin]; try done).
  - exists i, st1. split; [exact Hb|].
    destruct (notification_flag working (notifying None [qc]) qc start i st1
                Hb) as (args & _ & Hon & _).
    destruct (Hon eq_refl) as [Hdrop Hempty]. split; [|by apply Hempty].
    pose proof (lookup_drop (argv i) 13 0) as H13.
    rewrite Hdrop in H13. cbn [lookup list_lookup Nat.add] in H13.
    by symmetry.
Defined.

Lemma fixed_arguments_witness :
  take 13 (argv qc_invocation)
  = ["nextflow"; "run"; "BCCDC-PHL/routine_nanopore_qc"; "-r"; "0.1.3";
     "-profile"; "conda"; "--cache"; "/home/qc/.conda/envs";
     "-work-dir"; work_dir; "-with-trace";
     PosixPath.abspath "/"
       (PosixPath.join qc_output_dir [run_id +:+ "_trace.tsv"])].
Proof.
  apply (fixed_arguments working (settings [qc]) [] qc start qc_invocation
           qc_built).
  evaluate.
Defined.

Lemma discovered_run_dispatches_witness :
  fst (analyze_run failing (settings [qc; taxon])
         {| st_run := ready_run; st_world := fresh |})
  = Ok tt.
Proof.
  apply (discovered_run_dispatches failing working (settings [qc]) true fresh
           run_entry ready_run (settings [qc; taxon]) fresh).
  - evaluate.
  - separated.
  - intros pipeline key Hp Hkey. cbn in Hp.
    destruct Hp as [<-|[<-|[]]]; cbn in Hkey;
      repeat (destruct Hkey as [Hk|Hkey];
              [first [discriminate Hk|injection Hk as <-; cbn; tauto]|]);
      done.
  - searched.
  - searched.
  - searched.
Defined.

(** Discovery, the dispatch of what it found, and discovery again: the
    run is ready once, and is skipped as soon as the engine has created
    its output directory. *)
Example found_once :
  fst (scan working (settings [qc]) fresh) = Ok [None; Some ready_run]
  /\ fst (scan working (settings [qc])
            (st_world (final working [qc])))
     = Ok [None; None]
  /\ event_types (snd (scan without_engine (settings [qc]) empty_disk))
     = ["scan_start"].
Proof. split_and!; evaluate. Qed.

(** The null character: a command that holds it is refused before the
    engine is started, and the [ValueError] leaves [analyze_run] after
    the [analysis_started] record, with nothing launched and the disk
    untouched; a parent path that holds it stops the scan right after
    [scan_start]. *)
Example null_character_is_refused :
  outcome working [poisoned; qc] = Raise ValueError
  /\ event_types (st_world (final working [poisoned; qc]))
     = ["analysis_started"]
  /\ w_launched (st_world (final working [poisoned; qc])) = []
  /\ final_disk working [poisoned; qc] = disk
  /\ scan working misdirected fresh
     = (Raise ValueError, add_log INFO scan_start fresh)
  /\ fst (scan working (settings [qc]) empty_disk) = Raise OSError.
Proof. split_and!; evaluate. Qed.
